(** * Session-aware JSON-RPC dispatcher of google_workspace_mcp

    A shallow embedding of
      - [core/session_manager.py]      (MCPSession, SessionManager),
      - [core/custom_mcp_protocol.py]  (CustomMCPProtocol, handle_mcp_request),
      - [core/mcp_handlers.py]         (get_registered_tools),
    followed by the properties of the dispatcher and of the session store.

    Conventions of the embedding.
      - Values that travel through the dispatcher are the values that
        [json.loads] produces; they are the type [json].  Among them are the
        floats that are no numbers of JSON, and strings with a lone
        surrogate.
      - A [str] is held as the bytes of its UTF-8 encoding, a lone surrogate
        as the bytes that the error handler [surrogatepass] writes for it.
      - A Python [dict] keeps insertion order, so it is an association list
        with the assignment and deletion of a [dict] ([Dict.set], [Dict.del]).
      - Session objects are mutable and shared between the store and its
        callers: they live in a heap ([heap]) and the store maps an id to a
        reference into that heap.
      - [time.time()] and [uuid.uuid4()] are oracles of the runtime; the world
        counts how many readings were taken, so consecutive readings may
        differ.  Timestamps are integers (clock ticks).
      - A response is rendered when it is constructed, and the rendering may
        raise: at a float that is no number, at a lone surrogate, and at a
        nesting beyond the recursion limit of the interpreter.  The runtime
        gives the number of nested containers that the encoder can enter
        ([encode_depth]); it is at least four, the nesting of the envelopes
        that the server builds from its own constants.
      - Exceptions are the subclasses of [Exception]; the model is sequential
        (one request at a time). *)

From Stdlib Require Import ZArith Ascii String List Bool Lia.
From stdpp Require Import base list.
Import ListNotations.
Local Open Scope string_scope.
Local Open Scope Z_scope.
Set Warnings "-register-all".

(** ** Values *)

(** The floats that are no numbers of JSON: [json.loads] returns them for
    the literals [Infinity], [-Infinity] and [NaN], and for a number beyond
    the range of a float such as [1e400]. *)
Inductive nonfinite : Type := PosInf | NegInf | NaN.

Inductive json : Type :=
| JNull
| JBool (b : bool)
| JInt (n : Z)
| JFloat (m e : Z)            (* the float m * 2^e *)
| JNonFinite (f : nonfinite)  (* inf, -inf or nan *)
| JStr (s : string)
| JArr (l : list json)
| JObj (d : list (string * json)).

(** Python's truth value of a decoded JSON value ([if not x]). *)
Definition truthy (v : json) : bool :=
  match v with
  | JNull => false
  | JBool b => b
  | JInt n => negb (n =? 0)
  | JFloat m _ => negb (m =? 0)
  | JNonFinite _ => true
  | JStr s => negb (String.eqb s "")
  | JArr l => match l with [] => false | _ => true end
  | JObj d => match d with [] => false | _ => true end
  end.

Definition is_dict (v : json) : bool :=
  match v with JObj _ => true | _ => false end.

Definition py_type_name (v : json) : string :=
  match v with
  | JNull => "NoneType"
  | JBool _ => "bool"
  | JInt _ => "int"
  | JFloat _ _ => "float"
  | JNonFinite _ => "float"
  | JStr _ => "str"
  | JArr _ => "list"
  | JObj _ => "dict"
  end.

(** ** Strings that can be encoded

    A lone surrogate (which [json.loads] makes of an escape such as
    ["\ud800"]) has no UTF-8 encoding.  It is held as the three bytes of
    [surrogatepass]: [0xED], a byte from [0xA0] to [0xBF], and a continuation
    byte.  The UTF-8 encoding of no other code point has [0xED] followed by a
    byte of that range. *)

Definition surrogate_bytes (c c' : ascii) : bool :=
  Ascii.eqb c "237"%char
  && match c' with
     | Ascii _ _ _ _ _ b5 b6 b7 => b7 && negb b6 && b5
     end.

(** [s.encode('utf-8')] succeeds: [s] has no lone surrogate. *)
Fixpoint encodable (s : string) : bool :=
  match s with
  | String c (String c' _ as s') =>
      negb (surrogate_bytes c c') && encodable s'
  | _ => true
  end.

(** A text without lone surrogate, as [str(e)] is for the exceptions that the
    standard library raises: their messages are made of fixed ASCII texts,
    numbers, type names and [repr]s, which escape a surrogate. *)
Record plain_text : Type := PlainText {
  text : string;
  text_encodable : encodable text = true
}.

(** ** Insertion-ordered dictionaries *)

Module Dict.

Definition t (V : Type) : Type := list (string * V).

Fixpoint get {V} (k : string) (d : t V) : option V :=
  match d with
  | [] => None
  | (k', v) :: d' => if String.eqb k k' then Some v else get k d'
  end.

Definition mem {V} (k : string) (d : t V) : bool :=
  match get k d with Some _ => true | None => false end.

(** [d[k] = v]: an existing key keeps its position, a new key goes last. *)
Fixpoint set {V} (k : string) (v : V) (d : t V) : t V :=
  match d with
  | [] => [(k, v)]
  | (k', v') :: d' =>
      if String.eqb k k' then (k, v) :: d' else (k', v') :: set k v d'
  end.

(** [del d[k]] *)
Definition del {V} (k : string) (d : t V) : t V :=
  List.filter (fun kv => negb (String.eqb k (fst kv))) d.

Definition keys {V} (d : t V) : list string := map fst d.

(** [d.get(k, default)] *)
Definition get_default {V} (k : string) (default : V) (d : t V) : V :=
  match get k d with Some v => v | None => default end.

End Dict.

(** ** Exceptions and results *)

Inductive exc_class : Type :=
| ValueError
| TypeError
| AttributeError
| OtherException (name : string) (value_error_subclass : bool).

(** [isinstance(e, ValueError)], the test of [except ValueError]. *)
Definition isinstance_ValueError (c : exc_class) : bool :=
  match c with
  | ValueError => true
  | OtherException _ b => b
  | _ => false
  end.

(** An exception object: its class and [str(e)]. *)
Record exn : Type := Exn { exn_class : exc_class; exn_str : string }.

Inductive outcome (A : Type) : Type :=
| Returned (a : A)
| Raised (e : exn).
Arguments Returned {A} a.
Arguments Raised {A} e.

Definition and_then {A B} (o : outcome A) (k : A -> outcome B) : outcome B :=
  match o with
  | Returned a => k a
  | Raised e => Raised e
  end.

(** ** Callables and their introspected signatures *)

(** The annotation of a parameter as [get_tools_list] looks at it: one of the
    four classes it compares with, or any other object, known by [str()]. *)
Inductive annotation : Type :=
| AnnStr | AnnInt | AnnBool | AnnList
| AnnOther (str_of : string).

(** An [inspect.Parameter]; [None] stands for [inspect.Parameter.empty]. *)
Record Param : Type := {
  param_name : string;
  param_annotation : option annotation;
  param_default : option json
}.

(** A tool function: [__doc__], what [inspect.signature] gives (it may raise),
    and the call with keyword arguments, which returns [str(result)] or
    raises.  Synchronous and coroutine functions are called with the same
    keyword arguments and differ only in being awaited. *)
Record Callable : Type := {
  func_doc : option string;
  func_signature : outcome (list Param);
  func_call : Dict.t json -> outcome string
}.

(** The builtins and oracles of the Python runtime that the code calls. *)
Record PyRuntime : Type := {
  time_time : nat -> Z;            (* the n-th reading of time.time() *)
  uuid4 : nat -> string;           (* the n-th str(uuid.uuid4()) *)
  str_of_value : json -> string;   (* str(v) for a v that is not a str *)
  str_strip : string -> string;    (* s.strip() *)
  render_error_str : json -> plain_text;
    (* str(e) of the exception that rendering a content as JSON raises *)
  encode_depth : nat;
    (* the number of nested containers that json.dumps, called from a
       handler, can enter before the interpreter raises RecursionError *)
  encode_depth_ok : (4 <=? encode_depth)%nat = true
    (* the encoder has room for the envelopes that the server builds from
       its own constants, which nest four containers *)
}.

Definition py_str (rt : PyRuntime) (v : json) : string :=
  match v with
  | JStr s => s
  | _ => str_of_value rt v
  end.

(** [s.split('\n')[0]] *)
Fixpoint first_line (s : string) : string :=
  match s with
  | EmptyString => EmptyString
  | String c s' =>
      if Ascii.eqb c "010"%char then EmptyString else String c (first_line s')
  end.

(** [needle in hay] on two strings. *)
Fixpoint str_contains (needle hay : string) : bool :=
  String.prefix needle hay ||
  match hay with
  | EmptyString => false
  | String _ hay' => str_contains needle hay'
  end.

Definition is_JStr (k : string) (v : json) : bool :=
  match v with JStr s => String.eqb k s | _ => false end.

(** ** core/custom_mcp_protocol.py: schema inference *)

Definition special_parameters : list string := ["service"; "mcp_session_id"].

Definition name_in (k : string) (l : list string) : bool :=
  existsb (String.eqb k) l.

Definition infer_type (ann : option annotation) (param_info : Dict.t json)
  : Dict.t json :=
  match ann with
  | None => param_info
  | Some AnnStr => Dict.set "type" (JStr "string") param_info
  | Some AnnInt => Dict.set "type" (JStr "integer") param_info
  | Some AnnBool => Dict.set "type" (JStr "boolean") param_info
  | Some AnnList => Dict.set "type" (JStr "array") param_info
  | Some (AnnOther s) =>
      if String.prefix "List" s
      then Dict.set "type" (JStr "array") param_info
      else param_info
  end.

(** The loop of [get_tools_list] over [sig.parameters]. *)
Fixpoint schema_loop (params : list Param)
    (properties : Dict.t json) (required : list string)
  : Dict.t json * list string :=
  match params with
  | [] => (properties, required)
  | p :: ps =>
      if name_in (param_name p) special_parameters
      then schema_loop ps properties required
      else
        let param_info :=
          [("type", JStr "string");
           ("description", JStr ("Parameter: " ++ param_name p))] in
        let param_info := infer_type (param_annotation p) param_info in
        let required :=
          match param_default p with
          | None => (required ++ [param_name p])%list
          | Some _ => required
          end in
        schema_loop ps (Dict.set (param_name p) (JObj param_info) properties)
                    required
  end.

Definition input_schema (properties : Dict.t json) (required : list string)
  : json :=
  JObj [("type", JStr "object");
        ("properties", JObj properties);
        ("required", JArr (map JStr required))].

Section Protocol.

Variable rt : PyRuntime.

Definition tool_description (tool_name : string) (f : Callable) : string :=
  let description :=
    match func_doc f with
    | Some d => if String.eqb d "" then "Tool: " ++ tool_name else d
    | None => "Tool: " ++ tool_name
    end in
  if String.eqb description "" then description
  else first_line (str_strip rt description).

Definition tool_data (tool_name : string) (f : Callable) : json :=
  match func_signature f with
  | Returned params =>
      let '(properties, required) := schema_loop params [] [] in
      JObj [("name", JStr tool_name);
            ("description", JStr (tool_description tool_name f));
            ("inputSchema", input_schema properties required)]
  | Raised _ =>
      JObj [("name", JStr tool_name);
            ("description", JStr ("Tool: " ++ tool_name));
            ("inputSchema", input_schema [] [])]
  end.

(** [CustomMCPProtocol.get_tools_list] over [self.tools_registry]. *)
Definition get_tools_list (tools_registry : Dict.t Callable) : list json :=
  map (fun '(tool_name, tool_func) => tool_data tool_name tool_func)
      tools_registry.

Definition get_resources_list : list json := [].
Definition get_prompts_list : list json := [].

End Protocol.

(** ** core/mcp_handlers.py: the schema of the [/mcp/tools/list] route *)

Module mcp_handlers.

(** An entry of [server._tools]: [description] and [func] may be absent. *)
Record ToolInfo : Type := {
  info_description : option json;
  info_func : option Callable
}.

Definition infer_type (ann : option annotation) (param_info : Dict.t json)
  : Dict.t json :=
  match ann with
  | None => param_info
  | Some AnnStr => Dict.set "type" (JStr "string") param_info
  | Some AnnInt => Dict.set "type" (JStr "integer") param_info
  | Some AnnBool => Dict.set "type" (JStr "boolean") param_info
  | Some AnnList => Dict.set "type" (JStr "array") param_info
  | Some (AnnOther s) =>
      if String.prefix "List" s
      then Dict.set "type" (JStr "array") param_info
      else param_info
  end.

Fixpoint schema_loop (params : list Param)
    (properties : Dict.t json) (required : list string)
  : Dict.t json * list string :=
  match params with
  | [] => (properties, required)
  | p :: ps =>
      if String.eqb (param_name p) "service"
      then schema_loop ps properties required
      else
        let param_info := [("type", JStr "string")] in
        let param_info := infer_type (param_annotation p) param_info in
        match param_default p with
        | None =>
            schema_loop ps
              (Dict.set (param_name p) (JObj param_info) properties)
              (required ++ [param_name p])%list
        | Some default =>
            let param_info := Dict.set "default" default param_info in
            schema_loop ps
              (Dict.set (param_name p) (JObj param_info) properties)
              required
        end
  end.

Definition tool_data (tool_name : string) (tool_info : ToolInfo)
  : outcome json :=
  let tool_data :=
    [("name", JStr tool_name);
     ("description",
      match info_description tool_info with
      | Some d => d
      | None => JStr ("Tool: " ++ tool_name)
      end)] in
  match info_func tool_info with
  | None => Returned (JObj tool_data)
  | Some func =>
      match func_signature func with
      | Raised e => Raised e
      | Returned params =>
          let '(properties, required) := schema_loop params [] [] in
          Returned (JObj (Dict.set "inputSchema"
                            (input_schema properties required) tool_data))
      end
  end.

Fixpoint tools_loop (items : Dict.t ToolInfo) (tools : list json)
  : outcome (list json) :=
  match items with
  | [] => Returned tools
  | (tool_name, tool_info) :: items' =>
      match tool_data tool_name tool_info with
      | Raised e => Raised e
      | Returned td => tools_loop items' (tools ++ [td])%list
      end
  end.

Definition known_tools : list json :=
  [JObj [("name", JStr "start_google_auth");
         ("description",
          JStr "Initiates Google OAuth 2.0 authentication flow");
         ("inputSchema",
          JObj [("type", JStr "object");
                ("properties",
                 JObj [("service_name",
                        JObj [("type", JStr "string");
                              ("description", JStr "Google service name")]);
                       ("user_google_email",
                        JObj [("type", JStr "string");
                              ("description",
                               JStr "User's Google email")])]);
                ("required",
                 JArr [JStr "service_name"; JStr "user_google_email"])])]].

(** [get_registered_tools]; the argument is [server._tools], [None] when the
    server has no such attribute. *)
Definition get_registered_tools (server_tools : option (Dict.t ToolInfo))
  : list json :=
  let tried :=
    match server_tools with
    | Some (item :: items) => tools_loop (item :: items) []
    | _ => Returned []
    end in
  match tried with
  | Returned tools => tools
  | Raised _ => known_tools
  end.

End mcp_handlers.

(** ** core/custom_mcp_protocol.py: binding the arguments of a call *)

(** [k in arguments] for whatever value the client sent as [arguments]. *)
Definition py_contains (k : string) (arguments : json) : outcome bool :=
  match arguments with
  | JObj d => Returned (Dict.mem k d)
  | JStr s => Returned (str_contains k s)
  | JArr l => Returned (existsb (is_JStr k) l)
  | v => Raised (Exn TypeError
                   ("argument of type '" ++ py_type_name v
                    ++ "' is not iterable"))
  end.

(** [arguments[k]] *)
Definition py_getitem (k : string) (arguments : json) : outcome json :=
  match arguments with
  | JObj d =>
      match Dict.get k d with
      | Some v => Returned v
      | None => Raised (Exn (OtherException "KeyError" false)
                          ("'" ++ k ++ "'"))
      end
  | JStr _ =>
      Raised (Exn TypeError "string indices must be integers, not 'str'")
  | JArr _ =>
      Raised (Exn TypeError "list indices must be integers or slices, not str")
  | v => Raised (Exn TypeError
                   ("'" ++ py_type_name v ++ "' object is not subscriptable"))
  end.

(** [d.get(k, default)] on a value that may not be a dict. *)
Definition py_get (v : json) (k : string) (default : json) : outcome json :=
  match v with
  | JObj d => Returned (Dict.get_default k default d)
  | _ => Raised (Exn AttributeError
                   ("'" ++ py_type_name v ++ "' object has no attribute 'get'"))
  end.

(** The loop of [call_tool] over [sig.parameters]; [session_id] is the
    dispatcher's value ([None] is [JNull]). *)
Fixpoint bind_arguments (params : list Param) (arguments : json)
    (session_id : json) (call_args : Dict.t json) : outcome (Dict.t json) :=
  match params with
  | [] => Returned call_args
  | p :: ps =>
      let param_name := param_name p in
      if String.eqb param_name "mcp_session_id"
      then bind_arguments ps arguments session_id
             (Dict.set param_name session_id call_args)
      else
        match py_contains param_name arguments with
        | Raised e => Raised e
        | Returned true =>
            match py_getitem param_name arguments with
            | Raised e => Raised e
            | Returned v =>
                bind_arguments ps arguments session_id
                  (Dict.set param_name v call_args)
            end
        | Returned false =>
            match param_default p with
            | Some default =>
                bind_arguments ps arguments session_id
                  (Dict.set param_name default call_args)
            | None => bind_arguments ps arguments session_id call_args
            end
        end
  end.

Definition opt_str (s : option string) : json :=
  match s with Some s => JStr s | None => JNull end.

Section CallTool.

Variable rt : PyRuntime.
Variable tools_registry : Dict.t Callable.

(** The keyword arguments that [call_tool] passes to [tool_func]. *)
Definition call_args_of (tool_func : Callable) (arguments : json)
    (session_id : option string) : outcome (Dict.t json) :=
  match func_signature tool_func with
  | Raised e => Raised e
  | Returned params =>
      bind_arguments params arguments (opt_str session_id) []
  end.

(** [CustomMCPProtocol.call_tool]; [tool_name] is whatever the client sent
    under [params.name]. *)
Definition call_tool (tool_name : json) (arguments : json)
    (session_id : option string) : outcome string :=
  match tool_name with
  | JArr _ | JObj _ =>
      Raised (Exn TypeError
                ("unhashable type: '" ++ py_type_name tool_name ++ "'"))
  | _ =>
      let found :=
        match tool_name with
        | JStr name => Dict.get name tools_registry
        | _ => None
        end in
      match found with
      | None =>
          Raised (Exn ValueError
                    ("Tool '" ++ py_str rt tool_name ++ "' not found"))
      | Some tool_func =>
          match call_args_of tool_func arguments session_id with
          | Raised e => Raised e
          | Returned call_args => func_call tool_func call_args
          end
      end
  end.

Definition create_mcp_response (request_id : json) (result : json)
    (error : json) : json :=
  let response := [("jsonrpc", JStr "2.0"); ("id", request_id)] in
  if truthy error
  then JObj (Dict.set "error" error response)
  else JObj (Dict.set "result" result response).

Definition create_error_response (request_id : json) (code : Z)
    (message : string) (data : json) : json :=
  let error := [("code", JInt code); ("message", JStr message)] in
  let error :=
    match data with
    | JNull => error
    | _ => Dict.set "data" data error
    end in
  create_mcp_response request_id JNull (JObj error).

End CallTool.

(** ** core/session_manager.py *)

Record MCPSession : Type := {
  session_id : string;
  created_at : Z;
  last_accessed : Z;
  user_email : option string;
  initialized : bool;
  client_info : json;
  capabilities : json
}.

Definition set_last_accessed (t : Z) (s : MCPSession) : MCPSession :=
  {| session_id := session_id s; created_at := created_at s;
     last_accessed := t; user_email := user_email s;
     initialized := initialized s; client_info := client_info s;
     capabilities := capabilities s |}.

Definition set_client_info (v : json) (s : MCPSession) : MCPSession :=
  {| session_id := session_id s; created_at := created_at s;
     last_accessed := last_accessed s; user_email := user_email s;
     initialized := initialized s; client_info := v;
     capabilities := capabilities s |}.

Definition set_capabilities (v : json) (s : MCPSession) : MCPSession :=
  {| session_id := session_id s; created_at := created_at s;
     last_accessed := last_accessed s; user_email := user_email s;
     initialized := initialized s; client_info := client_info s;
     capabilities := v |}.

Definition set_initialized (b : bool) (s : MCPSession) : MCPSession :=
  {| session_id := session_id s; created_at := created_at s;
     last_accessed := last_accessed s; user_email := user_email s;
     initialized := b; client_info := client_info s;
     capabilities := capabilities s |}.

#[export] Instance MCPSession_inhabited : Inhabited MCPSession :=
  populate {| session_id := ""; created_at := 0; last_accessed := 0;
              user_email := None; initialized := false;
              client_info := JObj []; capabilities := JObj [] |}.

(** The [SessionManager] instance together with the session objects it refers
    to, and the number of readings taken from the two oracles.  A reference is
    an index into [heap]; objects are never moved. *)
Record World : Type := {
  heap : list MCPSession;
  sessions : Dict.t nat;
  session_timeout : Z;
  clock_reads : nat;
  uuid_reads : nat
}.

(** [SessionManager()] in a fresh process. *)
Definition new_manager (session_timeout : Z) : World :=
  {| heap := []; sessions := []; session_timeout := session_timeout;
     clock_reads := 0; uuid_reads := 0 |}.

Definition with_heap (h : list MCPSession) (w : World) : World :=
  {| heap := h; sessions := sessions w; session_timeout := session_timeout w;
     clock_reads := clock_reads w; uuid_reads := uuid_reads w |}.

Definition with_sessions (d : Dict.t nat) (w : World) : World :=
  {| heap := heap w; sessions := d; session_timeout := session_timeout w;
     clock_reads := clock_reads w; uuid_reads := uuid_reads w |}.

(** *** The monad of the store: state and exceptions *)

Definition M (A : Type) : Type := World -> outcome A * World.

Definition ret {A} (a : A) : M A := fun w => (Returned a, w).

Definition raise {A} (e : exn) : M A := fun w => (Raised e, w).

Definition bind {A B} (c : M A) (k : A -> M B) : M B :=
  fun w =>
    match c w with
    | (Returned a, w') => k a w'
    | (Raised e, w') => (Raised e, w')
    end.

Definition lift {A} (o : outcome A) : M A := fun w => (o, w).

Notation "'do' x <- c ; k" := (bind c (fun x => k))
  (at level 10, x name, c at level 100, k at level 200).
Notation "c ;; k" := (bind c (fun _ => k))
  (at level 100, k at level 200, right associativity).

Section SessionManager.

Variable rt : PyRuntime.

Definition time_now : M Z :=
  fun w =>
    (Returned (time_time rt (clock_reads w)),
     {| heap := heap w; sessions := sessions w;
        session_timeout := session_timeout w;
        clock_reads := S (clock_reads w); uuid_reads := uuid_reads w |}).

Definition new_uuid : M string :=
  fun w =>
    (Returned (uuid4 rt (uuid_reads w)),
     {| heap := heap w; sessions := sessions w;
        session_timeout := session_timeout w;
        clock_reads := clock_reads w; uuid_reads := S (uuid_reads w) |}).

(** Reading the object behind a reference. *)
Definition deref (r : nat) : M MCPSession :=
  fun w => (Returned (heap w !!! r), w).

(** Assigning to an attribute of the object behind a reference. *)
Definition modify (r : nat) (f : MCPSession -> MCPSession) : M unit :=
  fun w => (Returned tt, with_heap (alter f r (heap w)) w).

(** Constructing an object. *)
Definition alloc (s : MCPSession) : M nat :=
  fun w => (Returned (length (heap w)), with_heap (heap w ++ [s]) w).

(** [MCPSession.touch] *)
Definition touch (r : nat) : M unit :=
  do t <- time_now;
  modify r (set_last_accessed t).

(** [MCPSession.is_expired] *)
Definition is_expired (r : nat) (timeout_seconds : Z) : M bool :=
  do t <- time_now;
  do s <- deref r;
  ret (t - last_accessed s >? timeout_seconds).

(** [MCPSession(session_id=session_id)]: the two default factories are
    called in the order of the fields. *)
Definition new_session (session_id : string) : M nat :=
  do created <- time_now;
  do accessed <- time_now;
  alloc {| session_id := session_id; created_at := created;
           last_accessed := accessed; user_email := None;
           initialized := false; client_info := JObj [];
           capabilities := JObj [] |}.

Definition given (session_id : option string) : option string :=
  match session_id with
  | Some s => if String.eqb s "" then None else Some s
  | None => None
  end.

(** [SessionManager.create_session] *)
Definition create_session (session_id : option string) : M nat :=
  do session_id <-
     match given session_id with
     | Some s => ret s
     | None => new_uuid
     end;
  do session <- new_session session_id;
  (fun w => (Returned tt,
             with_sessions (Dict.set session_id session (sessions w)) w)) ;;
  ret session.

(** [SessionManager.get_session] *)
Definition get_session (session_id : string) : M (option nat) :=
  fun w =>
    match Dict.get session_id (sessions w) with
    | Some session =>
        (do expired <- is_expired session (session_timeout w);
         if expired
         then
           (fun w => (Returned tt,
                      with_sessions (Dict.del session_id (sessions w)) w)) ;;
           ret None
         else
           touch session ;;
           ret (Some session)) w
    | None => (Returned None, w)
    end.

(** [SessionManager.get_or_create_session] *)
Definition get_or_create_session (session_id : option string) : M nat :=
  match given session_id with
  | Some sid =>
      do session <- get_session sid;
      match session with
      | Some r => ret r
      | None => create_session session_id
      end
  | None => create_session session_id
  end.

(** [SessionManager.initialize_session]; the last step is the log line,
    which calls [client_info.get]. *)
Definition initialize_session (session_id : string) (client_info : json)
    (capabilities : json) : M bool :=
  do session <- get_session session_id;
  match session with
  | None => ret false
  | Some r =>
      modify r (set_client_info client_info) ;;
      modify r (set_capabilities capabilities) ;;
      modify r (set_initialized true) ;;
      touch r ;;
      lift (py_get client_info "name" (JStr "unknown")) ;;
      ret true
  end.

(** [SessionManager.is_session_initialized] *)
Definition is_session_initialized (session_id : string) : M bool :=
  do session <- get_session session_id;
  match session with
  | Some r => do s <- deref r; ret (initialized s)
  | None => ret false
  end.

Fixpoint expired_sessions (items : Dict.t nat) : M (list string) :=
  match items with
  | [] => ret []
  | (sid, session) :: items' =>
      fun w =>
        (do expired <- is_expired session (session_timeout w);
         do rest <- expired_sessions items';
         ret (if expired then sid :: rest else rest)) w
  end.

Fixpoint delete_sessions (sids : list string) : M unit :=
  match sids with
  | [] => ret tt
  | sid :: sids' =>
      (fun w => (Returned tt,
                 with_sessions (Dict.del sid (sessions w)) w)) ;;
      delete_sessions sids'
  end.

(** [SessionManager.cleanup_expired_sessions] *)
Definition cleanup_expired_sessions : M unit :=
  fun w =>
    (do expired <- expired_sessions (sessions w);
     delete_sessions expired) w.

(** [SessionManager.get_session_count] *)
Definition get_session_count : M nat :=
  fun w => (Returned (length (sessions w)), w).

(** [SessionManager.get_session_info] *)
Definition get_session_info (sid : string) : M (option json) :=
  do session <- get_session sid;
  match session with
  | None => ret None
  | Some r =>
      do s <- deref r;
      do t_age <- time_now;
      do t_idle <- time_now;
      do client_name <- lift (py_get (client_info s) "name" (JStr "unknown"));
      do client_version <-
         lift (py_get (client_info s) "version" (JStr "unknown"));
      ret (Some (JObj
        [("session_id", JStr (session_id s));
         ("created_at", JInt (created_at s));
         ("last_accessed", JInt (last_accessed s));
         ("age_seconds", JInt (t_age - created_at s));
         ("idle_seconds", JInt (t_idle - last_accessed s));
         ("user_email", opt_str (user_email s));
         ("initialized", JBool (initialized s));
         ("client_name", client_name);
         ("client_version", client_version)]))
  end.

End SessionManager.

(** ** fastapi.responses.JSONResponse *)

(** A [JSONResponse]: its content, its status and the headers that the
    handler sets on it. *)
Record Response : Type := {
  content : json;
  status_code : Z;
  headers : Dict.t string
}.

(** How [json.dumps(content, allow_nan=False)] fails: at a float that is
    [inf], [-inf] or [nan], or at a container that is nested deeper than the
    interpreter lets the encoder recurse. *)
Inductive dumps_error : Type := OutOfRange | TooDeep.

(** The first failure of [json.dumps], in the order of the document, when
    the encoder can enter [depth] nested containers. *)
Fixpoint dumps_failure (depth : nat) (v : json) {struct v}
  : option dumps_error :=
  match v with
  | JNonFinite _ => Some OutOfRange
  | JArr l =>
      match depth with
      | O => Some TooDeep
      | S depth' =>
          (fix items (l : list json) : option dumps_error :=
             match l with
             | [] => None
             | v' :: l' =>
                 match dumps_failure depth' v' with
                 | Some e => Some e
                 | None => items l'
                 end
             end) l
      end
  | JObj d =>
      match depth with
      | O => Some TooDeep
      | S depth' =>
          (fix members (d : list (string * json)) : option dumps_error :=
             match d with
             | [] => None
             | (_, v') :: d' =>
                 match dumps_failure depth' v' with
                 | Some e => Some e
                 | None => members d'
                 end
             end) d
      end
  | _ => None
  end.

(** No string of [v], key or value, has a lone surrogate. *)
Fixpoint strings_encodable (v : json) : bool :=
  match v with
  | JStr s => encodable s
  | JArr l => forallb strings_encodable l
  | JObj d =>
      (fix members (d : list (string * json)) : bool :=
         match d with
         | [] => true
         | (k, v') :: d' => encodable k && strings_encodable v' && members d'
         end) d
  | _ => true
  end.

(** [json.dumps(v, ...).encode("utf-8")] succeeds when the encoder can enter
    [depth] nested containers. *)
Definition renders (depth : nat) (v : json) : bool :=
  match dumps_failure depth v with
  | None => strings_encodable v
  | Some _ => false
  end.

(** A content that [JSONResponse] can render. *)
Definition renderable (rt : PyRuntime) (v : json) : bool :=
  renders (encode_depth rt) v.

(** A value that can be rendered as a member of the object of a content, one
    container down. *)
Definition renderable_member (rt : PyRuntime) (v : json) : bool :=
  renders (pred (encode_depth rt)) v.

(** The response object of a content that has been rendered. *)
Definition json_response (content : json) (status_code : Z) : Response :=
  {| content := content; status_code := status_code; headers := [] |}.

(** The exception of [JSONResponse.render], which is
    [json.dumps(content, ensure_ascii=False, allow_nan=False, ...)
     .encode("utf-8")]: [json.dumps] raises [ValueError] at a float that is
    no number and [RecursionError] at a nesting that is too deep, whichever
    it meets first; if it meets none, the encoding raises
    [UnicodeEncodeError], a subclass of [ValueError], at a lone surrogate. *)
Definition render_error (rt : PyRuntime) (content : json) : option exn :=
  match dumps_failure (encode_depth rt) content with
  | Some OutOfRange =>
      Some (Exn ValueError (text (render_error_str rt content)))
  | Some TooDeep =>
      Some (Exn (OtherException "RecursionError" false)
              (text (render_error_str rt content)))
  | None =>
      if strings_encodable content then None
      else Some (Exn (OtherException "UnicodeEncodeError" true)
                   (text (render_error_str rt content)))
  end.

(** [JSONResponse(content, status_code=status_code)]: the content is rendered
    when the response is constructed. *)
Definition JSONResponse (rt : PyRuntime) (content : json) (status_code : Z)
  : outcome Response :=
  match render_error rt content with
  | Some e => Raised e
  | None => Returned (json_response content status_code)
  end.

(** ** core/custom_mcp_protocol.py: handle_mcp_request *)

(** What [await request.body()] and [json.loads(body.decode('utf-8'))] make
    of the bytes of a request.  [Json v]: [json.loads] returned [v]. *)
Inductive body : Type :=
| EmptyBody                          (* no bytes *)
| NotUtf8 (detail : plain_text)      (* decode raises UnicodeDecodeError *)
| NotJson (detail : plain_text)      (* loads raises JSONDecodeError *)
| LoadsRaised (e_class : exc_class) (detail : plain_text)
    (* loads raises an exception of another class: RecursionError at a deep
       nesting, ValueError at an integer beyond the digit limit *)
| Json (v : json).

Record Request : Type := {
  header_mcp_session_id : option string;   (* headers.get('mcp-session-id') *)
  request_body : body
}.

Definition initialize_result : json :=
  JObj [("protocolVersion", JStr "2024-11-05");
        ("capabilities",
         JObj [("tools", JObj [("listChanged", JBool false)]);
               ("resources", JObj [("subscribe", JBool false);
                                   ("listChanged", JBool false)]);
               ("prompts", JObj [("listChanged", JBool false)]);
               ("experimental", JObj [])]);
        ("serverInfo",
         JObj [("name", JStr "google_workspace");
               ("version", JStr "1.12.0")])].

Section Dispatcher.

Variable rt : PyRuntime.
Variable tools_registry : Dict.t Callable.

(** The [initialize] branch. *)
Definition handle_initialize (sid : string) (request_id params : json)
  : M Response :=
  get_or_create_session rt (Some sid) ;;
  do client_info <- lift (py_get params "clientInfo" (JObj []));
  do capabilities <- lift (py_get params "capabilities" (JObj []));
  initialize_session rt sid client_info capabilities ;;
  let response_data := create_mcp_response request_id initialize_result JNull in
  do response <- lift (JSONResponse rt response_data 200);
  ret {| content := content response; status_code := status_code response;
         headers := Dict.set "mcp-session-id" sid (headers response) |}.

(** The [tools/call] branch.  The success response is constructed inside the
    [try], so an exception of its rendering is handled like one of the
    tool. *)
Definition handle_tools_call (sid : string) (request_id params : json)
  : M Response :=
  do tool_name <- lift (py_get params "name" JNull);
  do arguments <- lift (py_get params "arguments" (JObj []));
  if negb (truthy tool_name)
  then lift (JSONResponse rt
               (create_error_response request_id (-32602)
                  "Invalid params: Missing tool name" JNull) 400)
  else
    match and_then
            (call_tool rt tools_registry tool_name arguments (Some sid))
            (fun result =>
               JSONResponse rt
                 (create_mcp_response request_id
                    (JObj [("content",
                            JArr [JObj [("type", JStr "text");
                                        ("text", JStr result)]])])
                    JNull) 200) with
    | Returned response => ret response
    | Raised e =>
        if isinstance_ValueError (exn_class e)
        then lift (JSONResponse rt
                     (create_error_response request_id (-32601)
                        ("Method not found: " ++ exn_str e) JNull) 404)
        else lift (JSONResponse rt
                     (create_error_response request_id (-32603)
                        ("Internal error: " ++ exn_str e) JNull) 500)
    end.

(** The body of the outer [try] of [handle_mcp_request]. *)
Definition dispatch (request : Request) : M Response :=
  do sid <-
     match given (header_mcp_session_id request) with
     | Some s => ret s
     | None =>
         do session <- get_or_create_session rt None;
         do s <- deref session;
         ret (session_id s)
     end;
  match request_body request with
  | EmptyBody =>
      lift (JSONResponse rt
              (create_error_response JNull (-32700)
                 "Parse error: Empty request" JNull) 400)
  | NotUtf8 detail =>
      raise (Exn (OtherException "UnicodeDecodeError" true) (text detail))
  | NotJson detail =>
      lift (JSONResponse rt
              (create_error_response JNull (-32700)
                 ("Parse error: " ++ text detail) JNull) 400)
  | LoadsRaised e_class detail => raise (Exn e_class (text detail))
  | Json rpc_request =>
      if negb (is_dict rpc_request)
         || negb (is_JStr "2.0"
                    (match rpc_request with
                     | JObj d => Dict.get_default "jsonrpc" JNull d
                     | _ => JNull
                     end))
      then
        do request_id <- lift (py_get rpc_request "id" JNull);
        lift (JSONResponse rt
                (create_error_response request_id (-32600)
                   "Invalid Request: Not a valid JSON-RPC 2.0 request" JNull)
                400)
      else
        do request_id <- lift (py_get rpc_request "id" JNull);
        do method <- lift (py_get rpc_request "method" JNull);
        do params <- lift (py_get rpc_request "params" (JObj []));
        if negb (truthy method)
        then lift (JSONResponse rt
                     (create_error_response request_id (-32600)
                        "Invalid Request: Missing method" JNull) 400)
        else if is_JStr "initialize" method
        then handle_initialize sid request_id params
        else if is_JStr "tools/list" method
        then
          let tools := get_tools_list rt tools_registry in
          let result := JObj [("tools", JArr tools)] in
          lift (JSONResponse rt
                  (create_mcp_response request_id result JNull) 200)
        else if is_JStr "resources/list" method
        then
          let result := JObj [("resources", JArr get_resources_list)] in
          lift (JSONResponse rt
                  (create_mcp_response request_id result JNull) 200)
        else if is_JStr "prompts/list" method
        then
          let result := JObj [("prompts", JArr get_prompts_list)] in
          lift (JSONResponse rt
                  (create_mcp_response request_id result JNull) 200)
        else if is_JStr "tools/call" method
        then handle_tools_call sid request_id params
        else
          lift (JSONResponse rt
                  (create_error_response request_id (-32601)
                     ("Method not found: " ++ py_str rt method) JNull) 404)
  end.

(** [handle_mcp_request]: the outer [except Exception] turns whatever
    [dispatch] raises into a response, which it constructs in turn. *)
Definition handle_mcp_request (request : Request) (w : World)
  : outcome Response * World :=
  match dispatch request w with
  | (Returned response, w') => (Returned response, w')
  | (Raised e, w') =>
      (JSONResponse rt
         (create_error_response JNull (-32603)
            ("Internal error: " ++ exn_str e) JNull) 500,
       w')
  end.

End Dispatcher.

(** ** Observations on responses *)

(** [error.code] of a response envelope, if it has an [error] member. *)
Definition error_code (r : Response) : option Z :=
  match content r with
  | JObj d =>
      match Dict.get "error" d with
      | Some (JObj e) =>
          match Dict.get "code" e with
          | Some (JInt c) => Some c
          | _ => None
          end
      | _ => None
      end
  | _ => None
  end.

Definition error_message (r : Response) : option string :=
  match content r with
  | JObj d =>
      match Dict.get "error" d with
      | Some (JObj e) =>
          match Dict.get "message" e with
          | Some (JStr m) => Some m
          | _ => None
          end
      | _ => None
      end
  | _ => None
  end.

(** The [result] member of a response envelope. *)
Definition result_of (r : Response) : option json :=
  match content r with
  | JObj d => Dict.get "result" d
  | _ => None
  end.

(** ** The operations of the session store, and the store's invariants *)

Inductive store_op : Type :=
| CreateSession (sid : option string)
| GetSession (sid : string)
| GetOrCreateSession (sid : option string)
| InitializeSession (sid : string) (client_info capabilities : json)
| IsSessionInitialized (sid : string)
| CleanupExpiredSessions
| GetSessionCount
| GetSessionInfo (sid : string).

(** The world after an operation of the store, whatever it returned. *)
Definition run_op (rt : PyRuntime) (op : store_op) (w : World) : World :=
  match op with
  | CreateSession sid => snd (create_session rt sid w)
  | GetSession sid => snd (get_session rt sid w)
  | GetOrCreateSession sid => snd (get_or_create_session rt sid w)
  | InitializeSession sid ci caps => snd (initialize_session rt sid ci caps w)
  | IsSessionInitialized sid => snd (is_session_initialized rt sid w)
  | CleanupExpiredSessions => snd (cleanup_expired_sessions rt w)
  | GetSessionCount => snd (get_session_count w)
  | GetSessionInfo sid => snd (get_session_info rt sid w)
  end.

(** The world after a sequence of operations. *)
Fixpoint run_ops (rt : PyRuntime) (ops : list store_op) (w : World) : World :=
  match ops with
  | [] => w
  | op :: ops' => run_ops rt ops' (run_op rt op w)
  end.

(** The clock never runs backwards. *)
Definition monotone_clock (rt : PyRuntime) : Prop :=
  forall i j : nat, (i <= j)%nat -> time_time rt i <= time_time rt j.

(** No object carries a timestamp later than the next reading of the clock. *)
Definition heap_in_past (rt : PyRuntime) (w : World) : Prop :=
  forall (r : nat) (s : MCPSession),
    heap w !! r = Some s -> last_accessed s <= time_time rt (clock_reads w).

(** Every reference held by the store points to an object. *)
Definition well_formed (w : World) : Prop :=
  forall (sid : string) (r : nat),
    Dict.get sid (sessions w) = Some r -> (r < length (heap w))%nat.

(** The idle time a lookup at world [w] computes for the object [s]. *)
Definition idle_time (rt : PyRuntime) (w : World) (s : MCPSession) : Z :=
  time_time rt (clock_reads w) - last_accessed s.

(** A session is stored under [sid] and its idle time is within the timeout. *)
Definition live (rt : PyRuntime) (w : World) (sid : string) : bool :=
  match Dict.get sid (sessions w) with
  | Some r => negb (idle_time rt w (heap w !!! r) >? session_timeout w)
  | None => false
  end.

(** The invariant of the store. *)
Definition store_ok (rt : PyRuntime) (w : World) : Prop :=
  heap_in_past rt w /\ well_formed w.

(** How a world may have changed: objects stay, their [last_accessed] does not
    decrease, the invariant holds again, and an id is bound either to the
    object it was bound to or to an object not older than the start. *)
Definition evolves (rt : PyRuntime) (w w' : World) : Prop :=
  (clock_reads w <= clock_reads w')%nat
  /\ (forall r s, heap w !! r = Some s ->
        exists s', heap w' !! r = Some s'
                   /\ last_accessed s <= last_accessed s')
  /\ store_ok rt w'
  /\ (forall sid r', Dict.get sid (sessions w') = Some r' ->
        Dict.get sid (sessions w) = Some r'
        \/ exists s', heap w' !! r' = Some s'
                      /\ time_time rt (clock_reads w) <= last_accessed s').

Definition preserves (rt : PyRuntime) {A} (c : M A) : Prop :=
  forall w, store_ok rt w -> evolves rt w (snd (c w)).

(** The three list methods of the dispatcher. *)
Definition is_list_method (method : json) : bool :=
  is_JStr "tools/list" method
  || is_JStr "resources/list" method
  || is_JStr "prompts/list" method.

(** A JSON-RPC 2.0 request envelope with the given members. *)
Definition rpc (request_id : json) (method : string) (params : json) : body :=
  Json (JObj [("jsonrpc", JStr "2.0"); ("id", request_id);
              ("method", JStr method); ("params", params)]).

(** ** Vocabulary of the statements *)

(** The JSON-Schema type that [get_tools_list] ends up with for an
    annotation. *)
Definition declared_type (ann : option annotation) : string :=
  match ann with
  | Some AnnInt => "integer"
  | Some AnnBool => "boolean"
  | Some AnnList => "array"
  | Some (AnnOther s) => if String.prefix "List" s then "array" else "string"
  | Some AnnStr | None => "string"
  end.

Definition visible (p : Param) : bool :=
  negb (name_in (param_name p) special_parameters).

Definition has_default (p : Param) : bool :=
  match param_default p with Some _ => true | None => false end.

(** The entry that [get_tools_list] stores for a parameter. *)
Definition schema_entry (p : Param) : json :=
  JObj [("type", JStr (declared_type (param_annotation p)));
        ("description", JStr ("Parameter: " ++ param_name p))].

Definition names (params : list Param) : list string := map param_name params.

(** [MCPSession.is_expired] of the object [s] when the clock reads [t]. *)
Definition expired_at (t timeout_seconds : Z) (s : MCPSession) : bool :=
  t - last_accessed s >? timeout_seconds.

(** The last reading that was taken from the clock. *)
Definition last_reading (rt : PyRuntime) (w : World) : Z :=
  time_time rt (pred (clock_reads w)).

(** An outcome that, if it is an exception, has a [str] without lone
    surrogate. *)
Definition plain_exception {A} (o : outcome A) : Prop :=
  forall e, o = Raised e -> encodable (exn_str e) = true.

(** The answer of the outer handler of [handle_mcp_request] to an exception
    whose [str] is [message]. *)
Definition internal_error (message : string) : Response :=
  json_response
    (create_error_response JNull (-32603) ("Internal error: " ++ message)
       JNull) 500.

(** The answer to a request whose branch constructs
    [JSONResponse(content, status_code)] outside the inner [try]: that
    response, or the answer of the outer handler when the content cannot be
    rendered. *)
Definition rendered_or_internal_error (rt : PyRuntime) (content : json)
    (status_code : Z) : Response :=
  if renderable rt content then json_response content status_code
  else internal_error (text (render_error_str rt content)).

(** The result of a list method: the registry contents, or nothing. *)
Definition list_result (rt : PyRuntime) (tools_registry : Dict.t Callable)
    (method : json) : json :=
  if is_JStr "tools/list" method
  then JObj [("tools", JArr (get_tools_list rt tools_registry))]
  else if is_JStr "resources/list" method
  then JObj [("resources", JArr [])]
  else JObj [("prompts", JArr [])].

(** The object that [MCPSession(session_id=sid)] constructs at world [w]. *)
Definition fresh_session (rt : PyRuntime) (sid : string) (w : World)
  : MCPSession :=
  {| session_id := sid;
     created_at := time_time rt (clock_reads w);
     last_accessed := time_time rt (S (clock_reads w));
     user_email := None; initialized := false;
     client_info := JObj []; capabilities := JObj [] |}.

(** The id under which [create_session] stores the new object. *)
Definition new_id (rt : PyRuntime) (sid : option string) (w : World) : string :=
  match given sid with
  | Some s => s
  | None => uuid4 rt (uuid_reads w)
  end.

(** The world after [create_session sid]. *)
Definition created (rt : PyRuntime) (sid : option string) (w : World) : World :=
  {| heap := heap w ++ [fresh_session rt (new_id rt sid w) w];
     sessions := Dict.set (new_id rt sid w) (length (heap w)) (sessions w);
     session_timeout := session_timeout w;
     clock_reads := S (S (clock_reads w));
     uuid_reads := match given sid with
                   | Some _ => uuid_reads w
                   | None => S (uuid_reads w)
                   end |}.

(** The world after a lookup that found the session [sid] expired. *)
Definition expired (sid : string) (w : World) : World :=
  {| heap := heap w;
     sessions := Dict.del sid (sessions w);
     session_timeout := session_timeout w;
     clock_reads := S (clock_reads w);
     uuid_reads := uuid_reads w |}.

(** The world after a lookup that found the object [r] alive and touched
    it. *)
Definition touched (rt : PyRuntime) (r : nat) (w : World) : World :=
  {| heap := alter (set_last_accessed (time_time rt (S (clock_reads w)))) r
               (heap w);
     sessions := sessions w;
     session_timeout := session_timeout w;
     clock_reads := S (S (clock_reads w));
     uuid_reads := uuid_reads w |}.

(** The world after [initialize_session] on the object [r], found alive. *)
Definition initialized_world (rt : PyRuntime) (r : nat)
    (client_info capabilities : json) (w : World) : World :=
  {| heap :=
       alter (set_last_accessed (time_time rt (S (S (clock_reads w))))) r
         (alter (set_initialized true) r
            (alter (set_capabilities capabilities) r
               (alter (set_client_info client_info) r
                  (heap (touched rt r w)))));
     sessions := sessions w;
     session_timeout := session_timeout w;
     clock_reads := S (S (S (clock_reads w)));
     uuid_reads := uuid_reads w |}.

(** ** Sample runtimes, tools and requests *)

Module Sample.

Definition digit (n : nat) : string :=
  String (ascii_of_nat (48 + n)) EmptyString.

(** The messages of the exceptions of the rendering: of [json.dumps] for a
    float that is no number and for a nesting that is too deep, and of
    [encode] for a lone surrogate. *)
Definition not_compliant : plain_text :=
  PlainText "Out of range float values are not JSON compliant" eq_refl.

Definition too_deep : plain_text :=
  PlainText "maximum recursion depth exceeded while encoding a JSON object"
    eq_refl.

Definition not_encodable : plain_text :=
  PlainText "'utf-8' codec can't encode character: surrogates not allowed"
    eq_refl.

Definition render_message (v : json) : plain_text :=
  match dumps_failure 64 v with
  | Some OutOfRange => not_compliant
  | Some TooDeep => too_deep
  | None => not_encodable
  end.

(** A clock that advances by one tick at every reading. *)
Definition rt : PyRuntime :=
  {| time_time := fun n => Z.of_nat n;
     uuid4 := fun n => "generated-" ++ digit n;
     str_of_value := fun v => "<" ++ py_type_name v ++ ">";
     str_strip := fun s => s;
     render_error_str := render_message;
     encode_depth := 64;
     encode_depth_ok := eq_refl |}.

(** A clock that jumps by 5000 ticks after its second reading. *)
Definition rt_jump : PyRuntime :=
  {| time_time := fun n => if (n <? 2)%nat then 0 else 5000;
     uuid4 := fun n => "generated-" ++ digit n;
     str_of_value := fun v => "<" ++ py_type_name v ++ ">";
     str_strip := fun s => s;
     render_error_str := render_message;
     encode_depth := 64;
     encode_depth_ok := eq_refl |}.

(** A clock that is set back by 50 ticks after its second reading. *)
Definition rt_back : PyRuntime :=
  {| time_time := fun n => if (n <? 2)%nat then 100 else 50;
     uuid4 := fun n => "generated-" ++ digit n;
     str_of_value := fun v => "<" ++ py_type_name v ++ ">";
     str_strip := fun s => s;
     render_error_str := render_message;
     encode_depth := 64;
     encode_depth_ok := eq_refl |}.

Definition param (name : string) (ann : option annotation)
    (default : option json) : Param :=
  {| param_name := name; param_annotation := ann;
     param_default := default |}.

(** [def add(a: str, b: int = 5)], which returns normally. *)
Definition add : Callable :=
  {| func_doc := Some "Add b to a";
     func_signature :=
       Returned [param "a" (Some AnnStr) None;
                 param "b" (Some AnnInt) (Some (JInt 5))];
     func_call := fun _ => Returned "done" |}.

(** [def search(service, mcp_session_id, query: str)], which answers with
    the service it was called with. *)
Definition search : Callable :=
  {| func_doc := Some "Search";
     func_signature :=
       Returned [param "service" None None;
                 param "mcp_session_id" None None;
                 param "query" (Some AnnStr) None];
     func_call := fun kwargs =>
       match Dict.get "service" kwargs with
       | Some (JStr s) => Returned s
       | _ => Returned "no service"
       end |}.

(** [def parse(text: str)], which raises [ValueError("bad input")]. *)
Definition parse : Callable :=
  {| func_doc := None;
     func_signature := Returned [param "text" (Some AnnStr) None];
     func_call := fun _ => Raised (Exn ValueError "bad input") |}.

Definition tools_registry : Dict.t Callable :=
  [("add", add); ("search", search); ("parse", parse)].

(** [server._tools] holding one tool, without a description of its own. *)
Definition server_tools (name : string) (f : Callable)
  : option (Dict.t mcp_handlers.ToolInfo) :=
  Some [(name, {| mcp_handlers.info_description := None;
                  mcp_handlers.info_func := Some f |})].

Definition request (header : option string) (b : body) : Request :=
  {| header_mcp_session_id := header; request_body := b |}.

Definition call (name : string) (arguments : json) : body :=
  rpc (JInt 1) "tools/call"
      (JObj [("name", JStr name); ("arguments", arguments)]).

End Sample.

(** * Further code of the repository *)

(** ** Vocabulary of the further statements *)

(** The HTTP status that [handle_mcp_request] pairs with an error code. *)
Definition status_of_code (code : Z) : Z :=
  if (code =? -32601) then 404
  else if (code =? -32603) then 500
  else 400.

Definition error_codes : list Z := [-32700; -32600; -32601; -32602; -32603].

(** The [id] member of a response envelope. *)
Definition id_of (r : Response) : option json :=
  match content r with
  | JObj d => Dict.get "id" d
  | _ => None
  end.

(** The [jsonrpc] member of a response envelope. *)
Definition jsonrpc_of (r : Response) : option json :=
  match content r with
  | JObj d => Dict.get "jsonrpc" d
  | _ => None
  end.

(** The two shapes of a response of the dispatcher, for a given [id]. *)
Definition error_envelope (request_id : json) (r : Response) : Prop :=
  exists code message,
    r = json_response (create_error_response request_id code message JNull)
          (status_of_code code)
    /\ In code error_codes.

Definition success_envelope (request_id : json) (r : Response) : Prop :=
  exists result hs,
    r = {| content := create_mcp_response request_id result JNull;
           status_code := 200; headers := hs |}.

Definition envelope (request_id : json) (r : Response) : Prop :=
  error_envelope request_id r \/ success_envelope request_id r.

(** The [id] member of the body of a request, [null] when the body has
    none. *)
Definition request_id_of (b : body) : json :=
  match b with
  | Json (JObj d) => Dict.get_default "id" JNull d
  | _ => JNull
  end.

(** The session id that [handle_mcp_request] works with: the header, or the
    id of the session it creates when there is none. *)
Definition session_of (rt : PyRuntime) (request : Request) (w : World)
  : string :=
  match given (header_mcp_session_id request) with
  | Some sid => sid
  | None => new_id rt None w
  end.

(** The world after the first step of [handle_mcp_request]. *)
Definition after_session_step (rt : PyRuntime) (request : Request) (w : World)
  : World :=
  match given (header_mcp_session_id request) with
  | Some _ => w
  | None => created rt None w
  end.

Definition known_methods : list string :=
  ["initialize"; "tools/list"; "resources/list"; "prompts/list"; "tools/call"].

Definition is_known_method (method : json) : bool :=
  existsb (fun k => is_JStr k method) known_methods.

(** The session stored under an id carries that id. *)
Definition keys_consistent (w : World) : Prop :=
  forall (sid : string) (r : nat),
    Dict.get sid (sessions w) = Some r ->
    exists s, heap w !! r = Some s /\ session_id s = sid.

(** The consistency of the store: references point to objects, the object
    stored under an id carries that id, and [sessions] has no key twice. *)
Definition consistent (w : World) : Prop :=
  well_formed w /\ keys_consistent w /\ List.NoDup (Dict.keys (sessions w)).

(** [s'] is [s] up to [last_accessed]. *)
Definition same_but_last_accessed (s s' : MCPSession) : Prop :=
  s' = set_last_accessed (last_accessed s') s.

(** [s'] has the id, the creation time and the user of [s], and is
    initialized if [s] is. *)
Definition same_identity (s s' : MCPSession) : Prop :=
  session_id s' = session_id s
  /\ created_at s' = created_at s
  /\ user_email s' = user_email s
  /\ (initialized s = true -> initialized s' = true).

(** The objects of [w] are in [w'], each related to itself by [Q]. *)
Definition objects_related (Q : MCPSession -> MCPSession -> Prop)
    (w w' : World) : Prop :=
  forall r s, heap w !! r = Some s ->
    exists s', heap w' !! r = Some s' /\ Q s s'.

(** The bindings of [w'] are bindings of [w], or bindings to objects that
    did not exist in [w]. *)
Definition bindings_kept (w w' : World) : Prop :=
  (length (heap w) <= length (heap w'))%nat
  /\ forall sid r',
       Dict.get sid (sessions w') = Some r' ->
       Dict.get sid (sessions w) = Some r' \/ (length (heap w) <= r')%nat.

(** A computation whose final world is related to its initial world. *)
Definition steps (R : World -> World -> Prop) {A} (c : M A) : Prop :=
  forall w, R w (snd (c w)).

(** The relation of a world to the worlds in which [consistent] still
    holds if it held. *)
Definition stays_consistent (w w' : World) : Prop :=
  consistent w -> consistent w'.

Definition is_initialize (op : store_op) : bool :=
  match op with InitializeSession _ _ _ => true | _ => false end.

(** The ids that the sweep finds expired: the entry at position [i] is
    checked against the reading [n + i] of the clock. *)
Fixpoint expired_keys (rt : PyRuntime) (h : list MCPSession) (timeout : Z)
    (n : nat) (items : Dict.t nat) : list string :=
  match items with
  | [] => []
  | (sid, r) :: items' =>
      let rest := expired_keys rt h timeout (S n) items' in
      if expired_at (time_time rt n) timeout (h !!! r)
      then sid :: rest else rest
  end.

(** The world after the sweep. *)
Definition swept (rt : PyRuntime) (w : World) : World :=
  {| heap := heap w;
     sessions :=
       fold_left (fun d sid => Dict.del sid d)
         (expired_keys rt (heap w) (session_timeout w) (clock_reads w)
            (sessions w))
         (sessions w);
     session_timeout := session_timeout w;
     clock_reads := clock_reads w + length (sessions w);
     uuid_reads := uuid_reads w |}.

(** The [name] member of an entry of a tools list. *)
Definition name_of (tool : json) : option json :=
  match tool with
  | JObj d => Dict.get "name" d
  | _ => None
  end.

(** The [description] member of an entry of a tools list. *)
Definition description_of (tool : json) : option json :=
  match tool with
  | JObj d => Dict.get "description" d
  | _ => None
  end.

(** The [inputSchema] member of an entry of a tools list. *)
Definition schema_of (tool : json) : option json :=
  match tool with
  | JObj d => Dict.get "inputSchema" d
  | _ => None
  end.

Definition newline : ascii := "010"%char.

(** [c in s] for a character [c]. *)
Fixpoint has_char (c : ascii) (s : string) : bool :=
  match s with
  | EmptyString => false
  | String c' s' => Ascii.eqb c' c || has_char c s'
  end.

(** [inspect.signature] can read the function of the entry, if it has one. *)
Definition readable (tool_info : mcp_handlers.ToolInfo) : bool :=
  match mcp_handlers.info_func tool_info with
  | Some func =>
      match func_signature func with Returned _ => true | Raised _ => false end
  | None => true
  end.

(** The entry that [get_registered_tools] stores for a parameter. *)
Definition registered_entry (p : Param) : json :=
  JObj (match param_default p with
        | Some default =>
            [("type", JStr (declared_type (param_annotation p)));
             ("default", default)]
        | None => [("type", JStr (declared_type (param_annotation p)))]
        end).

(** ** core/custom_mcp_protocol.py: discovery of the tools *)

(** What [_discover_tools] sees of the FastMCP [server]: its [_tools], [None]
    when it has no such attribute, and the names of [dir(server)] in order,
    each with what [getattr] gives: an exception, an object without
    [__mcp_tool__] ([None]) or an object that carries it. *)
Record Server : Type := {
  server_tools : option (Dict.t mcp_handlers.ToolInfo);
  server_dir : list (string * outcome (option Callable))
}.

(** The loop over [server._tools.items()]. *)
Fixpoint discover_tools_loop (items : Dict.t mcp_handlers.ToolInfo)
    (tools_registry : Dict.t Callable) : Dict.t Callable :=
  match items with
  | [] => tools_registry
  | (tool_name, tool_info) :: items' =>
      discover_tools_loop items'
        (match mcp_handlers.info_func tool_info with
         | Some func => Dict.set tool_name func tools_registry
         | None => tools_registry
         end)
  end.

(** The loop over [dir(server)]; an exception of [getattr] ends the
    discovery, and the registry stays as it is at that point. *)
Fixpoint discover_attrs_loop (attrs : list (string * outcome (option Callable)))
    (tools_registry : Dict.t Callable) : Dict.t Callable :=
  match attrs with
  | [] => tools_registry
  | (attr_name, Raised _) :: _ => tools_registry
  | (attr_name, Returned None) :: attrs' =>
      discover_attrs_loop attrs' tools_registry
  | (attr_name, Returned (Some attr)) :: attrs' =>
      discover_attrs_loop attrs' (Dict.set attr_name attr tools_registry)
  end.

(** [CustomMCPProtocol._discover_tools] on the registry that [__init__] has
    just set to [{}]. *)
Definition discover_tools (server : Server) : Dict.t Callable :=
  discover_attrs_loop (server_dir server)
    (match server_tools server with
     | Some (item :: items) => discover_tools_loop (item :: items) []
     | _ => []
     end).

(** The last object of [attrs] that [name] is bound to with [__mcp_tool__]. *)
Fixpoint marked_attr (name : string)
    (attrs : list (string * outcome (option Callable))) : option Callable :=
  match attrs with
  | [] => None
  | (attr_name, Returned (Some attr)) :: attrs' =>
      match marked_attr name attrs' with
      | Some later => Some later
      | None => if String.eqb name attr_name then Some attr else None
      end
  | _ :: attrs' => marked_attr name attrs'
  end.

Definition getattr_returns (a : string * outcome (option Callable)) : bool :=
  match snd a with Returned _ => true | Raised _ => false end.

(** ** core/mcp_handlers.py: the routes *)

Definition get_registered_resources : list json := [].
Definition get_registered_prompts : list json := [].

(** [handle_tools_list], the handler of [/mcp/tools/list]; the request is not
    looked at.  The response is constructed inside the [try]: an exception
    of its rendering is answered with the error -32603, again under [id]
    1. *)
Definition handle_tools_list (rt : PyRuntime)
    (server_tools : option (Dict.t mcp_handlers.ToolInfo))
  : outcome Response :=
  let tools := mcp_handlers.get_registered_tools server_tools in
  match JSONResponse rt
          (JObj [("jsonrpc", JStr "2.0"); ("id", JInt 1);
                 ("result", JObj [("tools", JArr tools)])]) 200 with
  | Returned response => Returned response
  | Raised e =>
      JSONResponse rt
        (JObj [("jsonrpc", JStr "2.0"); ("id", JInt 1);
               ("error",
                JObj [("code", JInt (-32603));
                      ("message", JStr ("Internal error: " ++ exn_str e))])])
        500
  end.

(** [handle_resources_list] and [handle_prompts_list]. *)
Definition handle_resources_list (rt : PyRuntime) : outcome Response :=
  let resources := get_registered_resources in
  match JSONResponse rt
          (JObj [("jsonrpc", JStr "2.0"); ("id", JInt 1);
                 ("result", JObj [("resources", JArr resources)])]) 200 with
  | Returned response => Returned response
  | Raised e =>
      JSONResponse rt
        (JObj [("jsonrpc", JStr "2.0"); ("id", JInt 1);
               ("error",
                JObj [("code", JInt (-32603));
                      ("message", JStr ("Internal error: " ++ exn_str e))])])
        500
  end.

Definition handle_prompts_list (rt : PyRuntime) : outcome Response :=
  let prompts := get_registered_prompts in
  match JSONResponse rt
          (JObj [("jsonrpc", JStr "2.0"); ("id", JInt 1);
                 ("result", JObj [("prompts", JArr prompts)])]) 200 with
  | Returned response => Returned response
  | Raised e =>
      JSONResponse rt
        (JObj [("jsonrpc", JStr "2.0"); ("id", JInt 1);
               ("error",
                JObj [("code", JInt (-32603));
                      ("message", JStr ("Internal error: " ++ exn_str e))])])
        500
  end.

(** ** core/config.py *)

(** What [json.loads] does with a text: it returns a value, raises
    [JSONDecodeError], or raises an exception of another class
    ([RecursionError] at a deep nesting, [ValueError] at an integer beyond
    the digit limit). *)
Inductive loads_outcome : Type :=
| Loads (v : json)
| DecodeError
| LoadsRaises (e : exn).

(** The builtins that [Config] calls besides [strip]. *)
Record PyStrings : Type := {
  str_lower : string -> string;               (* s.lower() *)
  str_upper : string -> string;               (* s.upper() *)
  int_of_str : string -> outcome Z;           (* int(s), or ValueError *)
  json_loads : string -> loads_outcome        (* json.loads(s) *)
}.

(** [s.split(sep)] for a separator of one character. *)
Fixpoint split_on (sep : ascii) (s : string) : list string :=
  match s with
  | EmptyString => [EmptyString]
  | String c s' =>
      if Ascii.eqb c sep then EmptyString :: split_on sep s'
      else match split_on sep s' with
           | piece :: pieces => String c piece :: pieces
           | [] => [String c EmptyString]
           end
  end.

(** [[x.strip() for x in s.split(",") if x.strip()] if s else default] *)
Definition comma_list (rt : PyRuntime) (s : string) (default : list string)
  : list string :=
  if String.eqb s "" then default
  else flat_map
         (fun piece =>
            if String.eqb (str_strip rt piece) "" then []
            else [str_strip rt piece])
         (split_on ","%char s).

(** [os.getenv(key, default)] over the environment [env]. *)
Definition getenv (env : Dict.t string) (key default : string) : string :=
  Dict.get_default key default env.

(** [int(os.getenv(key, default))] for an integer [default]. *)
Definition getenv_int (lib : PyStrings) (env : Dict.t string) (key : string)
    (default : Z) : outcome Z :=
  match Dict.get key env with
  | Some s => int_of_str lib s
  | None => Returned default
  end.

(** [os.getenv(key, default).lower() == "true"] *)
Definition getenv_flag (lib : PyStrings) (env : Dict.t string)
    (key default : string) : bool :=
  String.eqb (str_lower lib (getenv env key default)) "true".

Record Config : Type := {
  PORT : Z;
  WORKSPACE_MCP_PORT : Z;
  WORKSPACE_MCP_BASE_URI : string;
  ENVIRONMENT : string;
  GOOGLE_CLIENT_ID : string;
  GOOGLE_CLIENT_SECRET : string;
  USER_GOOGLE_EMAIL : string;
  MULTI_ACCOUNT_ENABLED : bool;
  ALLOWED_GOOGLE_ACCOUNTS : list string;
  ACCOUNT_CONFIGS : json;
  JWT_SECRET : string;
  SESSION_TIMEOUT_HOURS : Z;
  CORS_ENABLED : bool;
  CORS_ORIGINS : list string;
  LOG_LEVEL : string;
  FILE_LOGGING_ENABLED : bool;
  LOG_FILE_PATH : string;
  SSL_ENABLED : bool;
  SSL_CERT_PATH : string;
  SSL_KEY_PATH : string;
  BEHIND_PROXY : bool;
  PROXY_HEADERS : bool;
  RATE_LIMIT_ENABLED : bool;
  RATE_LIMIT_REQUESTS_PER_MINUTE : Z;
  MCP_SERVER_URL : string;
  MCP_SERVER_NAME : string;
  MCP_SERVER_DESCRIPTION : string;
  DEFAULT_TOOLS : list string;
  GMAIL_MAX_RESULTS : Z;
  DRIVE_MAX_RESULTS : Z;
  CALENDAR_MAX_RESULTS : Z;
  DATABASE_URL : string;
  HEALTH_CHECK_ENABLED : bool;
  METRICS_ENABLED : bool;
  PROMETHEUS_ENABLED : bool;
  PROMETHEUS_PORT : Z
}.

Section ConfigLoading.

Variable rt : PyRuntime.
Variable lib : PyStrings.

(** [Config._load_config]; an [int()] that fails ends it with its
    [ValueError], and so does an exception of [json.loads] that is no
    [JSONDecodeError]. *)
Definition load_config (env : Dict.t string) : outcome Config :=
  and_then
    (match Dict.get "PORT" env with
     | Some s => int_of_str lib s
     | None => getenv_int lib env "WORKSPACE_MCP_PORT" 8000
     end) (fun port =>
  let base_uri := getenv env "WORKSPACE_MCP_BASE_URI" "http://localhost" in
  let allowed_accounts_str := getenv env "ALLOWED_GOOGLE_ACCOUNTS" "" in
  let account_configs_str := getenv env "ACCOUNT_CONFIGS" "{}" in
  and_then
    (match json_loads lib account_configs_str with
     | Loads v => Returned v
     | DecodeError => Returned (JObj [])
     | LoadsRaises e => Raised e
     end) (fun account_configs =>
  and_then (getenv_int lib env "SESSION_TIMEOUT_HOURS" 24) (fun timeout_hours =>
  let cors_origins_str := getenv env "CORS_ORIGINS" "" in
  and_then (getenv_int lib env "RATE_LIMIT_REQUESTS_PER_MINUTE" 60)
    (fun rate_limit =>
  let default_tools_str :=
    getenv env "DEFAULT_TOOLS" "gmail,drive,calendar,docs,sheets" in
  and_then (getenv_int lib env "GMAIL_MAX_RESULTS" 50) (fun gmail_max =>
  and_then (getenv_int lib env "DRIVE_MAX_RESULTS" 100) (fun drive_max =>
  and_then (getenv_int lib env "CALENDAR_MAX_RESULTS" 50) (fun calendar_max =>
  and_then (getenv_int lib env "PROMETHEUS_PORT" 9090) (fun prometheus_port =>
  Returned
    {| PORT := port;
       WORKSPACE_MCP_PORT := port;
       WORKSPACE_MCP_BASE_URI := base_uri;
       ENVIRONMENT := getenv env "ENVIRONMENT" "development";
       GOOGLE_CLIENT_ID := getenv env "GOOGLE_CLIENT_ID" "";
       GOOGLE_CLIENT_SECRET := getenv env "GOOGLE_CLIENT_SECRET" "";
       USER_GOOGLE_EMAIL := getenv env "USER_GOOGLE_EMAIL" "";
       MULTI_ACCOUNT_ENABLED :=
         getenv_flag lib env "MULTI_ACCOUNT_ENABLED" "true";
       ALLOWED_GOOGLE_ACCOUNTS := comma_list rt allowed_accounts_str [];
       ACCOUNT_CONFIGS := account_configs;
       JWT_SECRET :=
         getenv env "JWT_SECRET" "default_secret_change_in_production";
       SESSION_TIMEOUT_HOURS := timeout_hours;
       CORS_ENABLED := getenv_flag lib env "CORS_ENABLED" "true";
       CORS_ORIGINS := comma_list rt cors_origins_str ["*"];
       LOG_LEVEL := str_upper lib (getenv env "LOG_LEVEL" "INFO");
       FILE_LOGGING_ENABLED :=
         getenv_flag lib env "FILE_LOGGING_ENABLED" "true";
       LOG_FILE_PATH := getenv env "LOG_FILE_PATH" "logs/mcp_server.log";
       SSL_ENABLED := getenv_flag lib env "SSL_ENABLED" "false";
       SSL_CERT_PATH := getenv env "SSL_CERT_PATH" "";
       SSL_KEY_PATH := getenv env "SSL_KEY_PATH" "";
       BEHIND_PROXY := getenv_flag lib env "BEHIND_PROXY" "false";
       PROXY_HEADERS := getenv_flag lib env "PROXY_HEADERS" "true";
       RATE_LIMIT_ENABLED := getenv_flag lib env "RATE_LIMIT_ENABLED" "true";
       RATE_LIMIT_REQUESTS_PER_MINUTE := rate_limit;
       MCP_SERVER_URL :=
         getenv env "MCP_SERVER_URL"
           (base_uri ++ ":" ++ py_str rt (JInt port) ++ "/mcp");
       MCP_SERVER_NAME := getenv env "MCP_SERVER_NAME" "Google Workspace MCP";
       MCP_SERVER_DESCRIPTION :=
         getenv env "MCP_SERVER_DESCRIPTION"
           "Google Workspace integration for Claude";
       DEFAULT_TOOLS := comma_list rt default_tools_str [];
       GMAIL_MAX_RESULTS := gmail_max;
       DRIVE_MAX_RESULTS := drive_max;
       CALENDAR_MAX_RESULTS := calendar_max;
       DATABASE_URL := getenv env "DATABASE_URL" "";
       HEALTH_CHECK_ENABLED :=
         getenv_flag lib env "HEALTH_CHECK_ENABLED" "true";
       METRICS_ENABLED := getenv_flag lib env "METRICS_ENABLED" "false";
       PROMETHEUS_ENABLED := getenv_flag lib env "PROMETHEUS_ENABLED" "false";
       PROMETHEUS_PORT := prometheus_port |})))))))).


(** [Config.is_account_allowed] *)
Definition is_account_allowed (config : Config) (email : string) : bool :=
  if negb (MULTI_ACCOUNT_ENABLED config) then true
  else match ALLOWED_GOOGLE_ACCOUNTS config with
       | [] => true
       | accounts =>
           name_in (str_lower lib email) (map (str_lower lib) accounts)
       end.

(** [Config.get_account_config] *)
Definition get_account_config (config : Config) (email : string)
  : outcome json :=
  py_get (ACCOUNT_CONFIGS config) email (JObj []).

(** [Config.get_account_tools] *)
Definition get_account_tools (config : Config) (email : string)
  : outcome json :=
  and_then (get_account_config config email) (fun account_config =>
  py_get account_config "tools" (JArr (map JStr (DEFAULT_TOOLS config)))).

(** [Config.get_account_scopes] *)
Definition get_account_scopes (config : Config) (email : string)
  : outcome json :=
  and_then (get_account_config config email) (fun account_config =>
  py_get account_config "scopes" (JArr [])).


(** [Config.get_server_info] *)
Definition get_server_info (config : Config) : json :=
  JObj [("environment", JStr (ENVIRONMENT config));
        ("port", JInt (PORT config));
        ("base_uri", JStr (WORKSPACE_MCP_BASE_URI config));
        ("multi_account_enabled", JBool (MULTI_ACCOUNT_ENABLED config));
        ("allowed_accounts_count",
         JInt (Z.of_nat (length (ALLOWED_GOOGLE_ACCOUNTS config))));
        ("default_tools", JArr (map JStr (DEFAULT_TOOLS config)));
        ("ssl_enabled", JBool (SSL_ENABLED config));
        ("cors_enabled", JBool (CORS_ENABLED config));
        ("rate_limit_enabled", JBool (RATE_LIMIT_ENABLED config));
        ("mcp_server_url", JStr (MCP_SERVER_URL config))].

End ConfigLoading.

(** ** setup_credentials.py *)



Definition redirect_uris (rt : PyRuntime) (config : Config) : list string :=
  [WORKSPACE_MCP_BASE_URI config ++ ":" ++ py_str rt (JInt (PORT config))
   ++ "/oauth2callback";
   "http://localhost:8000/oauth2callback"].






(** ** generate_secret.py *)

Definition ascii_letters : string :=
  "abcdefghijklmnopqrstuvwxyzABCDEFGHIJKLMNOPQRSTUVWXYZ".

Definition digits : string := "0123456789".

Definition alphabet : string := ascii_letters ++ digits ++ "!@#$%^&*".

(** [''.join(secrets.choice(alphabet) for _ in range(n))]; [randbelow k] is
    the index that the [k]-th call of [secrets.choice] draws. *)
Fixpoint join_choices (randbelow : nat -> nat) (k n : nat) : outcome string :=
  match n with
  | O => Returned EmptyString
  | S n' =>
      match String.get (randbelow k) alphabet with
      | None => Raised (Exn (OtherException "IndexError" false)
                          "string index out of range")
      | Some c =>
          and_then (join_choices randbelow (S k) n') (fun rest =>
          Returned (String c rest))
      end
  end.

(** [generate_jwt_secret] *)
Definition generate_jwt_secret (randbelow : nat -> nat) (length : Z)
  : outcome string :=
  join_choices randbelow 0 (Z.to_nat length).

(** ** Sample configuration *)

Module SampleConfig.

Definition lib : PyStrings :=
  {| str_lower := fun s => s;
     str_upper := fun s => s;
     int_of_str := fun s =>
       if String.eqb s "8080" then Returned 8080
       else Raised (Exn ValueError
                      ("invalid literal for int() with base 10: '" ++ s
                       ++ "'"));
     json_loads := fun s =>
       if String.eqb s "{}" then Loads (JObj [])
       else if String.eqb s "[]" then Loads (JArr [])
       else DecodeError |}.

Definition production : Dict.t string :=
  [("ENVIRONMENT", "production");
   ("GOOGLE_CLIENT_ID", "id-1");
   ("GOOGLE_CLIENT_SECRET", "secret-1");
   ("JWT_SECRET", "changed");
   ("PORT", "8080")].

End SampleConfig.

(** * Properties *)

(** ** Dictionaries *)

Module DictFacts.
Import Dict.

Lemma get_set_eq {V} k (v : V) d : get k (set k v d) = Some v.
Proof.
  induction d as [|[k' v'] d IH]; simpl.
  - now rewrite String.eqb_refl.
  - destruct (String.eqb k k') eqn:E; simpl; rewrite ?String.eqb_refl, ?E; auto.
Qed.

Lemma get_set_ne {V} k k' (v : V) d : k <> k' -> get k' (set k v d) = get k' d.
Proof.
  intros Hne. induction d as [|[k0 v0] d IH]; simpl.
  - destruct (String.eqb k' k) eqn:E; auto.
    apply String.eqb_eq in E. congruence.
  - destruct (String.eqb k k0) eqn:E; simpl.
    + apply String.eqb_eq in E. subst k0.
      destruct (String.eqb k' k) eqn:E'; auto.
      apply String.eqb_eq in E'. congruence.
    + destruct (String.eqb k' k0); auto.
Qed.

Lemma get_del_eq {V} k (d : t V) : get k (del k d) = None.
Proof.
  unfold del. induction d as [|[k' v'] d IH]; cbn; auto.
  destruct (String.eqb k k') eqn:E; cbn; auto.
  now rewrite E.
Qed.

Lemma get_del_ne {V} k k' (d : t V) : k <> k' -> get k' (del k d) = get k' d.
Proof.
  intros Hne. unfold del. induction d as [|[k0 v0] d IH]; cbn; auto.
  destruct (String.eqb k k0) eqn:E; cbn.
  - apply String.eqb_eq in E. subst k0.
    destruct (String.eqb k' k) eqn:E'; auto.
    apply String.eqb_eq in E'. congruence.
  - now rewrite IH.
Qed.

Lemma keys_set {V} k (v : V) d k' :
  In k' (keys (set k v d)) <-> k' = k \/ In k' (keys d).
Proof.
  unfold keys. induction d as [|[k0 v0] d IH]; simpl.
  - intuition.
  - destruct (String.eqb k k0) eqn:E; simpl.
    + apply String.eqb_eq in E. subst. intuition.
    + rewrite IH. intuition.
Qed.

Lemma get_Some_keys {V} k (v : V) d : get k d = Some v -> In k (keys d).
Proof.
  unfold keys. induction d as [|[k0 v0] d IH]; simpl; [discriminate|].
  destruct (String.eqb k k0) eqn:E; auto.
  apply String.eqb_eq in E. auto.
Qed.

Lemma get_None_keys {V} k (d : t V) : get k d = None <-> ~ In k (keys d).
Proof.
  unfold keys. induction d as [|[k0 v0] d IH]; simpl; [tauto|].
  destruct (String.eqb k k0) eqn:E.
  - apply String.eqb_eq in E. subst. split; [discriminate|tauto].
  - apply String.eqb_neq in E. rewrite IH. intuition congruence.
Qed.

Lemma mem_true {V} k (d : t V) : mem k d = true <-> exists v, get k d = Some v.
Proof.
  unfold mem. destruct (get k d) as [v|]; split; intros H; eauto.
  - discriminate.
  - destruct H as [? H]. discriminate.
Qed.

End DictFacts.

(** ** Schema inference of the dispatcher *)


Lemma declared_type_family ann :
  In (declared_type ann) ["string"; "integer"; "boolean"; "array"].
Proof.
  destruct ann as [[| | | |s]|]; simpl; auto.
  destruct (String.prefix "List" s); simpl; auto.
Qed.

Lemma infer_type_entry ann description :
  infer_type ann [("type", JStr "string"); ("description", description)]
  = [("type", JStr (declared_type ann)); ("description", description)].
Proof.
  destruct ann as [[| | | |s]|]; simpl; auto.
  destruct (String.prefix "List" s); reflexivity.
Qed.


Lemma schema_loop_required params : forall properties required,
  snd (schema_loop params properties required)
  = (required
     ++ map param_name
          (List.filter (fun p => visible p && negb (has_default p)) params))%list.
Proof.
  induction params as [|p ps IH]; intros properties required;
    cbn [schema_loop List.filter].
  - cbn. now rewrite app_nil_r.
  - unfold visible at 1, has_default at 1.
    destruct (name_in (param_name p) special_parameters); cbn [negb andb].
    + apply IH.
    + rewrite IH. destruct (param_default p); cbn [negb map]; auto.
      now rewrite <- app_assoc.
Qed.

Lemma schema_loop_untouched params k : forall properties required,
  ~ In k (map param_name params) ->
  Dict.get k (fst (schema_loop params properties required))
  = Dict.get k properties.
Proof.
  induction params as [|p ps IH]; intros properties required Hk;
    cbn [schema_loop]; auto.
  cbn [map In] in Hk.
  destruct (name_in (param_name p) special_parameters).
  - apply IH. tauto.
  - rewrite IH by tauto. apply DictFacts.get_set_ne. tauto.
Qed.

Lemma schema_loop_hidden params k : forall properties required,
  name_in k special_parameters = true ->
  Dict.get k (fst (schema_loop params properties required))
  = Dict.get k properties.
Proof.
  induction params as [|p ps IH]; intros properties required Hk;
    cbn [schema_loop]; auto.
  destruct (name_in (param_name p) special_parameters) eqn:E.
  - now apply IH.
  - rewrite IH by assumption. apply DictFacts.get_set_ne.
    intros Heq. rewrite Heq in E. congruence.
Qed.

Lemma schema_loop_entry params : forall properties required p,
  List.NoDup (map param_name params) ->
  In p params -> visible p = true ->
  Dict.get (param_name p) (fst (schema_loop params properties required))
  = Some (schema_entry p).
Proof.
  induction params as [|p0 ps IH]; intros properties required p Hnd Hin Hvis;
    cbn [schema_loop map In] in *; [tauto|].
  apply List.NoDup_cons_iff in Hnd as [Hfresh Hnd].
  destruct Hin as [->|Hin].
  - unfold visible in Hvis. apply negb_true_iff in Hvis. rewrite Hvis.
    rewrite schema_loop_untouched by assumption.
    rewrite infer_type_entry. apply DictFacts.get_set_eq.
  - destruct (name_in (param_name p0) special_parameters); now apply IH.
Qed.

(** What [get_tools_list] answers for a tool whose signature can be read:
    the reserved names have no entry, every other declared parameter has an
    entry whose type is one of the four, and [required] holds exactly the
    visible parameters without default. *)
Lemma get_tools_list_schema (params : list Param) :
  List.NoDup (map param_name params) ->
  let '(properties, required) := schema_loop params [] [] in
  (forall k, In k special_parameters -> Dict.get k properties = None)
  /\ (forall p, In p params -> visible p = true ->
        Dict.get (param_name p) properties = Some (schema_entry p)
        /\ In (declared_type (param_annotation p))
              ["string"; "integer"; "boolean"; "array"]
        /\ (param_annotation p = None ->
            declared_type (param_annotation p) = "string")
        /\ (In (param_name p) required <-> param_default p = None)).
Proof.
  intros Hnd.
  destruct (schema_loop params [] []) as [properties required] eqn:E.
  assert (Hp : properties = fst (schema_loop params [] [])) by now rewrite E.
  assert (Hr : required = snd (schema_loop params [] [])) by now rewrite E.
  split.
  - intros k Hk. rewrite Hp, schema_loop_hidden; auto.
    unfold name_in. apply existsb_exists. exists k. split; auto.
    apply String.eqb_refl.
  - intros p Hin Hvis. repeat split.
    + rewrite Hp. now apply schema_loop_entry.
    + apply declared_type_family.
    + intros ->. reflexivity.
    + rewrite Hr, schema_loop_required. cbn [app]. rewrite in_map_iff.
      intros (q & Hname & Hq). apply filter_In in Hq as [Hq Hcond].
      assert (q = p) as ->.
      { clear -Hnd Hin Hq Hname.
        induction params as [|a l IH]; cbn [map In] in *; [tauto|].
        apply List.NoDup_cons_iff in Hnd as [Hfresh Hnd].
        destruct Hin as [->|Hin], Hq as [->|Hq]; auto.
        - exfalso. apply Hfresh. rewrite <- Hname. now apply in_map.
        - exfalso. apply Hfresh. rewrite Hname. now apply in_map. }
      apply andb_true_iff in Hcond as [_ Hd]. unfold has_default in Hd.
      destruct (param_default p); [discriminate|reflexivity].
    + intros Hd. rewrite Hr, schema_loop_required. cbn [app].
      apply in_map. apply filter_In. split; auto.
      rewrite Hvis. unfold has_default. now rewrite Hd.
Qed.

(** The dispatcher's entries never carry a default. *)
Lemma schema_entry_no_default p : 
  match schema_entry p with
  | JObj entry => Dict.get "default" entry = None
  | _ => False
  end.
Proof. reflexivity. Qed.

(** C7 (schema inference skips both reserved names, maps types into the four
    primitive types, and marks the parameters without default as required).
    The dispatcher's [get_tools_list] does all of it ([get_tools_list_schema]),
    but the second inferencer of the repository, [get_registered_tools] behind
    the [/mcp/tools/list] route, skips only [service]: for the tool
    [search(service, mcp_session_id, query: str)] it publishes
    [mcp_session_id] as a required string parameter, where [get_tools_list]
    publishes [query] alone. *)
Theorem registered_tools_publish_session_parameter :
  mcp_handlers.get_registered_tools (Sample.server_tools "search" Sample.search)
  = [JObj [("name", JStr "search");
           ("description", JStr "Tool: search");
           ("inputSchema",
            input_schema
              [("mcp_session_id", JObj [("type", JStr "string")]);
               ("query", JObj [("type", JStr "string")])]
              ["mcp_session_id"; "query"])]]
  /\ get_tools_list Sample.rt [("search", Sample.search)]
     = [JObj [("name", JStr "search");
              ("description", JStr "Search");
              ("inputSchema",
               input_schema
                 [("query", JObj [("type", JStr "string");
                                  ("description", JStr "Parameter: query")])]
                 ["query"])]].
Proof. split; reflexivity. Qed.

(** The round trip of the specification on the dispatcher's inferencer:
    [(a: str, b: int = 5)] gives [required == ["a"]] and [b] of type
    [integer]. *)
Example get_tools_list_round_trip :
  get_tools_list Sample.rt [("add", Sample.add)]
  = [JObj [("name", JStr "add");
           ("description", JStr "Add b to a");
           ("inputSchema",
            input_schema
              [("a", JObj [("type", JStr "string");
                           ("description", JStr "Parameter: a")]);
               ("b", JObj [("type", JStr "integer");
                           ("description", JStr "Parameter: b")])]
              ["a"])]].
Proof. reflexivity. Qed.

(** C8 (the schema of [tools/list] surfaces the default of a parameter that
    has one).  For [add(a: str, b: int = 5)] the dispatcher's [tools/list]
    answers an entry for [b] made of [type] and [description] only, while
    [get_registered_tools] of mcp_handlers.py answers [default: 5] for the
    same tool. *)
Theorem tools_list_omits_default :
  handle_mcp_request Sample.rt [("add", Sample.add)]
    (Sample.request (Some "s1") (rpc (JInt 1) "tools/list" (JObj [])))
    (new_manager 3600)
  = (Returned (json_response
       (JObj [("jsonrpc", JStr "2.0"); ("id", JInt 1);
              ("result",
               JObj [("tools",
                 JArr [JObj [("name", JStr "add");
                             ("description", JStr "Add b to a");
                             ("inputSchema",
                              input_schema
                                [("a", JObj [("type", JStr "string");
                                             ("description",
                                              JStr "Parameter: a")]);
                                 ("b", JObj [("type", JStr "integer");
                                             ("description",
                                              JStr "Parameter: b")])]
                                ["a"])]])])]) 200),
     new_manager 3600)
  /\ mcp_handlers.get_registered_tools (Sample.server_tools "add" Sample.add)
     = [JObj [("name", JStr "add");
              ("description", JStr "Tool: add");
              ("inputSchema",
               input_schema
                 [("a", JObj [("type", JStr "string")]);
                  ("b", JObj [("type", JStr "integer");
                              ("default", JInt 5)])]
                 ["a"])]].
Proof. split; reflexivity. Qed.

(** No tool and no parameter makes [get_tools_list] emit a default: its loop
    only ever stores entries of the shape [schema_entry]. *)
Lemma schema_loop_entries params : forall properties required k v,
  Dict.get k (fst (schema_loop params properties required)) = Some v ->
  Dict.get k properties = Some v
  \/ exists p, In p params /\ v = schema_entry p.
Proof.
  induction params as [|p ps IH]; intros properties required k v Hget;
    cbn [schema_loop] in Hget; auto.
  destruct (name_in (param_name p) special_parameters).
  - apply IH in Hget as [H|(q & Hq & ->)]; auto.
    right. exists q. split; auto. now right.
  - apply IH in Hget as [H|(q & Hq & ->)].
    + destruct (String.eqb_spec (param_name p) k) as [Heq|Hne].
      * rewrite <- Heq, DictFacts.get_set_eq, infer_type_entry in H.
        right. exists p. split; [now left|]. now inversion H.
      * rewrite DictFacts.get_set_ne in H by assumption. auto.
    + right. exists q. split; auto. now right.
Qed.

(** ** Binding the arguments of a call *)


Lemma bind_arguments_keys params arguments sid : forall call_args out,
  bind_arguments params arguments sid call_args = Returned out ->
  forall k, In k (Dict.keys out) ->
            In k (Dict.keys call_args) \/ In k (names params).
Proof.
  induction params as [|p ps IH]; intros call_args out Hb k Hk;
    cbn [bind_arguments names map In] in *.
  - inversion Hb. subst. auto.
  - assert (Hset : forall v out',
      bind_arguments ps arguments sid (Dict.set (param_name p) v call_args)
      = Returned out' -> In k (Dict.keys out') ->
      In k (Dict.keys call_args) \/ param_name p = k \/ In k (names ps)).
    { intros v out' Hb' Hk'. destruct (IH _ _ Hb' k Hk') as [H|H]; auto.
      apply DictFacts.keys_set in H as [->|H]; auto. }
    destruct (String.eqb (param_name p) "mcp_session_id"); [eauto|].
    destruct (py_contains (param_name p) arguments) as [[|]|]; [| |discriminate].
    + destruct (py_getitem (param_name p) arguments); [eauto|discriminate].
    + destruct (param_default p); [eauto|].
      destruct (IH _ _ Hb k Hk); auto.
Qed.

Lemma bind_arguments_dict params d sid : forall call_args,
  exists out, bind_arguments params (JObj d) sid call_args = Returned out.
Proof.
  induction params as [|p ps IH]; intros call_args; cbn [bind_arguments].
  - eauto.
  - destruct (String.eqb (param_name p) "mcp_session_id"); [apply IH|].
    cbn [py_contains py_getitem]. unfold Dict.mem.
    destruct (Dict.get (param_name p) d); [apply IH|].
    destruct (param_default p); apply IH.
Qed.

Lemma bind_arguments_agree params d1 d2 sid : forall call_args,
  (forall k, In k (names params) -> Dict.get k d1 = Dict.get k d2) ->
  bind_arguments params (JObj d1) sid call_args
  = bind_arguments params (JObj d2) sid call_args.
Proof.
  induction params as [|p ps IH]; intros call_args Hagree;
    cbn [bind_arguments names map In] in *; auto.
  destruct (String.eqb (param_name p) "mcp_session_id"); [now auto|].
  cbn [py_contains py_getitem]. unfold Dict.mem.
  rewrite <- (Hagree (param_name p)) by auto.
  destruct (Dict.get (param_name p) d1); [now auto|].
  destruct (param_default p); auto.
Qed.

(** The slot of [mcp_session_id] holds the dispatcher's session id whatever
    the client sent. *)
Lemma bind_arguments_session_slot params arguments sid : forall call_args out,
  bind_arguments params arguments sid call_args = Returned out ->
  Dict.get "mcp_session_id" out
  = if name_in "mcp_session_id" (names params) then Some sid
    else Dict.get "mcp_session_id" call_args.
Proof.
  induction params as [|p ps IH]; intros call_args out Hb;
    cbn [bind_arguments names map] in *.
  - inversion Hb. reflexivity.
  - unfold name_in. cbn [existsb]. rewrite String.eqb_sym.
    fold (name_in "mcp_session_id" (names ps)).
    destruct (String.eqb_spec (param_name p) "mcp_session_id") as [Heq|Hne];
      cbn [orb].
    + rewrite (IH _ _ Hb), Heq, DictFacts.get_set_eq.
      now destruct (name_in "mcp_session_id" (names ps)).
    + assert (Hset : forall v out',
        bind_arguments ps arguments sid (Dict.set (param_name p) v call_args)
        = Returned out' ->
        Dict.get "mcp_session_id" out'
        = if name_in "mcp_session_id" (names ps) then Some sid
          else Dict.get "mcp_session_id" call_args).
      { intros v out' Hb'. rewrite (IH _ _ Hb').
        now rewrite DictFacts.get_set_ne by assumption. }
      destruct (py_contains (param_name p) arguments) as [[|]|];
        [| |discriminate].
      * destruct (py_getitem (param_name p) arguments); [eauto|discriminate].
      * destruct (param_default p); eauto.
Qed.

Lemma bind_arguments_untouched params arguments sid k : forall call_args out,
  ~ In k (names params) ->
  bind_arguments params arguments sid call_args = Returned out ->
  Dict.get k out = Dict.get k call_args.
Proof.
  induction params as [|p ps IH]; intros call_args out Hk Hb;
    cbn [bind_arguments names map In] in *.
  - now inversion Hb.
  - assert (Hset : forall v out',
      bind_arguments ps arguments sid (Dict.set (param_name p) v call_args)
      = Returned out' -> Dict.get k out' = Dict.get k call_args).
    { intros v out' Hb'. rewrite (IH _ _ ltac:(tauto) Hb').
      apply DictFacts.get_set_ne. tauto. }
    destruct (String.eqb (param_name p) "mcp_session_id"); [eauto|].
    destruct (py_contains (param_name p) arguments) as [[|]|]; [| |discriminate].
    + destruct (py_getitem (param_name p) arguments); [eauto|discriminate].
    + destruct (param_default p); [eauto|]. apply IH; tauto.
Qed.

(** Every other slot, the one of [service] included, holds the client's
    entry when there is one. *)
Lemma bind_arguments_client_slot params d sid : forall call_args out p v,
  List.NoDup (names params) ->
  In p params ->
  param_name p <> "mcp_session_id" ->
  Dict.get (param_name p) d = Some v ->
  bind_arguments params (JObj d) sid call_args = Returned out ->
  Dict.get (param_name p) out = Some v.
Proof.
  induction params as [|p0 ps IH]; intros call_args out p v Hnd Hin Hne Hd Hb;
    cbn [bind_arguments names map In] in *; [tauto|].
  apply List.NoDup_cons_iff in Hnd as [Hfresh Hnd].
  destruct Hin as [->|Hin].
  - apply String.eqb_neq in Hne. rewrite Hne in Hb.
    cbn [py_contains py_getitem] in Hb. unfold Dict.mem in Hb.
    rewrite Hd in Hb.
    rewrite (bind_arguments_untouched _ _ _ _ _ _ Hfresh Hb).
    apply DictFacts.get_set_eq.
  - destruct (String.eqb (param_name p0) "mcp_session_id"); [eauto|].
    destruct (py_contains (param_name p0) (JObj d)) as [[|]|];
      [| |discriminate].
    + destruct (py_getitem (param_name p0) (JObj d)); [eauto|discriminate].
    + destruct (param_default p0); eauto.
Qed.

(** C10 (only declared names reach the callable; undeclared entries of
    [params.arguments] are dropped).  For a registered tool whose signature
    is [params]: whatever the client sent as [arguments], the keyword
    arguments that are passed have declared names only; when two argument
    objects agree on the declared names, the call binds, it binds the same
    keyword arguments for both, and [call_tool] gives the same outcome for
    both, so entries under other names change nothing. *)
Theorem call_args_only_declared
    (rt : PyRuntime) (tools_registry : Dict.t Callable)
    (name : string) (tool_func : Callable) (params : list Param)
    (sid : option string) :
  Dict.get name tools_registry = Some tool_func ->
  func_signature tool_func = Returned params ->
  (forall arguments call_args,
      call_args_of tool_func arguments sid = Returned call_args ->
      forall k, In k (Dict.keys call_args) -> In k (names params))
  /\ (forall d1 d2,
        (forall k, In k (names params) -> Dict.get k d1 = Dict.get k d2) ->
        (exists call_args,
            call_args_of tool_func (JObj d1) sid = Returned call_args
            /\ call_args_of tool_func (JObj d2) sid = Returned call_args)
        /\ call_tool rt tools_registry (JStr name) (JObj d1) sid
           = call_tool rt tools_registry (JStr name) (JObj d2) sid).
Proof.
  intros Hreg Hsig. split.
  - intros arguments call_args Hb k Hk. unfold call_args_of in Hb.
    rewrite Hsig in Hb.
    destruct (bind_arguments_keys _ _ _ _ _ Hb k Hk) as [H|H]; auto.
    contradiction.
  - intros d1 d2 Hagree.
    assert (Heq : call_args_of tool_func (JObj d1) sid
                  = call_args_of tool_func (JObj d2) sid).
    { unfold call_args_of. rewrite Hsig. now apply bind_arguments_agree. }
    split.
    + destruct (bind_arguments_dict params d1 (opt_str sid) []) as [out Hout].
      exists out. rewrite <- Heq. unfold call_args_of. rewrite Hsig. auto.
    + unfold call_tool. rewrite Hreg, Heq. reflexivity.
Qed.

Lemma call_args_only_declared_witness :
  call_tool Sample.rt Sample.tools_registry (JStr "add")
    (JObj [("a", JStr "x")]) (Some "s1")
  = call_tool Sample.rt Sample.tools_registry (JStr "add")
      (JObj [("a", JStr "x"); ("verbose", JBool true)]) (Some "s1").
Proof.
  refine (proj2 (proj2 (call_args_only_declared Sample.rt Sample.tools_registry
            "add" Sample.add
            [Sample.param "a" (Some AnnStr) None;
             Sample.param "b" (Some AnnInt) (Some (JInt 5))]
            (Some "s1") eq_refl eq_refl)
          [("a", JStr "x")] [("a", JStr "x"); ("verbose", JBool true)] _)).
  intros k [<-|[<-|[]]]; reflexivity.
Defined.

(** ** The session store, operation by operation *)

Section StoreEquations.

Variable rt : PyRuntime.

Lemma create_session_eq sid w :
  create_session rt sid w = (Returned (length (heap w)), created rt sid w).
Proof.
  unfold create_session, created, new_id.
  destruct (given sid); reflexivity.
Qed.

Lemma get_session_eq sid w :
  get_session rt sid w
  = match Dict.get sid (sessions w) with
    | None => (Returned None, w)
    | Some r =>
        if idle_time rt w (heap w !!! r) >? session_timeout w
        then (Returned None, expired sid w)
        else (Returned (Some r), touched rt r w)
    end.
Proof.
  unfold get_session. destruct (Dict.get sid (sessions w)) as [r|]; auto.
  unfold bind, is_expired, time_now, deref, ret, bind, idle_time, heap.
  destruct w as [h d timeout n u]. cbn.
  destruct (time_time rt n - last_accessed (h !!! r) >? timeout); reflexivity.
Qed.

Lemma get_session_live sid w :
  get_session rt sid w
  = if live rt w sid
    then match Dict.get sid (sessions w) with
         | Some r => (Returned (Some r), touched rt r w)
         | None => (Returned None, w)
         end
    else match Dict.get sid (sessions w) with
         | Some r => (Returned None, expired sid w)
         | None => (Returned None, w)
         end.
Proof.
  rewrite get_session_eq. unfold live.
  destruct (Dict.get sid (sessions w)) as [r|]; auto.
  destruct (idle_time rt w (heap w !!! r) >? session_timeout w); reflexivity.
Qed.

Lemma get_or_create_session_eq sid w :
  get_or_create_session rt sid w
  = match given sid with
    | None => (Returned (length (heap w)), created rt sid w)
    | Some s =>
        match Dict.get s (sessions w) with
        | None => (Returned (length (heap w)), created rt sid w)
        | Some r =>
            if idle_time rt w (heap w !!! r) >? session_timeout w
            then (Returned (length (heap w)), created rt sid (expired s w))
            else (Returned r, touched rt r w)
        end
    end.
Proof.
  unfold get_or_create_session. destruct (given sid) as [s|].
  - unfold bind. rewrite get_session_eq.
    destruct (Dict.get s (sessions w)) as [r|].
    + destruct (idle_time rt w (heap w !!! r) >? session_timeout w);
        [now rewrite create_session_eq | reflexivity].
    + apply create_session_eq.
  - apply create_session_eq.
Qed.

Lemma get_or_create_session_returns sid w :
  exists r w', get_or_create_session rt sid w = (Returned r, w').
Proof.
  rewrite get_or_create_session_eq.
  destruct (given sid) as [s|]; [|eauto].
  destruct (Dict.get s (sessions w)) as [r|]; [|eauto].
  destruct (idle_time rt w (heap w !!! r) >? session_timeout w); eauto.
Qed.

Lemma initialize_session_eq sid ci caps w :
  initialize_session rt sid ci caps w
  = match Dict.get sid (sessions w) with
    | None => (Returned false, w)
    | Some r =>
        if idle_time rt w (heap w !!! r) >? session_timeout w
        then (Returned false, expired sid w)
        else
          (match py_get ci "name" (JStr "unknown") with
           | Returned _ => Returned true
           | Raised e => Raised e
           end,
           initialized_world rt r ci caps w)
    end.
Proof.
  unfold initialize_session, bind. rewrite get_session_eq.
  destruct (Dict.get sid (sessions w)) as [r|]; auto.
  destruct (idle_time rt w (heap w !!! r) >? session_timeout w); auto.
  unfold lift, initialized_world. cbn.
  destruct (py_get ci "name" (JStr "unknown")); reflexivity.
Qed.

End StoreEquations.

(** ** Rendering a response *)

Lemma encodable_cons c s :
  Ascii.eqb c "237"%char = false -> encodable (String c s) = encodable s.
Proof.
  intros H. destruct s as [|c' s]; [reflexivity|].
  cbn [encodable]. unfold surrogate_bytes. now rewrite H.
Qed.

Lemma encodable_internal_error m :
  encodable ("Internal error: " ++ m) = encodable m.
Proof. cbn. now destruct m. Qed.

Lemma encodable_parse_error m :
  encodable ("Parse error: " ++ m) = encodable m.
Proof. cbn. now destruct m. Qed.

Lemma encodable_method_not_found m :
  encodable ("Method not found: " ++ m) = encodable m.
Proof. cbn. now destruct m. Qed.

Lemma encode_depth_S rt :
  exists n, encode_depth rt = S (S (S (S n))).
Proof.
  pose proof (encode_depth_ok rt) as H.
  destruct (encode_depth rt) as [|[|[|[|n]]]]; try discriminate. now exists n.
Qed.

Lemma renders_JStr depth s : renders depth (JStr s) = encodable s.
Proof. reflexivity. Qed.

(** More room never makes the encoder fail. *)
Lemma dumps_failure_S : forall v depth,
  dumps_failure depth v = None -> dumps_failure (S depth) v = None.
Proof.
  fix IH 1. intros [| | | | | |l|d] depth; try reflexivity; try discriminate.
  - destruct depth as [|depth]; [discriminate|].
    cbn [dumps_failure]. revert l. fix IHl 1. intros [|v l]; [reflexivity|].
    destruct (dumps_failure depth v) eqn:Hd; [discriminate|].
    rewrite (IH v _ Hd). apply IHl.
  - destruct depth as [|depth]; [discriminate|].
    cbn [dumps_failure]. revert d. fix IHd 1. intros [|[k v] d]; [reflexivity|].
    destruct (dumps_failure depth v) eqn:Hd; [discriminate|].
    rewrite (IH v _ Hd). apply IHd.
Qed.

Lemma renders_S depth v : renders depth v = true -> renders (S depth) v = true.
Proof.
  unfold renders. destruct (dumps_failure depth v) eqn:Hv; [discriminate|].
  now rewrite (dumps_failure_S _ _ Hv).
Qed.

Lemma renderable_member_renderable rt v :
  renderable_member rt v = true -> renderable rt v = true.
Proof.
  unfold renderable_member, renderable.
  destruct (encode_depth_S rt) as [n ->]. apply renders_S.
Qed.

Lemma renderable_error_response rt request_id code message :
  renderable rt (create_error_response request_id code message JNull)
  = renderable_member rt request_id && encodable message.
Proof.
  unfold renderable, renderable_member, renders.
  destruct (encode_depth_S rt) as [n ->]. cbn.
  destruct (dumps_failure (S (S (S n))) request_id); [reflexivity|].
  destruct (strings_encodable request_id), (encodable message); reflexivity.
Qed.

Lemma renderable_success_response rt request_id result :
  renderable rt (create_mcp_response request_id result JNull)
  = renderable_member rt request_id && renderable_member rt result.
Proof.
  unfold renderable, renderable_member, renders.
  destruct (encode_depth_S rt) as [n ->]. cbn.
  destruct (dumps_failure (S (S (S n))) request_id),
    (dumps_failure (S (S (S n))) result); try reflexivity.
  - now rewrite andb_false_r.
  - destruct (strings_encodable request_id), (strings_encodable result);
      reflexivity.
Qed.

(** The results that the server builds from its own constants can be
    rendered. *)
Lemma renderable_member_text rt result :
  renderable_member rt
    (JObj [("content",
            JArr [JObj [("type", JStr "text"); ("text", JStr result)]])])
  = encodable result.
Proof.
  unfold renderable_member, renders.
  destruct (encode_depth_S rt) as [n ->]. cbn.
  now rewrite !andb_true_r.
Qed.

Lemma renderable_member_initialize_result rt :
  renderable_member rt initialize_result = true.
Proof.
  unfold renderable_member, renders.
  destruct (encode_depth_S rt) as [n ->]. reflexivity.
Qed.

Lemma renderable_member_empty_list rt k :
  renderable_member rt (JObj [(k, JArr [])]) = encodable k.
Proof.
  unfold renderable_member, renders.
  destruct (encode_depth_S rt) as [n ->]. cbn.
  now rewrite !andb_true_r.
Qed.

Lemma JSONResponse_renderable rt content status :
  renderable rt content = true ->
  JSONResponse rt content status = Returned (json_response content status).
Proof.
  unfold renderable, renders, JSONResponse, render_error. intros H.
  destruct (dumps_failure (encode_depth rt) content); [discriminate|].
  now rewrite H.
Qed.

(** What [JSONResponse] raises has the message of the renderer. *)
Lemma JSONResponse_not_renderable rt content status :
  renderable rt content = false ->
  exists c,
    JSONResponse rt content status
    = Raised (Exn c (text (render_error_str rt content)))
    /\ render_error rt content
       = Some (Exn c (text (render_error_str rt content))).
Proof.
  unfold renderable, renders, JSONResponse, render_error. intros H.
  destruct (dumps_failure (encode_depth rt) content) as [[|]|]; eauto.
  rewrite H. eauto.
Qed.

Lemma render_error_None rt content :
  render_error rt content = None <-> renderable rt content = true.
Proof.
  unfold renderable, renders, render_error.
  destruct (dumps_failure (encode_depth rt) content) as [[|]|];
    try (split; discriminate).
  destruct (strings_encodable content); split; auto; discriminate.
Qed.

Lemma JSONResponse_plain rt content status :
  plain_exception (JSONResponse rt content status).
Proof.
  unfold JSONResponse, render_error. intros e.
  destruct (dumps_failure (encode_depth rt) content) as [[|]|];
    [| |destruct (strings_encodable content)];
    intros [= <-]; apply text_encodable.
Qed.

Lemma py_get_plain v k default : plain_exception (py_get v k default).
Proof. intros e. destruct v; intros [= <-]; reflexivity. Qed.

(** The outer handler can always construct its response. *)
Lemma internal_error_rendered rt message :
  encodable message = true ->
  JSONResponse rt
    (create_error_response JNull (-32603) ("Internal error: " ++ message)
       JNull) 500
  = Returned (internal_error message).
Proof.
  intros H. apply JSONResponse_renderable.
  rewrite renderable_error_response, encodable_internal_error, H.
  unfold renderable_member. now destruct (encode_depth rt).
Qed.

(** A response that is constructed outside the inner [try] and goes through
    the outer handler if its rendering raises. *)
Lemma rendered_or_handled rt content status :
  match JSONResponse rt content status with
  | Returned response => Returned response
  | Raised e =>
      JSONResponse rt
        (create_error_response JNull (-32603)
           ("Internal error: " ++ exn_str e) JNull) 500
  end
  = Returned (rendered_or_internal_error rt content status).
Proof.
  unfold rendered_or_internal_error.
  destruct (renderable rt content) eqn:H.
  - now rewrite JSONResponse_renderable.
  - destruct (JSONResponse_not_renderable rt content status H) as (c & -> & _).
    apply internal_error_rendered, text_encodable.
Qed.

(** An error envelope without id and with a plain message is rendered. *)
Lemma rendered_plain_error rt code message status :
  encodable message = true ->
  rendered_or_internal_error rt
    (create_error_response JNull code message JNull) status
  = json_response (create_error_response JNull code message JNull) status.
Proof.
  intros H. unfold rendered_or_internal_error.
  now rewrite renderable_error_response, H.
Qed.

(** ** The dispatcher *)

Lemma is_JStr_true k v : is_JStr k v = true <-> v = JStr k.
Proof.
  destruct v; simpl; try (split; [discriminate|congruence]).
  rewrite String.eqb_eq. split; congruence.
Qed.

Lemma given_Some s : String.eqb s "" = false -> given (Some s) = Some s.
Proof. intros H. unfold given. now rewrite H. Qed.

(** The session slot is filled by the dispatcher, whatever the client sent. *)
Lemma session_slot_from_dispatcher tool_func params arguments sid call_args :
  func_signature tool_func = Returned params ->
  name_in "mcp_session_id" (names params) = true ->
  call_args_of tool_func arguments sid = Returned call_args ->
  Dict.get "mcp_session_id" call_args = Some (opt_str sid).
Proof.
  intros Hsig Hdecl Hb. unfold call_args_of in Hb. rewrite Hsig in Hb.
  rewrite (bind_arguments_session_slot _ _ _ _ _ Hb). now rewrite Hdecl.
Qed.

(** C1 (both reserved slots are filled by the dispatcher, independently of
    [params.arguments]).  [call_tool] treats [mcp_session_id] that way
    ([session_slot_from_dispatcher]) but has no case for [service], which
    [get_tools_list] hides from the schema as the other special parameter:
    for the tool [search(service, mcp_session_id, query)] two calls that
    differ only in the client's entry under [service] bind two different
    values to that slot, and the tool answers with the client's value.  The
    client's entry under [mcp_session_id] is overridden in both. *)
Theorem client_binds_service_slot :
  call_args_of Sample.search
    (JObj [("service", JStr "client-A"); ("mcp_session_id", JStr "forged");
           ("query", JStr "q")]) (Some "s1")
  = Returned [("service", JStr "client-A"); ("mcp_session_id", JStr "s1");
              ("query", JStr "q")]
  /\ call_args_of Sample.search
       (JObj [("service", JStr "client-B"); ("mcp_session_id", JStr "forged");
              ("query", JStr "q")]) (Some "s1")
     = Returned [("service", JStr "client-B"); ("mcp_session_id", JStr "s1");
                 ("query", JStr "q")]
  /\ fst (handle_mcp_request Sample.rt Sample.tools_registry
            (Sample.request (Some "s1")
               (Sample.call "search"
                  (JObj [("service", JStr "client-A");
                         ("query", JStr "q")])))
            (new_manager 3600))
     = Returned
         (json_response
            (create_mcp_response (JInt 1)
               (JObj [("content",
                       JArr [JObj [("type", JStr "text");
                                   ("text", JStr "client-A")]])])
               JNull) 200)
  /\ fst (handle_mcp_request Sample.rt Sample.tools_registry
            (Sample.request (Some "s1")
               (Sample.call "search"
                  (JObj [("service", JStr "client-B");
                         ("query", JStr "q")])))
            (new_manager 3600))
     = Returned
         (json_response
            (create_mcp_response (JInt 1)
               (JObj [("content",
                       JArr [JObj [("type", JStr "text");
                                   ("text", JStr "client-B")]])])
               JNull) 200).
Proof. repeat split; reflexivity. Qed.

Section DispatcherFacts.

Variable rt : PyRuntime.
Variable tools_registry : Dict.t Callable.

(** [handle_mcp_request] from what the body of its outer [try] does. *)
Lemma handle_mcp_request_of_dispatch request w o w' :
  dispatch rt tools_registry request w = (o, w') ->
  handle_mcp_request rt tools_registry request w
  = (match o with
     | Returned response => Returned response
     | Raised e =>
         JSONResponse rt
           (create_error_response JNull (-32603)
              ("Internal error: " ++ exn_str e) JNull) 500
     end, w').
Proof. unfold handle_mcp_request. intros ->. now destruct o. Qed.

(** A branch that answers with [JSONResponse(content, status_code)]. *)
Lemma handle_mcp_request_rendered request w content status w' :
  dispatch rt tools_registry request w
  = (JSONResponse rt content status, w') ->
  handle_mcp_request rt tools_registry request w
  = (Returned (rendered_or_internal_error rt content status), w').
Proof.
  intros H. rewrite (handle_mcp_request_of_dispatch _ _ _ _ H).
  now rewrite rendered_or_handled.
Qed.

(** A branch that raises an exception with a plain message. *)
Lemma handle_mcp_request_raised request w e w' :
  dispatch rt tools_registry request w = (Raised e, w') ->
  encodable (exn_str e) = true ->
  handle_mcp_request rt tools_registry request w
  = (Returned (internal_error (exn_str e)), w').
Proof.
  intros H He. rewrite (handle_mcp_request_of_dispatch _ _ _ _ H).
  now rewrite internal_error_rendered.
Qed.

(** What [tools/call] answers when [call_tool] raises: the class of the
    exception alone selects between the two error envelopes. *)
Lemma tools_call_raised sid request_id name arguments e w :
  String.eqb sid "" = false ->
  truthy name = true ->
  call_tool rt tools_registry name arguments (Some sid) = Raised e ->
  handle_mcp_request rt tools_registry
    {| header_mcp_session_id := Some sid;
       request_body :=
         rpc request_id "tools/call"
             (JObj [("name", name); ("arguments", arguments)]) |} w
  = (Returned
       (if isinstance_ValueError (exn_class e)
        then rendered_or_internal_error rt
               (create_error_response request_id (-32601)
                  ("Method not found: " ++ exn_str e) JNull) 404
        else rendered_or_internal_error rt
               (create_error_response request_id (-32603)
                  ("Internal error: " ++ exn_str e) JNull) 500),
     w).
Proof.
  intros Hsid Hname Hcall.
  destruct (isinstance_ValueError (exn_class e)) eqn:Hclass;
    apply handle_mcp_request_rendered;
    unfold dispatch, bind;
    cbn [header_mcp_session_id request_body]; rewrite (given_Some _ Hsid);
    cbn; rewrite Hname; cbn; rewrite Hcall; cbn [and_then];
    now rewrite Hclass.
Qed.

(** A tool that raises anything but a [ValueError] is reported as an
    internal error, with its message, under status 500, when the id of the
    request and the message can be rendered. *)
Lemma tool_failure_internal_error sid request_id name tool_func d call_args
      e w :
  String.eqb sid "" = false ->
  String.eqb name "" = false ->
  Dict.get name tools_registry = Some tool_func ->
  call_args_of tool_func (JObj d) (Some sid) = Returned call_args ->
  func_call tool_func call_args = Raised e ->
  isinstance_ValueError (exn_class e) = false ->
  renderable_member rt request_id = true ->
  encodable (exn_str e) = true ->
  exists response,
    fst (handle_mcp_request rt tools_registry
           {| header_mcp_session_id := Some sid;
              request_body :=
                rpc request_id "tools/call"
                    (JObj [("name", JStr name); ("arguments", JObj d)]) |}
           w) = Returned response
    /\ error_code response = Some (-32603)
    /\ error_message response = Some ("Internal error: " ++ exn_str e)
    /\ status_code response = 500.
Proof.
  intros Hsid Hname Hreg Hargs Hraise Hclass Hid He.
  rewrite (tools_call_raised sid request_id (JStr name) (JObj d) e w);
    auto.
  - rewrite Hclass. eexists. split; [reflexivity|].
    unfold rendered_or_internal_error.
    rewrite renderable_error_response, Hid, encodable_internal_error, He.
    repeat split; reflexivity.
  - cbn. now rewrite Hname.
  - unfold call_tool. now rewrite Hreg, Hargs.
Qed.

(** A request whose JSON body is not an object ends in the outer handler:
    [rpc_request.get('id')] raises before the envelope is built. *)
Lemma non_object_body request v w :
  request_body request = Json v ->
  is_dict v = false ->
  fst (handle_mcp_request rt tools_registry request w)
  = Returned
      (internal_error
         ("'" ++ py_type_name v ++ "' object has no attribute 'get'")).
Proof.
  intros Hbody Hv.
  assert (Hget : py_get v "id" JNull
                 = Raised (Exn AttributeError
                             ("'" ++ py_type_name v
                              ++ "' object has no attribute 'get'"))).
  { destruct v; try reflexivity; discriminate. }
  assert (Hplain : encodable ("'" ++ py_type_name v
                              ++ "' object has no attribute 'get'") = true).
  { now destruct v. }
  destruct (get_or_create_session_returns rt None w) as (r & w1 & Hcreate).
  assert (Hd : exists w',
             dispatch rt tools_registry request w
             = (Raised (Exn AttributeError
                          ("'" ++ py_type_name v
                           ++ "' object has no attribute 'get'")), w')).
  { unfold dispatch, bind. rewrite Hbody.
    destruct (given (header_mcp_session_id request)) as [s|].
    - eexists. cbn. rewrite Hv. cbn. unfold lift. now rewrite Hget.
    - eexists. rewrite Hcreate. cbn. rewrite Hv. cbn. unfold lift.
      now rewrite Hget. }
  destruct Hd as [w' Hd].
  now rewrite (handle_mcp_request_raised _ _ _ _ Hd Hplain).
Qed.

(** An object whose [jsonrpc] member is not the string ["2.0"] is an
    invalid request. *)
Lemma wrong_version request d w :
  request_body request = Json (JObj d) ->
  is_JStr "2.0" (Dict.get_default "jsonrpc" JNull d) = false ->
  fst (handle_mcp_request rt tools_registry request w)
  = Returned
      (rendered_or_internal_error rt
         (create_error_response (Dict.get_default "id" JNull d) (-32600)
            "Invalid Request: Not a valid JSON-RPC 2.0 request" JNull) 400).
Proof.
  intros Hbody Hv.
  destruct (get_or_create_session_returns rt None w) as (r & w1 & Hcreate).
  assert (Hd : exists w',
             dispatch rt tools_registry request w
             = (JSONResponse rt
                  (create_error_response (Dict.get_default "id" JNull d)
                     (-32600)
                     "Invalid Request: Not a valid JSON-RPC 2.0 request"
                     JNull) 400, w')).
  { unfold dispatch, bind. rewrite Hbody.
    destruct (given (header_mcp_session_id request)) as [s|];
      [|rewrite Hcreate]; eexists; cbn; rewrite Hv; reflexivity. }
  destruct Hd as [w' Hd].
  now rewrite (handle_mcp_request_rendered _ _ _ _ _ Hd).
Qed.

(** A JSON-RPC 2.0 object without a (truthy) [method] is an invalid
    request. *)
Lemma missing_method request d w :
  request_body request = Json (JObj d) ->
  is_JStr "2.0" (Dict.get_default "jsonrpc" JNull d) = true ->
  truthy (Dict.get_default "method" JNull d) = false ->
  fst (handle_mcp_request rt tools_registry request w)
  = Returned
      (rendered_or_internal_error rt
         (create_error_response (Dict.get_default "id" JNull d) (-32600)
            "Invalid Request: Missing method" JNull) 400).
Proof.
  intros Hbody Hv Hm.
  destruct (get_or_create_session_returns rt None w) as (r & w1 & Hcreate).
  assert (Hd : exists w',
             dispatch rt tools_registry request w
             = (JSONResponse rt
                  (create_error_response (Dict.get_default "id" JNull d)
                     (-32600) "Invalid Request: Missing method" JNull) 400,
                w')).
  { unfold dispatch, bind. rewrite Hbody.
    destruct (given (header_mcp_session_id request)) as [s|];
      [|rewrite Hcreate]; eexists; cbn; rewrite Hv; cbn; rewrite Hm;
      reflexivity. }
  destruct Hd as [w' Hd].
  now rewrite (handle_mcp_request_rendered _ _ _ _ _ Hd).
Qed.

End DispatcherFacts.

(** C2 (a registered tool that raises during its execution is answered with
    [-32603] and status 500; [-32601] is kept for names that do not resolve).
    [handle_mcp_request] tells the two apart by [except ValueError], the class
    [call_tool] raises for an unknown name, so the registered tool [parse],
    which raises [ValueError("bad input")], is answered with [-32601],
    "Method not found", under status 404. *)
Theorem tool_value_error_reported_not_found :
  exists response,
    fst (handle_mcp_request Sample.rt Sample.tools_registry
           (Sample.request (Some "s1")
              (Sample.call "parse" (JObj [("text", JStr "x")])))
           (new_manager 3600)) = Returned response
    /\ Dict.mem "parse" Sample.tools_registry = true
    /\ error_code response = Some (-32601)
    /\ error_message response = Some "Method not found: bad input"
    /\ status_code response = 404.
Proof. eexists. repeat split; reflexivity. Qed.

(** C3 (a well-formed JSON body that is not an object, or has a wrong
    [jsonrpc], or lacks [method], is answered with [-32600] and status 400).
    The last two cases are [wrong_version] and [missing_method]; for a body
    that is not an object, such as [[]], the very construction of the
    [-32600] envelope raises, and the answer is [-32603] with status 500. *)
Theorem array_body_internal_error :
  exists response,
    fst (handle_mcp_request Sample.rt Sample.tools_registry
           (Sample.request (Some "s1") (Json (JArr [])))
           (new_manager 3600)) = Returned response
    /\ error_code response = Some (-32603)
    /\ error_message response
       = Some "Internal error: 'list' object has no attribute 'get'"
    /\ status_code response = 500.
Proof. eexists. repeat split; reflexivity. Qed.

(** ** The list methods and the session store *)

Lemma list_method_dispatch rt tools_registry request d w :
  request_body request = Json (JObj d) ->
  is_JStr "2.0" (Dict.get_default "jsonrpc" JNull d) = true ->
  is_list_method (Dict.get_default "method" JNull d) = true ->
  handle_mcp_request rt tools_registry request w
  = (Returned
       (rendered_or_internal_error rt
          (create_mcp_response (Dict.get_default "id" JNull d)
             (list_result rt tools_registry
                (Dict.get_default "method" JNull d))
             JNull) 200),
     match given (header_mcp_session_id request) with
     | Some _ => w
     | None => created rt None w
     end).
Proof.
  intros Hbody Hv Hm. apply handle_mcp_request_rendered.
  unfold dispatch, bind. rewrite Hbody. unfold list_result.
  set (method := Dict.get_default "method" JNull d) in *.
  assert (Hcases : method = JStr "tools/list" \/ method = JStr "resources/list"
                   \/ method = JStr "prompts/list").
  { unfold is_list_method in Hm.
    apply orb_true_iff in Hm as [Hm|Hm];
      [apply orb_true_iff in Hm as [Hm|Hm]|];
      apply is_JStr_true in Hm; auto. }
  destruct (given (header_mcp_session_id request)) as [s|].
  - cbn. rewrite Hv. cbn. fold method.
    destruct Hcases as [->|[->| ->]]; reflexivity.
  - rewrite get_or_create_session_eq. cbn. rewrite Hv. cbn. fold method.
    destruct Hcases as [->|[->| ->]]; reflexivity.
Qed.

(** C9, as the code has it.  A [tools/list], [resources/list] or
    [prompts/list] request gets the same answer in every state of the store:
    the registry contents as result when the id of the request and the
    registry contents can be rendered as JSON, and else the internal error
    of the outer handler; when the request carries a session header the
    world after the dispatch is the world before; when it carries none, the
    dispatcher has created one session before it looked at the method, and
    that is the only change. *)
Theorem list_methods_frame
    (rt : PyRuntime) (tools_registry : Dict.t Callable)
    (request : Request) (d : Dict.t json) (w : World) :
  request_body request = Json (JObj d) ->
  is_JStr "2.0" (Dict.get_default "jsonrpc" JNull d) = true ->
  is_list_method (Dict.get_default "method" JNull d) = true ->
  let request_id := Dict.get_default "id" JNull d in
  let result :=
    list_result rt tools_registry (Dict.get_default "method" JNull d) in
  (forall w', fst (handle_mcp_request rt tools_registry request w')
              = fst (handle_mcp_request rt tools_registry request w))
  /\ (exists response,
        fst (handle_mcp_request rt tools_registry request w)
        = Returned response
        /\ if renderable_member rt request_id && renderable_member rt result
           then response
                = json_response (create_mcp_response request_id result JNull)
                    200
                /\ result_of response = Some result
           else response
                = internal_error
                    (text (render_error_str rt
                             (create_mcp_response request_id result JNull)))
                /\ result_of response = None
                /\ error_code response = Some (-32603)
                /\ status_code response = 500)
  /\ (forall sid, given (header_mcp_session_id request) = Some sid ->
        snd (handle_mcp_request rt tools_registry request w) = w)
  /\ (given (header_mcp_session_id request) = None ->
        snd (handle_mcp_request rt tools_registry request w)
        = snd (create_session rt None w)).
Proof.
  intros Hbody Hv Hm request_id result. repeat split.
  - intros w'. now rewrite !(list_method_dispatch _ _ _ d) by assumption.
  - rewrite (list_method_dispatch _ _ _ d) by assumption. cbn [fst].
    eexists. split; [reflexivity|].
    fold request_id result. unfold rendered_or_internal_error.
    rewrite renderable_success_response.
    destruct (renderable_member rt request_id
              && renderable_member rt result);
      repeat split; reflexivity.
  - intros sid Hsid. rewrite (list_method_dispatch _ _ _ d) by assumption.
    now rewrite Hsid.
  - intros Hsid. rewrite (list_method_dispatch _ _ _ d) by assumption.
    now rewrite Hsid, create_session_eq.
Qed.

Lemma list_methods_frame_witness :
  snd (handle_mcp_request Sample.rt Sample.tools_registry
         (Sample.request (Some "s1") (rpc (JInt 7) "tools/list" (JObj [])))
         (new_manager 3600))
  = new_manager 3600.
Proof.
  refine (proj1 (proj2 (proj2
    (list_methods_frame Sample.rt Sample.tools_registry
       (Sample.request (Some "s1") (rpc (JInt 7) "tools/list" (JObj [])))
       [("jsonrpc", JStr "2.0"); ("id", JInt 7);
        ("method", JStr "tools/list"); ("params", JObj [])]
       (new_manager 3600) eq_refl eq_refl eq_refl))) "s1" eq_refl).
Defined.

(** C9 as stated fails without a session header: on an empty store a
    [tools/list] request without header leaves one session behind, and
    [get_session_count] goes from 0 to 1. *)
Lemma list_request_without_header_creates_session :
  let request :=
    Sample.request None (rpc (JInt 7) "tools/list" (JObj [])) in
  let w := new_manager 3600 in
  let w' :=
    snd (handle_mcp_request Sample.rt Sample.tools_registry request w) in
  fst (get_session_count w) = Returned 0%nat
  /\ fst (get_session_count w') = Returned 1%nat
  /\ sessions w' = [("generated-0", 0%nat)]
  /\ sessions w' <> sessions w.
Proof. repeat split. discriminate. Qed.

(** ** Initialize *)

Lemma live_false rt w sid :
  live rt w sid = false
  <-> Dict.get sid (sessions w) = None
      \/ exists r, Dict.get sid (sessions w) = Some r
                   /\ idle_time rt w (heap w !!! r) > session_timeout w.
Proof.
  unfold live. destruct (Dict.get sid (sessions w)) as [r|].
  - rewrite negb_false_iff, Z.gtb_gt. split.
    + intros H. right. exists r. split; [reflexivity|lia].
    + intros [H|(r' & H & Hgt)]; [discriminate|]. inversion H. subst. lia.
  - split; auto.
Qed.

Lemma initialize_session_live rt sid ci caps w :
  is_dict ci = true ->
  initialize_session rt sid ci caps w
  = (Returned (live rt w sid),
     match Dict.get sid (sessions w) with
     | None => w
     | Some r => if live rt w sid then initialized_world rt r ci caps w
                 else expired sid w
     end).
Proof.
  intros Hci. rewrite initialize_session_eq. unfold live.
  destruct (Dict.get sid (sessions w)) as [r|]; auto.
  destruct (idle_time rt w (heap w !!! r) >? session_timeout w); auto.
  destruct ci; try discriminate. reflexivity.
Qed.

Lemma initialized_world_object rt r ci caps w s :
  heap w !! r = Some s ->
  heap (initialized_world rt r ci caps w) !! r
  = Some {| session_id := session_id s; created_at := created_at s;
            last_accessed := time_time rt (S (S (clock_reads w)));
            user_email := user_email s; initialized := true;
            client_info := ci; capabilities := caps |}.
Proof.
  intros Hs. unfold initialized_world, touched. cbn [heap].
  rewrite !list_lookup_alter_eq, Hs. reflexivity.
Qed.

(** C4, as the code has it.  [initialize_session], called with a
    [client_info] that is a dict, returns [false] exactly when no session is
    stored under the id or the stored one has idled beyond the timeout at the
    lookup, and otherwise returns [true] with [initialized] set and both
    payloads stored in the session object.  The [initialize] handler of the
    dispatcher gets or creates the session first and does not look at what
    [initialize_session] returned: in every case it answers the success
    result with the session header when the id of the request can be
    rendered as JSON, and the internal error of the outer handler when it
    cannot. *)
Theorem initialize_contract
    (rt : PyRuntime) (tools_registry : Dict.t Callable)
    (sid : string) (ci caps : json) (w : World) :
  is_dict ci = true ->
  fst (initialize_session rt sid ci caps w) = Returned (live rt w sid)
  /\ (live rt w sid = false
      <-> Dict.get sid (sessions w) = None
          \/ exists r, Dict.get sid (sessions w) = Some r
                       /\ idle_time rt w (heap w !!! r) > session_timeout w)
  /\ (forall r s,
        live rt w sid = true ->
        Dict.get sid (sessions w) = Some r -> heap w !! r = Some s ->
        let w' := snd (initialize_session rt sid ci caps w) in
        Dict.get sid (sessions w') = Some r
        /\ exists s', heap w' !! r = Some s'
                      /\ initialized s' = true
                      /\ client_info s' = ci
                      /\ capabilities s' = caps
                      /\ session_id s' = session_id s)
  /\ (forall request_id p,
        String.eqb sid "" = false ->
        Dict.get_default "clientInfo" (JObj []) p = ci ->
        fst (handle_mcp_request rt tools_registry
               {| header_mcp_session_id := Some sid;
                  request_body := rpc request_id "initialize" (JObj p) |} w)
        = Returned
            (if renderable_member rt request_id
             then {| content :=
                       create_mcp_response request_id initialize_result JNull;
                     status_code := 200;
                     headers := [("mcp-session-id", sid)] |}
             else internal_error
                    (text (render_error_str rt
                             (create_mcp_response request_id
                                initialize_result JNull))))).
Proof.
  intros Hci. rewrite (initialize_session_live _ _ _ _ _ Hci).
  split; [reflexivity|]. split; [apply live_false|]. split.
  - intros r s Hlive Hget Hs. cbn [snd]. rewrite Hget, Hlive. split.
    + exact Hget.
    + rewrite (initialized_world_object rt r ci caps w s Hs).
      eexists. split; [reflexivity|]. repeat split; reflexivity.
  - intros request_id p Hsid Hp.
    assert (Hrender :
      renderable rt (create_mcp_response request_id initialize_result JNull)
      = renderable_member rt request_id).
    { rewrite renderable_success_response,
        renderable_member_initialize_result.
      apply andb_true_r. }
    unfold handle_mcp_request, dispatch, bind.
    cbn [header_mcp_session_id request_body]. rewrite (given_Some _ Hsid).
    cbn -[get_or_create_session initialize_session JSONResponse
          create_mcp_response create_error_response].
    unfold handle_initialize, bind, lift.
    destruct (get_or_create_session_returns rt (Some sid) w) as (r & w1 & ->).
    cbn [py_get]. rewrite Hp.
    rewrite (initialize_session_live _ _ _ _ _ Hci).
    rewrite <- Hrender.
    destruct (renderable rt
                (create_mcp_response request_id initialize_result JNull))
      eqn:Hid.
    + rewrite JSONResponse_renderable by assumption. reflexivity.
    + destruct (JSONResponse_not_renderable rt _ 200 Hid) as (c & -> & _).
      cbn [fst exn_str].
      apply internal_error_rendered, text_encodable.
Qed.

Lemma initialize_contract_witness :
  fst (initialize_session Sample.rt "s1" (JObj [("name", JStr "client")])
         (JObj []) (snd (create_session Sample.rt (Some "s1")
                           (new_manager 3600))))
  = Returned true.
Proof.
  exact (proj1 (initialize_contract Sample.rt Sample.tools_registry "s1"
                  (JObj [("name", JStr "client")]) (JObj [])
                  (snd (create_session Sample.rt (Some "s1")
                          (new_manager 3600)))
                  eq_refl)).
Defined.

(** Why [client_info] is taken to be a dict, as the signature of
    [initialize_session] declares it: on any other value the log line raises
    after the session has been updated. *)
Example initialize_session_client_info_not_a_dict :
  let w := created Sample.rt (Some "s1") (new_manager 3600) in
  initialize_session Sample.rt "s1" (JStr "x") (JObj []) w
  = (Raised (Exn AttributeError "'str' object has no attribute 'get'"),
     initialized_world Sample.rt 0 (JStr "x") (JObj []) w).
Proof. reflexivity. Qed.

(** C4 as stated fails in the handler: with a clock that jumps past the
    timeout between the creation of the session and the lookup in
    [initialize_session], the call returns [false] and the client still
    receives the success result. *)
Lemma initialize_false_answered_with_success :
  let w := new_manager 3600 in
  let w1 := snd (get_or_create_session Sample.rt_jump (Some "abc") w) in
  fst (initialize_session Sample.rt_jump "abc" (JObj []) (JObj []) w1)
  = Returned false
  /\ exists response,
       fst (handle_mcp_request Sample.rt_jump Sample.tools_registry
              (Sample.request (Some "abc")
                 (rpc (JInt 1) "initialize" (JObj []))) w)
       = Returned response
       /\ error_code response = None
       /\ result_of response = Some initialize_result
       /\ status_code response = 200.
Proof. split; [reflexivity|]. eexists. repeat split; reflexivity. Qed.

(** ** The invariant of the session store *)

Lemma dict_get_del_Some {V} k k' (d : Dict.t V) v :
  Dict.get k' (Dict.del k d) = Some v -> k <> k' /\ Dict.get k' d = Some v.
Proof.
  intros H. destruct (String.eqb_spec k k') as [->|Hne].
  - rewrite DictFacts.get_del_eq in H. discriminate.
  - rewrite DictFacts.get_del_ne in H by assumption. auto.
Qed.

Lemma dict_get_set_Some {V} k k' (d : Dict.t V) v v' :
  Dict.get k' (Dict.set k v d) = Some v' ->
  (k' = k /\ v' = v) \/ (k <> k' /\ Dict.get k' d = Some v').
Proof.
  intros H. destruct (String.eqb_spec k k') as [->|Hne].
  - rewrite DictFacts.get_set_eq in H. left. split; congruence.
  - rewrite DictFacts.get_set_ne in H by assumption. auto.
Qed.

(** Splits [evolves] into its four parts, on a world given by its fields. *)
Ltac open_evolves :=
  split; [cbn; lia|];
  split; [|split; [split|]];
  unfold heap_in_past, well_formed; cbn [heap sessions clock_reads].

Section StoreInvariant.

Variable rt : PyRuntime.
Hypothesis clock : monotone_clock rt.

Lemma later (n m : nat) : (n <= m)%nat -> time_time rt n <= time_time rt m.
Proof using clock. apply clock. Qed.

Lemma evolves_refl w : store_ok rt w -> evolves rt w w.
Proof.
  intros Hok. repeat split; try apply Hok; auto.
  intros r s Hs. exists s. split; [assumption|lia].
Qed.

Lemma evolves_trans w1 w2 w3 :
  evolves rt w1 w2 -> evolves rt w2 w3 -> evolves rt w1 w3.
Proof using clock.
  intros (Hc1 & Hobj1 & Hok1 & Hid1) (Hc2 & Hobj2 & Hok2 & Hid2).
  split; [lia|]. split; [|split; [assumption|]].
  - intros r s Hs. destruct (Hobj1 r s Hs) as (s2 & Hs2 & Hle2).
    destruct (Hobj2 r s2 Hs2) as (s3 & Hs3 & Hle3).
    exists s3. split; [assumption|lia].
  - intros sid r' Hget. destruct (Hid2 sid r' Hget) as [Hold|(s3 & Hs3 & Hle)].
    + destruct (Hid1 sid r' Hold) as [Holder|(s2 & Hs2 & Hle)]; auto.
      destruct (Hobj2 r' s2 Hs2) as (s3 & Hs3 & Hle3).
      right. exists s3. split; [assumption|lia].
    + right. exists s3. split; [assumption|].
      pose proof (later _ _ Hc1). lia.
Qed.

(** The worlds that the operations produce. *)

Lemma evolves_touched r w : store_ok rt w -> evolves rt w (touched rt r w).
Proof using clock.
  intros [Hpast Hwf]. unfold touched.
  pose proof (later (clock_reads w) (S (clock_reads w)) ltac:(lia)) as H1.
  pose proof (later (S (clock_reads w)) (S (S (clock_reads w))) ltac:(lia))
    as H2.
  open_evolves.
  - intros r0 s Hs. destruct (decide (r = r0)) as [->|Hne].
    + rewrite list_lookup_alter_eq, Hs. eexists. split; [reflexivity|].
      cbn. specialize (Hpast r0 s Hs). lia.
    + rewrite list_lookup_alter_ne by assumption.
      exists s. split; [assumption|lia].
  - intros r0 s. destruct (decide (r = r0)) as [->|Hne].
    + rewrite list_lookup_alter_eq.
      destruct (heap w !! r0) as [s0|]; cbn; [|discriminate].
      intros [= <-]. cbn. lia.
    + rewrite list_lookup_alter_ne by assumption.
      intros Hs. specialize (Hpast r0 s Hs). lia.
  - intros sid r0 Hget. rewrite length_alter. eapply Hwf, Hget.
  - auto.
Qed.

Lemma evolves_expired sid w : store_ok rt w -> evolves rt w (expired sid w).
Proof using clock.
  intros [Hpast Hwf]. unfold expired.
  pose proof (later (clock_reads w) (S (clock_reads w)) ltac:(lia)) as H1.
  open_evolves.
  - intros r s Hs. exists s. split; [assumption|lia].
  - intros r s Hs. specialize (Hpast r s Hs). lia.
  - intros k r Hget. apply dict_get_del_Some in Hget as [_ Hget].
    eapply Hwf, Hget.
  - intros k r Hget. apply dict_get_del_Some in Hget as [_ Hget]. auto.
Qed.

Lemma evolves_created sid w : store_ok rt w -> evolves rt w (created rt sid w).
Proof using clock.
  intros [Hpast Hwf]. unfold created.
  pose proof (later (clock_reads w) (S (clock_reads w)) ltac:(lia)) as H1.
  pose proof (later (S (clock_reads w)) (S (S (clock_reads w))) ltac:(lia))
    as H2.
  open_evolves.
  - intros r s Hs. exists s. split; [|lia]. now apply lookup_app_l_Some.
  - intros r s Hs. apply lookup_app_Some in Hs as [Hs|[_ Hs]].
    + specialize (Hpast r s Hs). lia.
    + apply list_lookup_singleton_Some in Hs as [_ <-]. cbn. lia.
  - intros k r Hget. rewrite length_app. cbn.
    apply dict_get_set_Some in Hget as [[_ ->]|[_ Hget]]; [lia|].
    specialize (Hwf k r Hget). lia.
  - intros k r Hget.
    apply dict_get_set_Some in Hget as [[_ ->]|[_ Hget]]; auto.
    right. eexists. split.
    + rewrite lookup_app_r, Nat.sub_diag by lia. reflexivity.
    + cbn. lia.
Qed.

Lemma evolves_initialized_world r ci caps w :
  store_ok rt w -> evolves rt w (initialized_world rt r ci caps w).
Proof using clock.
  intros [Hpast Hwf]. unfold initialized_world, touched.
  pose proof (later (clock_reads w) (S (S (clock_reads w))) ltac:(lia)) as H1.
  pose proof (later (S (S (clock_reads w))) (S (S (S (clock_reads w))))
                ltac:(lia)) as H2.
  open_evolves.
  - intros r0 s Hs. destruct (decide (r = r0)) as [->|Hne].
    + rewrite !list_lookup_alter_eq, Hs. eexists. split; [reflexivity|].
      cbn. specialize (Hpast r0 s Hs). lia.
    + rewrite !list_lookup_alter_ne by assumption.
      exists s. split; [assumption|lia].
  - intros r0 s. destruct (decide (r = r0)) as [->|Hne].
    + rewrite !list_lookup_alter_eq.
      destruct (heap w !! r0) as [s0|]; cbn; [|discriminate].
      intros [= <-]. cbn. lia.
    + rewrite !list_lookup_alter_ne by assumption.
      intros Hs. specialize (Hpast r0 s Hs). lia.
  - intros sid r0 Hget. rewrite !length_alter. eapply Hwf, Hget.
  - auto.
Qed.

(** The combinators of the monad. *)

Lemma preserves_ret {A} (a : A) : preserves rt (ret a).
Proof. intros w Hok. now apply evolves_refl. Qed.

Lemma preserves_lift {A} (o : outcome A) : preserves rt (lift o).
Proof. intros w Hok. now apply evolves_refl. Qed.

Lemma preserves_bind {A B} (c : M A) (k : A -> M B) :
  preserves rt c -> (forall a, preserves rt (k a)) -> preserves rt (bind c k).
Proof using clock.
  intros Hc Hk w Hok. unfold bind. specialize (Hc w Hok).
  destruct (c w) as [[a|e] w1]; cbn [snd] in *; [|assumption].
  eapply evolves_trans; [exact Hc|]. apply Hk. apply Hc.
Qed.

Lemma preserves_time_now : preserves rt (time_now rt).
Proof using clock.
  intros w [Hpast Hwf]. unfold time_now. cbn [snd].
  pose proof (later (clock_reads w) (S (clock_reads w)) ltac:(lia)) as H1.
  open_evolves.
  - intros r s Hs. exists s. split; [assumption|lia].
  - intros r s Hs. specialize (Hpast r s Hs). cbn. lia.
  - exact Hwf.
  - auto.
Qed.

Lemma preserves_deref r : preserves rt (deref r).
Proof. intros w Hok. now apply evolves_refl. Qed.

Lemma preserves_is_expired r timeout : preserves rt (is_expired rt r timeout).
Proof using clock.
  unfold is_expired. apply preserves_bind; [apply preserves_time_now|].
  intros t. apply preserves_bind; [apply preserves_deref|].
  intros s. apply preserves_ret.
Qed.

Lemma preserves_create_session sid : preserves rt (create_session rt sid).
Proof using clock.
  intros w Hok. rewrite create_session_eq. now apply evolves_created.
Qed.

Lemma preserves_get_session sid : preserves rt (get_session rt sid).
Proof using clock.
  intros w Hok. rewrite get_session_eq.
  destruct (Dict.get sid (sessions w)) as [r|]; [|now apply evolves_refl].
  destruct (idle_time rt w (heap w !!! r) >? session_timeout w); cbn [snd].
  - now apply evolves_expired.
  - now apply evolves_touched.
Qed.

Lemma preserves_get_or_create_session sid :
  preserves rt (get_or_create_session rt sid).
Proof using clock.
  unfold get_or_create_session. destruct (given sid) as [s|].
  - apply preserves_bind; [apply preserves_get_session|].
    intros [r|]; [apply preserves_ret | apply preserves_create_session].
  - apply preserves_create_session.
Qed.

Lemma preserves_initialize_session sid ci caps :
  preserves rt (initialize_session rt sid ci caps).
Proof using clock.
  intros w Hok. rewrite initialize_session_eq.
  destruct (Dict.get sid (sessions w)) as [r|]; [|now apply evolves_refl].
  destruct (idle_time rt w (heap w !!! r) >? session_timeout w); cbn [snd].
  - now apply evolves_expired.
  - now apply evolves_initialized_world.
Qed.

Lemma preserves_is_session_initialized sid :
  preserves rt (is_session_initialized rt sid).
Proof using clock.
  unfold is_session_initialized.
  apply preserves_bind; [apply preserves_get_session|].
  intros [r|]; [|apply preserves_ret].
  apply preserves_bind; [apply preserves_deref|]. intros s. apply preserves_ret.
Qed.

Lemma preserves_get_session_info sid : preserves rt (get_session_info rt sid).
Proof using clock.
  unfold get_session_info.
  apply preserves_bind; [apply preserves_get_session|].
  intros [r|]; [|apply preserves_ret].
  apply preserves_bind; [apply preserves_deref|]. intros s.
  apply preserves_bind; [apply preserves_time_now|]. intros t1.
  apply preserves_bind; [apply preserves_time_now|]. intros t2.
  apply preserves_bind; [apply preserves_lift|]. intros n.
  apply preserves_bind; [apply preserves_lift|]. intros v.
  apply preserves_ret.
Qed.

Lemma preserves_expired_sessions items :
  preserves rt (expired_sessions rt items).
Proof using clock.
  induction items as [|[sid r] items IH]; cbn [expired_sessions].
  - apply preserves_ret.
  - intros w. revert w.
    change (preserves rt
              (fun w => bind (is_expired rt r (session_timeout w))
                 (fun expired => bind (expired_sessions rt items)
                    (fun rest => ret (if expired then sid :: rest else rest)))
                 w)).
    intros w Hok.
    apply (preserves_bind (is_expired rt r (session_timeout w))); auto.
    + apply preserves_is_expired.
    + intros b. apply preserves_bind; [apply IH|]. intros rest.
      apply preserves_ret.
Qed.

Lemma preserves_delete_sessions sids : preserves rt (delete_sessions sids).
Proof using clock.
  induction sids as [|sid sids IH]; cbn [delete_sessions].
  - apply preserves_ret.
  - apply preserves_bind; [|intros _; apply IH].
    intros w [Hpast Hwf]. cbn [snd]. unfold with_sessions.
    open_evolves.
    + intros r s Hs. exists s. split; [assumption|lia].
    + exact Hpast.
    + intros k r Hget. apply dict_get_del_Some in Hget as [_ Hget].
      eapply Hwf, Hget.
    + intros k r Hget. apply dict_get_del_Some in Hget as [_ Hget]. auto.
Qed.

Lemma preserves_cleanup_expired_sessions :
  preserves rt (cleanup_expired_sessions rt).
Proof using clock.
  intros w Hok. unfold cleanup_expired_sessions.
  apply (preserves_bind (expired_sessions rt (sessions w))); auto.
  - apply preserves_expired_sessions.
  - intros sids. apply preserves_delete_sessions.
Qed.

(** Every operation of the store lets the world evolve. *)
Lemma run_op_evolves op w : store_ok rt w -> evolves rt w (run_op rt op w).
Proof using clock.
  intros Hok. destruct op; cbn [run_op].
  - now apply preserves_create_session.
  - now apply preserves_get_session.
  - now apply preserves_get_or_create_session.
  - now apply preserves_initialize_session.
  - now apply preserves_is_session_initialized.
  - now apply preserves_cleanup_expired_sessions.
  - now apply evolves_refl.
  - now apply preserves_get_session_info.
Qed.

(** And so does every sequence of operations. *)
Lemma run_ops_evolves ops : forall w,
  store_ok rt w -> evolves rt w (run_ops rt ops w).
Proof using clock.
  induction ops as [|op ops IH]; intros w Hok; cbn [run_ops].
  - now apply evolves_refl.
  - pose proof (run_op_evolves op w Hok) as Hstep.
    eapply evolves_trans; [exact Hstep|]. apply IH, Hstep.
Qed.

End StoreInvariant.

(** ** What a lookup or a creation returns *)

(** What [get_or_create_session] returns has just been created or touched. *)
Lemma get_or_create_session_refreshed rt sid w :
  well_formed w ->
  exists r w' s,
    get_or_create_session rt sid w = (Returned r, w')
    /\ heap w' !! r = Some s
    /\ last_accessed s = last_reading rt w'
    /\ session_timeout w' = session_timeout w
    /\ (forall id, given sid = Some id -> Dict.get id (sessions w') = Some r)
    /\ (forall id r0, given sid = Some id ->
          Dict.get id (sessions w) = Some r0 ->
          idle_time rt w (heap w !!! r0) > session_timeout w -> r <> r0).
Proof.
  intros Hwf. rewrite get_or_create_session_eq.
  assert (Hcreated : forall w0, length (heap w0) = length (heap w) ->
    exists s,
      heap (created rt sid w0) !! length (heap w) = Some s
      /\ last_accessed s = last_reading rt (created rt sid w0)
      /\ (forall id, given sid = Some id ->
            Dict.get id (sessions (created rt sid w0))
            = Some (length (heap w)))).
  { intros w0 Hlen. eexists. split; [|split].
    - unfold created. cbn [heap].
      rewrite lookup_app_r, Hlen, Nat.sub_diag by lia. reflexivity.
    - reflexivity.
    - intros id Hid. unfold created, new_id. cbn [sessions].
      rewrite Hid, Hlen. apply DictFacts.get_set_eq. }
  destruct (given sid) as [id|] eqn:Hgiven.
  - destruct (Dict.get id (sessions w)) as [r0|] eqn:Hget.
    + destruct (idle_time rt w (heap w !!! r0) >? session_timeout w) eqn:Hidle.
      * destruct (Hcreated (expired id w) eq_refl) as (s & Hs & Hla & Hid).
        exists (length (heap w)), (created rt sid (expired id w)), s.
        repeat split; auto.
        intros id' r1 [= <-] Hget1 _. rewrite Hget in Hget1.
        injection Hget1 as <-. specialize (Hwf id r0 Hget). lia.
      * destruct (lookup_lt_is_Some_2 (heap w) r0 (Hwf id r0 Hget))
          as [s0 Hs0].
        exists r0, (touched rt r0 w),
          (set_last_accessed (time_time rt (S (clock_reads w))) s0).
        repeat split; auto.
        -- unfold touched. cbn [heap]. now rewrite list_lookup_alter_eq, Hs0.
        -- intros id' [= <-]. exact Hget.
        -- intros id' r1 [= <-] Hget1 Hgt. rewrite Z.gtb_ltb in Hidle.
           rewrite Hget in Hget1. injection Hget1 as <-.
           apply Z.ltb_ge in Hidle. lia.
    + destruct (Hcreated w eq_refl) as (s & Hs & Hla & Hid).
      exists (length (heap w)), (created rt sid w), s. repeat split; auto.
      all: intros id' r1 [= <-] Hget1; congruence.
  - destruct (Hcreated w eq_refl) as (s & Hs & Hla & Hid).
    exists (length (heap w)), (created rt sid w), s. repeat split; auto.
    all: intros id' r1 Hid'; discriminate.
Qed.

(** * Further properties *)

(** ** The envelopes of the dispatcher *)

Create HintDb envelope.

Lemma error_envelope_intro request_id code message status :
  status = status_of_code code -> In code error_codes ->
  envelope request_id
    (json_response (create_error_response request_id code message JNull)
       status).
Proof. intros -> Hin. left. exists code, message. auto. Qed.

Lemma success_envelope_intro request_id result hs :
  envelope request_id
    {| content := create_mcp_response request_id result JNull;
       status_code := 200; headers := hs |}.
Proof. right. exists result, hs. reflexivity. Qed.

#[local] Hint Resolve success_envelope_intro : envelope.
#[local] Hint Extern 1 (envelope _ (json_response _ 200)) =>
  apply success_envelope_intro : envelope.
#[local] Hint Extern 2 (envelope _ _) =>
  apply error_envelope_intro; [reflexivity | cbn; tauto] : envelope.

Lemma lookup_total_snoc (l : list MCPSession) (s : MCPSession) :
  (l ++ [s])%list !!! List.length l = s.
Proof.
  apply list_lookup_total_correct.
  rewrite lookup_app_r, Nat.sub_diag by lia. reflexivity.
Qed.

Lemma JSONResponse_Returned rt content status r :
  JSONResponse rt content status = Returned r ->
  r = json_response content status.
Proof.
  unfold JSONResponse. destruct (render_error rt content); congruence.
Qed.

Section Envelopes.

Variable rt : PyRuntime.
Variable tools_registry : Dict.t Callable.

(** The first step of [handle_mcp_request]. *)
Lemma session_step request w :
  (match given (header_mcp_session_id request) with
   | Some s => ret s
   | None =>
       bind (get_or_create_session rt None) (fun session =>
       bind (deref session) (fun s => ret (session_id s)))
   end) w
  = (Returned (session_of rt request w), after_session_step rt request w).
Proof.
  unfold session_of, after_session_step.
  destruct (given (header_mcp_session_id request)); [reflexivity|].
  unfold bind. rewrite get_or_create_session_eq. cbn [given].
  unfold deref, ret. cbn [heap created]. now rewrite lookup_total_snoc.
Qed.

Lemma lift_JSONResponse_shape request_id content status w r w' :
  lift (JSONResponse rt content status) w = (Returned r, w') ->
  envelope request_id (json_response content status) ->
  envelope request_id r.
Proof.
  unfold lift. intros [= H _] Henv.
  now rewrite (JSONResponse_Returned _ _ _ _ H).
Qed.

Lemma handle_initialize_shape sid request_id params w r w' :
  handle_initialize rt sid request_id params w = (Returned r, w') ->
  envelope request_id r.
Proof.
  unfold handle_initialize, bind, lift, ret.
  destruct (get_or_create_session rt (Some sid) w) as [[x|e] w1];
    [|discriminate].
  destruct (py_get params "clientInfo" (JObj [])) as [ci|]; [|discriminate].
  destruct (py_get params "capabilities" (JObj [])) as [caps|];
    [|discriminate].
  destruct (initialize_session rt sid ci caps w1) as [[b|e] w2];
    [|discriminate].
  destruct (JSONResponse rt _ 200) as [response|e] eqn:H; [|discriminate].
  apply JSONResponse_Returned in H as ->.
  intros [= <- _]. auto with envelope.
Qed.

Lemma handle_tools_call_shape sid request_id params w r w' :
  handle_tools_call rt tools_registry sid request_id params w
  = (Returned r, w') ->
  envelope request_id r.
Proof.
  unfold handle_tools_call, bind, ret.
  unfold lift at 1 2.
  destruct (py_get params "name" JNull) as [name|]; [|discriminate].
  destruct (py_get params "arguments" (JObj [])) as [arguments|];
    [|discriminate].
  destruct (truthy name); cbn [negb].
  - destruct (call_tool rt tools_registry name arguments (Some sid))
      as [text|e]; cbn [and_then].
    + destruct (JSONResponse rt _ 200) as [response|e] eqn:H.
      * apply JSONResponse_Returned in H as ->.
        intros [= <- _]. auto with envelope.
      * destruct (isinstance_ValueError (exn_class e)); intros H';
          apply (lift_JSONResponse_shape request_id) in H';
          auto with envelope.
    + destruct (isinstance_ValueError (exn_class e)); intros H';
        apply (lift_JSONResponse_shape request_id) in H';
        auto with envelope.
  - intros H'. apply (lift_JSONResponse_shape request_id) in H';
      auto with envelope.
Qed.

Lemma dispatch_shape request w r w' :
  dispatch rt tools_registry request w = (Returned r, w') ->
  envelope (request_id_of (request_body request)) r.
Proof.
  unfold dispatch. unfold bind at 1. rewrite session_step.
  destruct (request_body request) as [| detail | detail | c detail | v];
    cbn [request_id_of].
  - intros H. apply (lift_JSONResponse_shape JNull) in H; auto with envelope.
  - discriminate.
  - intros H. apply (lift_JSONResponse_shape JNull) in H; auto with envelope.
  - discriminate.
  - destruct v as [| | | | | |l|d]; try discriminate.
    cbn [is_dict negb orb py_get]. unfold bind.
    unfold lift at 1 3 4 5.
    destruct (negb _).
    { intros H. eapply lift_JSONResponse_shape in H; eauto with envelope. }
    destruct (negb (truthy _)).
    { intros H. eapply lift_JSONResponse_shape in H; eauto with envelope. }
    destruct (is_JStr "initialize" _).
    { intros H. eapply handle_initialize_shape, H. }
    destruct (is_JStr "tools/list" _).
    { intros H. eapply lift_JSONResponse_shape in H; eauto with envelope. }
    destruct (is_JStr "resources/list" _).
    { intros H. eapply lift_JSONResponse_shape in H; eauto with envelope. }
    destruct (is_JStr "prompts/list" _).
    { intros H. eapply lift_JSONResponse_shape in H; eauto with envelope. }
    destruct (is_JStr "tools/call" _).
    { apply handle_tools_call_shape. }
    intros H. eapply lift_JSONResponse_shape in H; eauto with envelope.
Qed.

(** The exceptions that reach the outer handler have a plain message. *)

Lemma handle_initialize_plain sid request_id params w :
  plain_exception (fst (handle_initialize rt sid request_id params w)).
Proof.
  unfold handle_initialize, bind, lift, ret.
  destruct (get_or_create_session_returns rt (Some sid) w) as (r & w1 & ->).
  destruct (py_get params "clientInfo" (JObj [])) as [ci|e0] eqn:H1;
    [|intros e [= <-]; eapply py_get_plain, H1].
  destruct (py_get params "capabilities" (JObj [])) as [caps|e0] eqn:H2;
    [|intros e [= <-]; eapply py_get_plain, H2].
  rewrite initialize_session_eq.
  destruct (Dict.get sid (sessions w1)) as [r0|];
    [destruct (idle_time rt w1 (heap w1 !!! r0) >? session_timeout w1);
       [|destruct (py_get ci "name" (JStr "unknown")) as [n|e0] eqn:H3]|];
    try (intros e [= <-]; eapply py_get_plain, H3);
    (destruct (JSONResponse rt _ 200) as [response|e0] eqn:H; intros e He;
     [discriminate|injection He as <-; eapply JSONResponse_plain, H]).
Qed.

Lemma handle_tools_call_plain sid request_id params w :
  plain_exception
    (fst (handle_tools_call rt tools_registry sid request_id params w)).
Proof.
  unfold handle_tools_call, bind, ret.
  unfold lift at 1 2.
  destruct (py_get params "name" JNull) as [name|e0] eqn:H1;
    [|intros e [= <-]; eapply py_get_plain, H1].
  destruct (py_get params "arguments" (JObj [])) as [arguments|e0] eqn:H2;
    [|intros e [= <-]; eapply py_get_plain, H2].
  assert (Hlift : forall content status,
            plain_exception (fst (lift (JSONResponse rt content status) w))).
  { intros content status. unfold lift. apply JSONResponse_plain. }
  destruct (negb (truthy name)); [apply Hlift|].
  destruct (and_then _ _) as [response|e0]; [discriminate|].
  destruct (isinstance_ValueError (exn_class e0)); apply Hlift.
Qed.

Lemma dispatch_plain request w :
  plain_exception (fst (dispatch rt tools_registry request w)).
Proof.
  unfold dispatch. unfold bind at 1. rewrite session_step.
  assert (Hlift : forall content status w1,
            plain_exception (fst (lift (JSONResponse rt content status) w1))).
  { intros content status w1. unfold lift. apply JSONResponse_plain. }
  destruct (request_body request) as [| detail | detail | c detail | v].
  - apply Hlift.
  - intros e [= <-]. apply text_encodable.
  - apply Hlift.
  - intros e [= <-]. apply text_encodable.
  - destruct v as [| | | | | |l|d].
    1-7: cbn [is_dict negb orb py_get]; unfold bind, lift;
      intros e0 [= <-]; reflexivity.
    cbn [is_dict negb orb py_get]. unfold bind.
    unfold lift at 1 3 4 5.
    destruct (negb _); [apply Hlift|].
    destruct (negb (truthy _)); [apply Hlift|].
    destruct (is_JStr "initialize" _); [apply handle_initialize_plain|].
    destruct (is_JStr "tools/list" _); [apply Hlift|].
    destruct (is_JStr "resources/list" _); [apply Hlift|].
    destruct (is_JStr "prompts/list" _); [apply Hlift|].
    destruct (is_JStr "tools/call" _); [apply handle_tools_call_plain|].
    apply Hlift.
Qed.

(** [handle_mcp_request] always answers: the outer handler can construct its
    response for every exception that reaches it. *)
Lemma handle_mcp_request_returns request w :
  handle_mcp_request rt tools_registry request w
  = (Returned (match fst (dispatch rt tools_registry request w) with
               | Returned response => response
               | Raised e => internal_error (exn_str e)
               end),
     snd (dispatch rt tools_registry request w)).
Proof.
  pose proof (dispatch_plain request w) as Hplain.
  destruct (dispatch rt tools_registry request w) as [[r|e] w'] eqn:H;
    cbn [fst snd] in *.
  - now rewrite (handle_mcp_request_of_dispatch _ _ _ _ _ _ H).
  - apply handle_mcp_request_raised; auto.
Qed.

(** Every response of [handle_mcp_request] is one of the two envelopes, with
    the id of the request or, after an exception, with [null]. *)
Lemma handle_mcp_request_shape request w :
  exists r,
    fst (handle_mcp_request rt tools_registry request w) = Returned r
    /\ (envelope (request_id_of (request_body request)) r
        \/ exists message, r = internal_error message).
Proof.
  rewrite handle_mcp_request_returns. cbn [fst].
  eexists. split; [reflexivity|].
  destruct (dispatch rt tools_registry request w) as [[r|e] w'] eqn:H;
    cbn [fst].
  - left. eapply dispatch_shape, H.
  - right. eauto.
Qed.

End Envelopes.

Lemma create_mcp_response_result request_id result :
  create_mcp_response request_id result JNull
  = JObj [("jsonrpc", JStr "2.0"); ("id", request_id); ("result", result)].
Proof. reflexivity. Qed.

Lemma create_error_response_error request_id code message :
  create_error_response request_id code message JNull
  = JObj [("jsonrpc", JStr "2.0"); ("id", request_id);
          ("error", JObj [("code", JInt code); ("message", JStr message)])].
Proof. reflexivity. Qed.

(** X1.  Whatever the request and the state of the store,
    [handle_mcp_request] answers, and it answers a JSON-RPC 2.0 envelope
    with exactly one of [result] and [error]: an error carries one of the
    five reserved codes and is served with the status of that code (400 for
    -32700, -32600 and -32602, 404 for -32601, 500 for -32603) and without a
    session header; a result is served with status 200. *)
Theorem response_envelope_and_status
    (rt : PyRuntime) (tools_registry : Dict.t Callable)
    (request : Request) (w : World) :
  exists r,
    fst (handle_mcp_request rt tools_registry request w) = Returned r
    /\ jsonrpc_of r = Some (JStr "2.0")
    /\ match error_code r with
       | Some code =>
           In code error_codes
           /\ status_code r = status_of_code code
           /\ result_of r = None
           /\ headers r = []
       | None =>
           status_code r = 200 /\ exists result, result_of r = Some result
       end.
Proof.
  destruct (handle_mcp_request_shape rt tools_registry request w)
    as (r & Hr & Hshape).
  exists r. split; [exact Hr|].
  assert (H : exists request_id, envelope request_id r).
  { destruct Hshape as [H|[message H]]; [eauto|].
    exists JNull. rewrite H. unfold internal_error. auto with envelope. }
  destruct H as (request_id & [(code & message & -> & Hcode)
                              |(result & hs & ->)]).
  - unfold jsonrpc_of, error_code, result_of, json_response. cbn [content].
    rewrite create_error_response_error. cbn. auto.
  - unfold jsonrpc_of, error_code, result_of. cbn [content].
    rewrite create_mcp_response_result. cbn. eauto.
Qed.

(** X2.  The response to a request whose body is a JSON object carries the
    [id] of the request ([null] when it has none), except when an exception
    reached the outer handler: that response is the error -32603 with status
    500 and [id] null.  Every other body is answered with [id] null. *)
Theorem response_id_echo
    (rt : PyRuntime) (tools_registry : Dict.t Callable)
    (request : Request) (w : World) :
  exists r,
    fst (handle_mcp_request rt tools_registry request w) = Returned r
    /\ (id_of r = Some (request_id_of (request_body request))
        \/ (id_of r = Some JNull
            /\ error_code r = Some (-32603) /\ status_code r = 500)).
Proof.
  destruct (handle_mcp_request_shape rt tools_registry request w)
    as (r & Hr & [[(code & message & -> & _)|(result & hs & ->)]
                 |[message ->]]);
    eexists; (split; [exact Hr|]).
  - left. unfold id_of, json_response. cbn [content].
    now rewrite create_error_response_error.
  - left. unfold id_of. cbn [content]. now rewrite create_mcp_response_result.
  - right. repeat split.
Qed.

(** ** Routing *)

Section Routing.

Variable rt : PyRuntime.
Variable tools_registry : Dict.t Callable.

Lemma handle_unparsed request w :
  handle_mcp_request rt tools_registry request w
  = match request_body request with
    | EmptyBody =>
        (Returned
           (json_response
              (create_error_response JNull (-32700)
                 "Parse error: Empty request" JNull) 400),
         after_session_step rt request w)
    | NotJson detail =>
        (Returned
           (json_response
              (create_error_response JNull (-32700)
                 ("Parse error: " ++ text detail) JNull) 400),
         after_session_step rt request w)
    | NotUtf8 detail | LoadsRaised _ detail =>
        (Returned (internal_error (text detail)),
         after_session_step rt request w)
    | Json _ => handle_mcp_request rt tools_registry request w
    end.
Proof.
  destruct (request_body request) as [|detail|detail|c detail|v] eqn:Hbody;
    auto.
  - rewrite (handle_mcp_request_rendered rt tools_registry request w
               (create_error_response JNull (-32700)
                  "Parse error: Empty request" JNull) 400
               (after_session_step rt request w)).
    + now rewrite rendered_plain_error.
    + unfold dispatch. unfold bind at 1. now rewrite session_step, Hbody.
  - rewrite (handle_mcp_request_raised rt tools_registry request w
               (Exn (OtherException "UnicodeDecodeError" true) (text detail))
               (after_session_step rt request w)); [reflexivity| |].
    + unfold dispatch. unfold bind at 1. now rewrite session_step, Hbody.
    + apply text_encodable.
  - rewrite (handle_mcp_request_rendered rt tools_registry request w
               (create_error_response JNull (-32700)
                  ("Parse error: " ++ text detail) JNull) 400
               (after_session_step rt request w)).
    + rewrite rendered_plain_error; [reflexivity|].
      rewrite encodable_parse_error. apply text_encodable.
    + unfold dispatch. unfold bind at 1. now rewrite session_step, Hbody.
  - rewrite (handle_mcp_request_raised rt tools_registry request w
               (Exn c (text detail))
               (after_session_step rt request w)); [reflexivity| |].
    + unfold dispatch. unfold bind at 1. now rewrite session_step, Hbody.
    + apply text_encodable.
Qed.

(** A JSON-RPC 2.0 object with a method is routed by its method, in the
    world after the session step. *)
Lemma handle_routed request d w :
  request_body request = Json (JObj d) ->
  is_JStr "2.0" (Dict.get_default "jsonrpc" JNull d) = true ->
  truthy (Dict.get_default "method" JNull d) = true ->
  let sid := session_of rt request w in
  let request_id := Dict.get_default "id" JNull d in
  let method := Dict.get_default "method" JNull d in
  let params := Dict.get_default "params" (JObj []) d in
  dispatch rt tools_registry request w
  = (if is_JStr "initialize" method
     then handle_initialize rt sid request_id params
     else if is_list_method method
     then lift (JSONResponse rt
                  (create_mcp_response request_id
                     (list_result rt tools_registry method) JNull) 200)
     else if is_JStr "tools/call" method
     then handle_tools_call rt tools_registry sid request_id params
     else lift (JSONResponse rt
                  (create_error_response request_id (-32601)
                     ("Method not found: " ++ py_str rt method) JNull) 404))
      (after_session_step rt request w).
Proof.
  intros Hbody Hv Hm sid request_id method params.
  unfold dispatch. unfold bind at 1. rewrite session_step, Hbody.
  cbn [is_dict negb orb py_get]. rewrite Hv. cbn [negb].
  unfold bind at 1. unfold lift at 1. unfold bind at 1. unfold lift at 1.
  unfold bind at 1. unfold lift at 1.
  rewrite Hm. cbn [negb].
  subst sid request_id method params. unfold is_list_method, list_result.
  set (method := Dict.get_default "method" JNull d).
  destruct (is_JStr "initialize" method); [reflexivity|].
  destruct (is_JStr "tools/list" method); [reflexivity|].
  destruct (is_JStr "resources/list" method); [reflexivity|].
  destruct (is_JStr "prompts/list" method); reflexivity.
Qed.

End Routing.

(** X3.  A request whose body is empty or is not JSON is answered with
    -32700, status 400 and [id] null, the parser's detail in the message; a
    body that is not UTF-8, or at which [json.loads] raises an exception
    that is no [JSONDecodeError], escapes the parse handler and is answered
    with -32603 and status 500.  In all these cases a request without
    session header has nevertheless made the dispatcher create a session. *)
Theorem unparsed_body
    (rt : PyRuntime) (tools_registry : Dict.t Callable)
    (request : Request) (w : World) :
  request_body request = EmptyBody
  \/ (exists detail, request_body request = NotJson detail)
  \/ (exists detail, request_body request = NotUtf8 detail)
  \/ (exists c detail, request_body request = LoadsRaised c detail) ->
  exists r w',
    handle_mcp_request rt tools_registry request w = (Returned r, w')
    /\ (match request_body request with
        | NotUtf8 detail | LoadsRaised _ detail =>
            error_code r = Some (-32603) /\ status_code r = 500
            /\ error_message r = Some ("Internal error: " ++ text detail)
        | NotJson detail =>
            error_code r = Some (-32700) /\ status_code r = 400
            /\ error_message r = Some ("Parse error: " ++ text detail)
        | _ =>
            error_code r = Some (-32700) /\ status_code r = 400
            /\ error_message r = Some "Parse error: Empty request"
        end)
    /\ id_of r = Some JNull
    /\ (forall sid, given (header_mcp_session_id request) = Some sid ->
          w' = w)
    /\ (given (header_mcp_session_id request) = None ->
        w' = snd (create_session rt None w)
        /\ Dict.get (uuid4 rt (uuid_reads w)) (sessions w')
           = Some (length (heap w))).
Proof.
  intros Hbody. rewrite handle_unparsed.
  assert (Hstep :
    (forall sid, given (header_mcp_session_id request) = Some sid ->
                 after_session_step rt request w = w)
    /\ (given (header_mcp_session_id request) = None ->
        after_session_step rt request w = snd (create_session rt None w)
        /\ Dict.get (uuid4 rt (uuid_reads w))
             (sessions (after_session_step rt request w))
           = Some (length (heap w)))).
  { unfold after_session_step. split.
    - now intros sid ->.
    - intros ->. rewrite create_session_eq. split; [reflexivity|].
      apply DictFacts.get_set_eq. }
  destruct Hbody as [H|[[detail H]|[[detail H]|(c & detail & H)]]];
    rewrite H; eexists; eexists; (split; [reflexivity|]);
    (split; [repeat split|split; [reflexivity|exact Hstep]]).
Qed.

Lemma unparsed_body_witness :
  exists r,
    fst (handle_mcp_request Sample.rt Sample.tools_registry
           (Sample.request None EmptyBody) (new_manager 3600))
    = Returned r
    /\ error_code r = Some (-32700).
Proof.
  destruct (unparsed_body Sample.rt Sample.tools_registry
              (Sample.request None EmptyBody) (new_manager 3600)
              (or_introl eq_refl)) as (r & w' & H & [Hcode _] & _).
  exists r. split; [now rewrite H|exact Hcode].
Defined.

(** X4.  A JSON-RPC 2.0 request whose method is none of [initialize],
    [tools/list], [resources/list], [prompts/list] and [tools/call] is
    answered with -32601 and status 404, the method named in the message and
    the [id] of the request echoed, when that id and that method can be
    rendered as JSON; when they cannot, the construction of this answer
    raises and the request is answered with the internal error -32603,
    status 500 and [id] null.  In both cases the store is left as the
    session step left it. *)
Theorem unknown_method
    (rt : PyRuntime) (tools_registry : Dict.t Callable)
    (request : Request) (d : Dict.t json) (w : World) :
  request_body request = Json (JObj d) ->
  is_JStr "2.0" (Dict.get_default "jsonrpc" JNull d) = true ->
  truthy (Dict.get_default "method" JNull d) = true ->
  is_known_method (Dict.get_default "method" JNull d) = false ->
  let request_id := Dict.get_default "id" JNull d in
  let method := py_str rt (Dict.get_default "method" JNull d) in
  let answer :=
    create_error_response request_id (-32601)
      ("Method not found: " ++ method) JNull in
  handle_mcp_request rt tools_registry request w
  = (Returned
       (if renderable_member rt request_id && encodable method
        then json_response answer 404
        else internal_error (text (render_error_str rt answer))),
     after_session_step rt request w).
Proof.
  intros Hbody Hv Hm Hknown request_id method answer.
  rewrite (handle_mcp_request_rendered rt tools_registry request w
             answer 404 (after_session_step rt request w)).
  - unfold rendered_or_internal_error. subst answer.
    now rewrite renderable_error_response, encodable_method_not_found.
  - rewrite (handle_routed rt tools_registry request d w Hbody Hv Hm).
    unfold is_known_method, known_methods in Hknown. cbn [existsb] in Hknown.
    unfold is_list_method.
    repeat (apply orb_false_iff in Hknown as [? Hknown]).
    repeat match goal with
           | H : is_JStr _ _ = false |- _ => rewrite H; clear H
           end.
    reflexivity.
Qed.

Lemma unknown_method_witness :
  fst (handle_mcp_request Sample.rt Sample.tools_registry
         (Sample.request (Some "s1") (rpc (JInt 3) "ping" (JObj [])))
         (new_manager 3600))
  = Returned
      (json_response
         (create_error_response (JInt 3) (-32601) "Method not found: ping"
            JNull) 404).
Proof.
  rewrite (unknown_method Sample.rt Sample.tools_registry
             (Sample.request (Some "s1") (rpc (JInt 3) "ping" (JObj [])))
             [("jsonrpc", JStr "2.0"); ("id", JInt 3);
              ("method", JStr "ping"); ("params", JObj [])]
             (new_manager 3600) eq_refl eq_refl eq_refl eq_refl).
  reflexivity.
Defined.

(** ** tools/call *)

Lemma handle_tools_call_pure rt tools_registry sid request_id params :
  exists o, forall w,
    handle_tools_call rt tools_registry sid request_id params w = (o, w).
Proof.
  unfold handle_tools_call, bind, lift, ret.
  destruct (py_get params "name" JNull) as [name|]; [|eauto].
  destruct (py_get params "arguments" (JObj [])) as [arguments|]; [|eauto].
  destruct (negb (truthy name)); [eauto|].
  destruct (and_then _ _) as [response|e]; [eauto|].
  destruct (isinstance_ValueError (exn_class e)); eauto.
Qed.

(** X5.  A [tools/call] request that carries a session header neither reads
    nor writes the session store: the world after the dispatch is the world
    before, and the response is the same in every state of the store, so the
    header's value reaches the tool as session id whether or not the store
    holds such a session. *)
Theorem tools_call_ignores_store
    (rt : PyRuntime) (tools_registry : Dict.t Callable)
    (request : Request) (sid : string) (d : Dict.t json) :
  given (header_mcp_session_id request) = Some sid ->
  request_body request = Json (JObj d) ->
  is_JStr "2.0" (Dict.get_default "jsonrpc" JNull d) = true ->
  Dict.get_default "method" JNull d = JStr "tools/call" ->
  forall w,
    snd (handle_mcp_request rt tools_registry request w) = w
    /\ fst (handle_mcp_request rt tools_registry request w)
       = fst (handle_mcp_request rt tools_registry request (new_manager 3600)).
Proof.
  intros Hsid Hbody Hv Hm.
  assert (Hrouted : forall w,
    dispatch rt tools_registry request w
    = handle_tools_call rt tools_registry sid
        (Dict.get_default "id" JNull d)
        (Dict.get_default "params" (JObj []) d) w).
  { intros w.
    rewrite (handle_routed rt tools_registry request d w Hbody Hv)
      by now rewrite Hm.
    rewrite Hm. unfold session_of, after_session_step. now rewrite Hsid. }
  destruct (handle_tools_call_pure rt tools_registry sid
              (Dict.get_default "id" JNull d)
              (Dict.get_default "params" (JObj []) d)) as [o Ho].
  intros w. unfold handle_mcp_request. rewrite !Hrouted, !Ho.
  destruct o; auto.
Qed.

Lemma tools_call_ignores_store_witness :
  snd (handle_mcp_request Sample.rt Sample.tools_registry
         (Sample.request (Some "unknown-session")
            (Sample.call "search" (JObj [("query", JStr "q")])))
         (new_manager 3600))
  = new_manager 3600.
Proof.
  exact (proj1 (tools_call_ignores_store Sample.rt Sample.tools_registry
                  (Sample.request (Some "unknown-session")
                     (Sample.call "search" (JObj [("query", JStr "q")])))
                  "unknown-session"
                  [("jsonrpc", JStr "2.0"); ("id", JInt 1);
                   ("method", JStr "tools/call");
                   ("params", JObj [("name", JStr "search");
                                    ("arguments",
                                     JObj [("query", JStr "q")])])]
                  eq_refl eq_refl eq_refl eq_refl (new_manager 3600))).
Defined.

(** The exception of the rendering of the result of a tool: the first one
    that the id of the request makes [json.dumps] raise or, if there is
    none, the one of the encoding. *)
Lemma render_error_text rt request_id result :
  let success :=
    create_mcp_response request_id
      (JObj [("content",
              JArr [JObj [("type", JStr "text");
                          ("text", JStr result)]])]) JNull in
  render_error rt success
  = match dumps_failure (pred (encode_depth rt)) request_id with
    | Some OutOfRange =>
        Some (Exn ValueError (text (render_error_str rt success)))
    | Some TooDeep =>
        Some (Exn (OtherException "RecursionError" false)
                (text (render_error_str rt success)))
    | None =>
        if strings_encodable request_id && encodable result then None
        else Some (Exn (OtherException "UnicodeEncodeError" true)
                     (text (render_error_str rt success)))
    end.
Proof.
  intros success. subst success. unfold render_error.
  destruct (encode_depth_S rt) as [n ->]. cbn.
  destruct (dumps_failure (S (S (S n))) request_id) as [[|]|];
    try reflexivity.
  now rewrite !andb_true_r.
Qed.

(** X6.  The outcomes of [tools/call] for a params object.  Without a
    (truthy) [name] the answer is -32602 with status 400; a name that is a
    string but not in the registry is answered with -32601, status 404 and
    the name in the message; each of the two is replaced by the internal
    error -32603 of the outer handler, with [id] null, when it cannot be
    rendered as JSON.  When the tool returns and the id of the request can
    be rendered, the answer is the result with one text block that holds the
    returned value as a string, unless that string has a lone surrogate:
    then the exception of the rendering is caught by [except ValueError]
    like one of the tool, and the answer is -32601 with "Method not found"
    and the message of the renderer.  When the id of the request cannot be
    rendered, the error envelope that the inner handler builds for the
    exception of the rendering (-32603 for a [RecursionError], -32601
    otherwise) cannot be rendered either, and the answer is the internal
    error of the outer handler. *)
Theorem tools_call_outcomes
    (rt : PyRuntime) (tools_registry : Dict.t Callable)
    (request : Request) (d p : Dict.t json) (w : World) :
  request_body request = Json (JObj d) ->
  is_JStr "2.0" (Dict.get_default "jsonrpc" JNull d) = true ->
  Dict.get_default "method" JNull d = JStr "tools/call" ->
  Dict.get_default "params" (JObj []) d = JObj p ->
  let request_id := Dict.get_default "id" JNull d in
  let name := Dict.get_default "name" JNull p in
  let arguments := Dict.get_default "arguments" (JObj []) p in
  let r := fst (handle_mcp_request rt tools_registry request w) in
  (truthy name = false ->
   r = Returned
         (rendered_or_internal_error rt
            (create_error_response request_id (-32602)
               "Invalid params: Missing tool name" JNull) 400))
  /\ (forall n, name = JStr n -> n <> "" ->
        Dict.get n tools_registry = None ->
        r = Returned
              (rendered_or_internal_error rt
                 (create_error_response request_id (-32601)
                    ("Method not found: Tool '" ++ n ++ "' not found") JNull)
                 404))
  /\ (forall result,
        truthy name = true ->
        call_tool rt tools_registry name arguments
          (Some (session_of rt request w)) = Returned result ->
        let success :=
          create_mcp_response request_id
            (JObj [("content",
                    JArr [JObj [("type", JStr "text");
                                ("text", JStr result)]])]) JNull in
        let message := text (render_error_str rt success) in
        let not_found :=
          create_error_response request_id (-32601)
            ("Method not found: " ++ message) JNull in
        let internal :=
          create_error_response request_id (-32603)
            ("Internal error: " ++ message) JNull in
        r = Returned
              (if renderable_member rt request_id
               then if encodable result
                    then json_response success 200
                    else json_response not_found 404
               else internal_error
                      (text (render_error_str rt
                               match dumps_failure (pred (encode_depth rt))
                                       request_id with
                               | Some TooDeep => internal
                               | _ => not_found
                               end)))).
Proof.
  intros Hbody Hv Hm Hp request_id name arguments r.
  assert (Hd : dispatch rt tools_registry request w
               = handle_tools_call rt tools_registry
                   (session_of rt request w) request_id (JObj p)
                   (after_session_step rt request w)).
  { rewrite (handle_routed rt tools_registry request d w Hbody Hv)
      by now rewrite Hm.
    now rewrite Hm, Hp. }
  unfold handle_tools_call, bind, ret in Hd. unfold lift at 1 2 in Hd.
  cbn [py_get] in Hd. fold name arguments in Hd.
  split; [|split].
  - intros Hname. rewrite Hname in Hd. cbn [negb] in Hd. subst r.
    now rewrite (handle_mcp_request_rendered _ _ _ _ _ _ _ Hd).
  - intros n Hn Hne Hreg. rewrite Hn in Hd. cbn [truthy negb] in Hd.
    apply String.eqb_neq in Hne. rewrite Hne in Hd. cbn [negb] in Hd.
    unfold call_tool in Hd. rewrite Hreg in Hd.
    cbn [and_then isinstance_ValueError exn_class py_str exn_str] in Hd.
    subst r. now rewrite (handle_mcp_request_rendered _ _ _ _ _ _ _ Hd).
  - intros result Hname Hcall success message not_found internal.
    rewrite Hname, Hcall in Hd.
    cbn [negb and_then] in Hd. fold success in Hd. subst r.
    unfold JSONResponse at 1 in Hd.
    pose proof (render_error_text rt request_id result) as Herr.
    cbn zeta in Herr. fold success message in Herr. rewrite Herr in Hd.
    assert (Hmember : renderable_member rt request_id
                      = match dumps_failure (pred (encode_depth rt))
                                request_id with
                        | None => strings_encodable request_id
                        | Some _ => false
                        end) by reflexivity.
    rewrite Hmember.
    assert (Hfail : renderable_member rt request_id = false ->
                    forall code prefix status,
                      rendered_or_internal_error rt
                        (create_error_response request_id code
                           (prefix ++ message) JNull) status
                      = internal_error
                          (text (render_error_str rt
                                   (create_error_response request_id code
                                      (prefix ++ message) JNull)))).
    { intros H code prefix status. unfold rendered_or_internal_error.
      now rewrite renderable_error_response, H. }
    rewrite Hmember in Hfail.
    destruct (dumps_failure (pred (encode_depth rt)) request_id)
      as [[|]|] eqn:Hdf;
      cbn [exn_class exn_str isinstance_ValueError] in Hd.
    + rewrite (handle_mcp_request_rendered _ _ _ _ _ _ _ Hd).
      cbn [fst]. now rewrite Hfail.
    + rewrite (handle_mcp_request_rendered _ _ _ _ _ _ _ Hd).
      cbn [fst]. now rewrite Hfail.
    + destruct (strings_encodable request_id) eqn:Hid;
        [destruct (encodable result) eqn:Hres|];
        cbn [andb exn_class exn_str isinstance_ValueError] in Hd.
      * now rewrite (handle_mcp_request_of_dispatch _ _ _ _ _ _ Hd).
      * rewrite (handle_mcp_request_rendered _ _ _ _ _ _ _ Hd).
        cbn [fst]. unfold rendered_or_internal_error.
        rewrite renderable_error_response, Hmember.
        rewrite encodable_method_not_found.
        unfold message at 1. now rewrite text_encodable.
      * rewrite (handle_mcp_request_rendered _ _ _ _ _ _ _ Hd).
        cbn [fst]. now rewrite Hfail.
Qed.

Lemma tools_call_outcomes_witness :
  fst (handle_mcp_request Sample.rt Sample.tools_registry
         (Sample.request (Some "s1") (Sample.call "missing_tool" (JObj [])))
         (new_manager 3600))
  = Returned
      (json_response
         (create_error_response (JInt 1) (-32601)
            "Method not found: Tool 'missing_tool' not found" JNull) 404).
Proof.
  refine (proj1 (proj2
    (tools_call_outcomes Sample.rt Sample.tools_registry
       (Sample.request (Some "s1") (Sample.call "missing_tool" (JObj [])))
       [("jsonrpc", JStr "2.0"); ("id", JInt 1);
        ("method", JStr "tools/call");
        ("params", JObj [("name", JStr "missing_tool");
                         ("arguments", JObj [])])]
       [("name", JStr "missing_tool"); ("arguments", JObj [])]
       (new_manager 3600) eq_refl eq_refl eq_refl eq_refl))
    "missing_tool" eq_refl _ eq_refl).
  discriminate.
Defined.

(** ** initialize *)

Lemma well_formed_created rt sid w :
  well_formed w -> well_formed (created rt sid w).
Proof.
  intros Hwf k r Hget. unfold created in *. cbn [heap sessions] in *.
  rewrite length_app. cbn [length].
  apply dict_get_set_Some in Hget as [[_ ->]|[_ Hget]]; [lia|].
  specialize (Hwf k r Hget). lia.
Qed.

Lemma well_formed_after_session_step rt request w :
  well_formed w -> well_formed (after_session_step rt request w).
Proof.
  intros Hwf. unfold after_session_step.
  destruct (given (header_mcp_session_id request)); auto.
  now apply well_formed_created.
Qed.

(** What the [initialize] branch does when the lookup of
    [initialize_session] finds the session alive. *)
Lemma handle_initialize_live rt sid request_id p w :
  String.eqb sid "" = false ->
  well_formed w ->
  live rt (snd (get_or_create_session rt (Some sid) w)) sid = true ->
  let ci := Dict.get_default "clientInfo" (JObj []) p in
  let caps := Dict.get_default "capabilities" (JObj []) p in
  exists r s w',
    handle_initialize rt sid request_id (JObj p) w
    = (match py_get ci "name" (JStr "unknown") with
       | Returned _ =>
           and_then
             (JSONResponse rt
                (create_mcp_response request_id initialize_result JNull) 200)
             (fun response =>
                Returned
                  {| content := content response;
                     status_code := status_code response;
                     headers :=
                       Dict.set "mcp-session-id" sid (headers response) |})
       | Raised e => Raised e
       end, w')
    /\ Dict.get sid (sessions w') = Some r
    /\ heap w' !! r = Some s
    /\ initialized s = true
    /\ client_info s = ci
    /\ capabilities s = caps.
Proof.
  intros Hsid Hwf Hlive ci caps.
  destruct (get_or_create_session_refreshed rt (Some sid) w Hwf)
    as (r & w1 & s1 & Hcall & Hs1 & _ & _ & Hbound & _).
  rewrite Hcall in Hlive. cbn [snd] in Hlive.
  specialize (Hbound sid (given_Some _ Hsid)).
  exists r. eexists. exists (initialized_world rt r ci caps w1).
  split; [|split; [exact Hbound|split;
    [apply (initialized_world_object rt r ci caps w1 s1 Hs1)|]]].
  - unfold handle_initialize, bind, lift. rewrite Hcall. cbn [py_get].
    fold ci caps. rewrite initialize_session_eq, Hbound.
    unfold live in Hlive. rewrite Hbound in Hlive.
    apply negb_true_iff in Hlive. rewrite Hlive.
    destruct (py_get ci "name" (JStr "unknown")); [|reflexivity].
    now destruct (JSONResponse rt _ 200).
  - repeat split.
Qed.

(** The answer to [initialize] once the session has been dealt with. *)
Lemma initialize_answer rt request_id sid :
  match and_then
          (JSONResponse rt
             (create_mcp_response request_id initialize_result JNull) 200)
          (fun response =>
             Returned
               {| content := content response;
                  status_code := status_code response;
                  headers :=
                    Dict.set "mcp-session-id" sid (headers response) |}) with
  | Returned response => Returned response
  | Raised e =>
      JSONResponse rt
        (create_error_response JNull (-32603)
           ("Internal error: " ++ exn_str e) JNull) 500
  end
  = Returned
      (if renderable_member rt request_id
       then {| content :=
                 create_mcp_response request_id initialize_result JNull;
               status_code := 200;
               headers := [("mcp-session-id", sid)] |}
       else internal_error
              (text (render_error_str rt
                       (create_mcp_response request_id initialize_result
                          JNull)))).
Proof.
  assert (Hrender :
    renderable rt (create_mcp_response request_id initialize_result JNull)
    = renderable_member rt request_id).
  { rewrite renderable_success_response, renderable_member_initialize_result.
    apply andb_true_r. }
  rewrite <- Hrender.
  destruct (renderable rt
              (create_mcp_response request_id initialize_result JNull))
    eqn:Hid.
  - now rewrite JSONResponse_renderable.
  - destruct (JSONResponse_not_renderable rt _ 200 Hid) as (c & -> & _).
    cbn [and_then exn_str]. apply internal_error_rendered, text_encodable.
Qed.

(** X7.  An [initialize] request whose [clientInfo] is an object (or absent)
    is answered with the fixed result, and the response carries the header
    [mcp-session-id] with the session id the dispatcher worked with: the
    request's header or, without one, the id it generated.  When the id of
    the request cannot be rendered as JSON, the answer is the internal error
    -32603 of the outer handler instead, without that header.  In both
    cases, when the session did not expire between its creation or refresh
    and the lookup of [initialize_session], the session stored under that id
    is afterwards initialized and holds the client's [clientInfo] and
    [capabilities]. *)
Theorem initialize_request
    (rt : PyRuntime) (tools_registry : Dict.t Callable)
    (request : Request) (d p : Dict.t json) (w : World) :
  request_body request = Json (JObj d) ->
  is_JStr "2.0" (Dict.get_default "jsonrpc" JNull d) = true ->
  Dict.get_default "method" JNull d = JStr "initialize" ->
  Dict.get_default "params" (JObj []) d = JObj p ->
  is_dict (Dict.get_default "clientInfo" (JObj []) p) = true ->
  String.eqb (session_of rt request w) "" = false ->
  well_formed w ->
  let sid := session_of rt request w in
  let request_id := Dict.get_default "id" JNull d in
  let '(r, w') := handle_mcp_request rt tools_registry request w in
  r = Returned
        (if renderable_member rt request_id
         then {| content :=
                   create_mcp_response request_id initialize_result JNull;
                 status_code := 200;
                 headers := [("mcp-session-id", sid)] |}
         else internal_error
                (text (render_error_str rt
                         (create_mcp_response request_id initialize_result
                            JNull))))
  /\ (live rt (snd (get_or_create_session rt (Some sid)
                      (after_session_step rt request w))) sid = true ->
      exists ref s,
        Dict.get sid (sessions w') = Some ref
        /\ heap w' !! ref = Some s
        /\ initialized s = true
        /\ client_info s = Dict.get_default "clientInfo" (JObj []) p
        /\ capabilities s = Dict.get_default "capabilities" (JObj []) p).
Proof.
  intros Hbody Hv Hm Hp Hci Hsid Hwf sid request_id.
  assert (Hd : dispatch rt tools_registry request w
               = handle_initialize rt sid request_id (JObj p)
                   (after_session_step rt request w)).
  { rewrite (handle_routed rt tools_registry request d w Hbody Hv)
      by now rewrite Hm.
    now rewrite Hm, Hp. }
  destruct (live rt (snd (get_or_create_session rt (Some sid)
                            (after_session_step rt request w))) sid)
    eqn:Hlive.
  - destruct (handle_initialize_live rt sid request_id p
                (after_session_step rt request w) Hsid
                (well_formed_after_session_step rt request w Hwf) Hlive)
      as (ref & s & w' & Hcall & Hget & Hs & Hi & Hc & Hcaps).
    rewrite Hcall in Hd.
    destruct (Dict.get_default "clientInfo" (JObj []) p); try discriminate.
    cbn [py_get] in Hd.
    rewrite (handle_mcp_request_of_dispatch _ _ _ _ _ _ Hd).
    rewrite initialize_answer. split; [reflexivity|]. intros _. eauto 10.
  - unfold handle_initialize, bind, lift in Hd. cbn [py_get] in Hd.
    destruct (get_or_create_session_returns rt (Some sid)
                (after_session_step rt request w)) as (r1 & w1 & Hcall).
    rewrite Hcall in *. cbn [snd] in Hlive.
    rewrite (initialize_session_live _ _ _ _ _ Hci), Hlive in Hd.
    assert (Hd' : exists w2,
      dispatch rt tools_registry request w
      = (and_then
           (JSONResponse rt
              (create_mcp_response request_id initialize_result JNull) 200)
           (fun response =>
              Returned
                {| content := content response;
                   status_code := status_code response;
                   headers :=
                     Dict.set "mcp-session-id" sid (headers response) |}),
         w2)).
    { rewrite Hd. destruct (JSONResponse rt _ 200); eauto. }
    destruct Hd' as [w2 Hd'].
    rewrite (handle_mcp_request_of_dispatch _ _ _ _ _ _ Hd').
    rewrite initialize_answer. split; [reflexivity|discriminate].
Qed.

Lemma initialize_request_witness :
  exists r,
    fst (handle_mcp_request Sample.rt Sample.tools_registry
           (Sample.request None
              (rpc (JInt 1) "initialize"
                 (JObj [("clientInfo", JObj [("name", JStr "x")])])))
           (new_manager 3600))
    = Returned r
    /\ headers r = [("mcp-session-id", "generated-0")].
Proof.
  pose proof
    (initialize_request Sample.rt Sample.tools_registry
       (Sample.request None
          (rpc (JInt 1) "initialize"
             (JObj [("clientInfo", JObj [("name", JStr "x")])])))
       [("jsonrpc", JStr "2.0"); ("id", JInt 1);
        ("method", JStr "initialize");
        ("params", JObj [("clientInfo", JObj [("name", JStr "x")])])]
       [("clientInfo", JObj [("name", JStr "x")])]
       (new_manager 3600) eq_refl eq_refl eq_refl eq_refl eq_refl eq_refl)
    as H.
  destruct (handle_mcp_request Sample.rt Sample.tools_registry _ _) as [r w'].
  destruct H as [-> _].
  - intros k r0 Hget. cbn in Hget. discriminate.
  - eexists. split; reflexivity.
Defined.

(** X8.  An [initialize] request whose [clientInfo] is not an object is
    answered with -32603, status 500 and [id] null when the session is
    alive, and yet the session stored under the id is afterwards marked
    initialized and holds that [clientInfo]: [initialize_session] raises in
    its log line, after its assignments. *)
Theorem initialize_bad_client_info
    (rt : PyRuntime) (tools_registry : Dict.t Callable)
    (request : Request) (d p : Dict.t json) (w : World) :
  request_body request = Json (JObj d) ->
  is_JStr "2.0" (Dict.get_default "jsonrpc" JNull d) = true ->
  Dict.get_default "method" JNull d = JStr "initialize" ->
  Dict.get_default "params" (JObj []) d = JObj p ->
  is_dict (Dict.get_default "clientInfo" (JObj []) p) = false ->
  String.eqb (session_of rt request w) "" = false ->
  well_formed w ->
  let sid := session_of rt request w in
  let ci := Dict.get_default "clientInfo" (JObj []) p in
  live rt (snd (get_or_create_session rt (Some sid)
                  (after_session_step rt request w))) sid = true ->
  let '(r, w') := handle_mcp_request rt tools_registry request w in
  r = Returned
        (json_response
           (create_error_response JNull (-32603)
              ("Internal error: '" ++ py_type_name ci
               ++ "' object has no attribute 'get'") JNull) 500)
  /\ exists ref s,
       Dict.get sid (sessions w') = Some ref
       /\ heap w' !! ref = Some s
       /\ initialized s = true
       /\ client_info s = ci.
Proof.
  intros Hbody Hv Hm Hp Hci Hsid Hwf sid ci Hlive.
  assert (Hd : dispatch rt tools_registry request w
               = handle_initialize rt sid (Dict.get_default "id" JNull d)
                   (JObj p) (after_session_step rt request w)).
  { rewrite (handle_routed rt tools_registry request d w Hbody Hv)
      by now rewrite Hm.
    now rewrite Hm, Hp. }
  destruct (handle_initialize_live rt sid (Dict.get_default "id" JNull d) p
              (after_session_step rt request w) Hsid
              (well_formed_after_session_step rt request w Hwf) Hlive)
    as (ref & s & w' & Hcall & Hget & Hs & Hi & Hc & Hcaps).
  rewrite Hcall in Hd. fold ci in Hci, Hd.
  assert (Hraise : py_get ci "name" (JStr "unknown")
                   = Raised (Exn AttributeError
                               ("'" ++ py_type_name ci
                                ++ "' object has no attribute 'get'"))).
  { destruct ci; try reflexivity; discriminate. }
  rewrite Hraise in Hd.
  rewrite (handle_mcp_request_raised _ _ _ _ _ _ Hd).
  - split; [reflexivity|]. eauto 10.
  - cbn [exn_str]. now destruct ci.
Qed.

Lemma initialize_bad_client_info_witness :
  exists r,
    fst (handle_mcp_request Sample.rt Sample.tools_registry
           (Sample.request (Some "s1")
              (rpc (JInt 1) "initialize"
                 (JObj [("clientInfo", JStr "x")])))
           (new_manager 3600))
    = Returned r
    /\ error_code r = Some (-32603).
Proof.
  pose proof
    (initialize_bad_client_info Sample.rt Sample.tools_registry
       (Sample.request (Some "s1")
          (rpc (JInt 1) "initialize" (JObj [("clientInfo", JStr "x")])))
       [("jsonrpc", JStr "2.0"); ("id", JInt 1);
        ("method", JStr "initialize");
        ("params", JObj [("clientInfo", JStr "x")])]
       [("clientInfo", JStr "x")]
       (new_manager 3600) eq_refl eq_refl eq_refl eq_refl eq_refl eq_refl)
    as H.
  destruct (handle_mcp_request Sample.rt Sample.tools_registry _ _) as [r w'].
  destruct H as [-> _].
  - intros k r0 Hget. cbn in Hget. discriminate.
  - reflexivity.
  - eexists. split; reflexivity.
Defined.

(** ** The sweep of the session store *)

Lemma expired_sessions_eq rt items : forall w,
  expired_sessions rt items w
  = (Returned (expired_keys rt (heap w) (session_timeout w) (clock_reads w)
                 items),
     {| heap := heap w; sessions := sessions w;
        session_timeout := session_timeout w;
        clock_reads := clock_reads w + length items;
        uuid_reads := uuid_reads w |}).
Proof.
  induction items as [|[sid r] items IH]; intros w;
    cbn [expired_sessions expired_keys length].
  - unfold ret. rewrite Nat.add_0_r. now destruct w.
  - unfold bind at 1. unfold is_expired, bind, time_now, deref, ret.
    cbn [heap session_timeout clock_reads sessions uuid_reads].
    rewrite IH. cbn [heap session_timeout clock_reads sessions uuid_reads].
    unfold expired_at. rewrite <- Nat.add_succ_comm.
    destruct (time_time rt (clock_reads w) - last_accessed (heap w !!! r)
              >? session_timeout w); reflexivity.
Qed.

Lemma delete_sessions_eq sids : forall w,
  delete_sessions sids w
  = (Returned tt,
     with_sessions (fold_left (fun d sid => Dict.del sid d) sids (sessions w))
       w).
Proof.
  induction sids as [|sid sids IH]; intros w; cbn [delete_sessions fold_left].
  - unfold ret, with_sessions. now destruct w.
  - unfold bind. rewrite IH. reflexivity.
Qed.

Lemma cleanup_expired_sessions_eq rt w :
  cleanup_expired_sessions rt w = (Returned tt, swept rt w).
Proof.
  unfold cleanup_expired_sessions, bind. rewrite expired_sessions_eq.
  rewrite delete_sessions_eq. reflexivity.
Qed.

Lemma get_fold_del {V} (sids : list string) : forall (d : Dict.t V) k,
  Dict.get k (fold_left (fun d sid => Dict.del sid d) sids d)
  = if name_in k sids then None else Dict.get k d.
Proof.
  induction sids as [|sid sids IH]; intros d k; cbn [fold_left]; auto.
  rewrite IH. unfold name_in. cbn [existsb].
  fold (name_in k sids). destruct (name_in k sids); [now rewrite orb_true_r|].
  rewrite orb_false_r. destruct (String.eqb_spec k sid) as [->|Hne].
  - apply DictFacts.get_del_eq.
  - apply DictFacts.get_del_ne. congruence.
Qed.

Lemma name_in_true k l : name_in k l = true <-> In k l.
Proof.
  unfold name_in. rewrite existsb_exists. split.
  - intros (x & Hx & Heq). apply String.eqb_eq in Heq. now subst.
  - intros H. exists k. split; [assumption|apply String.eqb_refl].
Qed.

Lemma expired_keys_in rt h timeout items : forall n k,
  In k (expired_keys rt h timeout n items)
  <-> exists i r, items !! i = Some (k, r)
                  /\ expired_at (time_time rt (n + i)) timeout (h !!! r)
                     = true.
Proof.
  induction items as [|[sid r] items IH]; intros n k; cbn [expired_keys].
  - split; [intros []|]. intros ([|i] & r & H & _); discriminate.
  - assert (Htail :
      In k (expired_keys rt h timeout (S n) items)
      <-> exists i r', ((sid, r) :: items) !! S i = Some (k, r')
                       /\ expired_at (time_time rt (n + S i)) timeout
                            (h !!! r') = true).
    { rewrite IH. split; intros (i & r' & H1 & H2); exists i, r';
        cbn [lookup list_lookup] in *;
        rewrite ?Nat.add_succ_r in *; cbn [Nat.add] in *; auto. }
    destruct (expired_at (time_time rt n) timeout (h !!! r)) eqn:Hexp.
    + cbn [In]. rewrite Htail. split.
      * intros [<-|(i & r' & H1 & H2)].
        -- exists 0%nat, r. rewrite Nat.add_0_r. auto.
        -- exists (S i), r'. auto.
      * intros ([|i] & r' & H1 & H2).
        -- left. cbn in H1. congruence.
        -- right. eauto.
    + rewrite Htail. split.
      * intros (i & r' & H1 & H2). exists (S i), r'. auto.
      * intros ([|i] & r' & H1 & H2).
        -- cbn in H1. injection H1 as <- <-.
           rewrite Nat.add_0_r in H2. congruence.
        -- eauto.
Qed.

Lemma dict_get_lookup {V} (d : Dict.t V) k v :
  Dict.get k d = Some v -> exists i, d !! i = Some (k, v).
Proof.
  induction d as [|[k' v'] d IH]; cbn [Dict.get]; [discriminate|].
  destruct (String.eqb_spec k k') as [->|Hne].
  - intros [= ->]. now exists 0%nat.
  - intros H. destruct (IH H) as [i Hi]. now exists (S i).
Qed.

Lemma dict_lookup_get {V} (d : Dict.t V) i k v :
  List.NoDup (Dict.keys d) -> d !! i = Some (k, v) -> Dict.get k d = Some v.
Proof.
  revert i. induction d as [|[k' v'] d IH]; intros i Hnd Hi.
  - destruct i; discriminate.
  - cbn [Dict.keys map fst] in Hnd.
    apply List.NoDup_cons_iff in Hnd as [Hfresh Hnd]. cbn [Dict.get].
    destruct i as [|i]; cbn in Hi.
    + injection Hi as -> ->. now rewrite String.eqb_refl.
    + destruct (String.eqb_spec k k') as [->|Hne].
      * exfalso. apply Hfresh. apply (DictFacts.get_Some_keys _ v).
        eapply IH; eauto.
      * eapply IH; eauto.
Qed.

(** X9.  [cleanup_expired_sessions] reads the clock once per stored session
    and touches no session object.  With a clock that does not run
    backwards: it adds no session and rebinds none; a session that is idle
    beyond the timeout at the first reading of the sweep is removed; a
    session that is idle within the timeout at the reading after the sweep
    stays; and when every stored session is idle beyond the timeout at the
    first reading, the store is empty afterwards. *)
Theorem cleanup_expired_sessions_sweeps (rt : PyRuntime) (w : World) :
  monotone_clock rt ->
  List.NoDup (Dict.keys (sessions w)) ->
  let w' := snd (cleanup_expired_sessions rt w) in
  heap w' = heap w
  /\ clock_reads w' = (clock_reads w + length (sessions w))%nat
  /\ (forall sid r, Dict.get sid (sessions w') = Some r ->
        Dict.get sid (sessions w) = Some r)
  /\ (forall sid r, Dict.get sid (sessions w) = Some r ->
        idle_time rt w (heap w !!! r) > session_timeout w ->
        Dict.get sid (sessions w') = None)
  /\ (forall sid r, Dict.get sid (sessions w) = Some r ->
        idle_time rt w' (heap w !!! r) <= session_timeout w ->
        Dict.get sid (sessions w') = Some r)
  /\ ((forall sid r, Dict.get sid (sessions w) = Some r ->
         idle_time rt w (heap w !!! r) > session_timeout w) ->
      fst (get_session_count w') = Returned 0%nat).
Proof.
  intros Hclock Hnd w'. subst w'. rewrite cleanup_expired_sessions_eq.
  cbn [snd]. unfold swept, idle_time.
  cbn [heap sessions clock_reads session_timeout].
  set (keys := expired_keys rt (heap w) (session_timeout w) (clock_reads w)
                 (sessions w)).
  assert (Hremoved : forall sid r, Dict.get sid (sessions w) = Some r ->
    time_time rt (clock_reads w) - last_accessed (heap w !!! r)
    > session_timeout w -> name_in sid keys = true).
  { intros sid r Hget Hidle. apply name_in_true, expired_keys_in.
    destruct (dict_get_lookup _ _ _ Hget) as [i Hi]. exists i, r.
    split; [assumption|]. unfold expired_at. apply Z.gtb_gt.
    pose proof (Hclock (clock_reads w) (clock_reads w + i)%nat ltac:(lia)).
    lia. }
  split; [reflexivity|]. split; [reflexivity|]. split; [|split; [|split]].
  - intros sid r. rewrite get_fold_del.
    destruct (name_in sid keys); [discriminate|auto].
  - intros sid r Hget Hidle. rewrite get_fold_del.
    now rewrite (Hremoved sid r Hget Hidle).
  - intros sid r Hget Hidle. rewrite get_fold_del.
    destruct (name_in sid keys) eqn:Hin; [|assumption].
    apply name_in_true, expired_keys_in in Hin as (i & r' & Hi & Hexp).
    pose proof (dict_lookup_get _ _ _ _ Hnd Hi) as Hget'.
    assert (r' = r) as -> by congruence.
    unfold expired_at in Hexp. apply Z.gtb_gt in Hexp.
    assert (Hlt : (i < length (sessions w))%nat)
      by (eapply lookup_lt_Some; eauto).
    pose proof (Hclock (clock_reads w + i)%nat
                  (clock_reads w + length (sessions w))%nat ltac:(lia)).
    lia.
  - intros Hall. unfold get_session_count. cbn [fst sessions]. f_equal.
    destruct (fold_left _ keys (sessions w)) as [|[k v] rest] eqn:Hfold;
      [reflexivity|].
    exfalso.
    assert (Hk : Dict.get k (fold_left (fun d sid => Dict.del sid d) keys
                               (sessions w)) = Some v).
    { rewrite Hfold. cbn [Dict.get]. now rewrite String.eqb_refl. }
    rewrite get_fold_del in Hk.
    destruct (name_in k keys) eqn:Hin; [discriminate|].
    now rewrite (Hremoved k v Hk (Hall k v Hk)) in Hin.
Qed.

Lemma cleanup_expired_sessions_sweeps_witness :
  fst (get_session_count
         (snd (cleanup_expired_sessions Sample.rt_jump
                 (created Sample.rt_jump (Some "s1") (new_manager 3600)))))
  = Returned 0%nat.
Proof.
  refine (proj2 (proj2 (proj2 (proj2 (proj2
    (cleanup_expired_sessions_sweeps Sample.rt_jump
       (created Sample.rt_jump (Some "s1") (new_manager 3600)) _ _))))) _).
  - intros i j Hij. cbn.
    destruct (Nat.leb_spec i 1), (Nat.leb_spec j 1); lia.
  - cbn. constructor; [intros []|constructor].
  - intros sid r Hget. cbn in Hget.
    destruct (String.eqb sid "s1"); [|discriminate].
    injection Hget as <-. vm_compute. reflexivity.
Defined.

(** ** What the operations of the store change *)

Section Steps.

Variable R : World -> World -> Prop.
Hypothesis R_refl : forall w, R w w.
Hypothesis R_trans : forall w1 w2 w3, R w1 w2 -> R w2 w3 -> R w1 w3.

Lemma steps_ret {A} (a : A) : steps R (ret a).
Proof using R_refl. intros w. apply R_refl. Qed.

Lemma steps_lift {A} (o : outcome A) : steps R (lift o).
Proof using R_refl. intros w. apply R_refl. Qed.

Lemma steps_raise {A} (e : exn) : steps R (@raise A e).
Proof using R_refl. intros w. apply R_refl. Qed.

Lemma steps_deref r : steps R (deref r).
Proof using R_refl. intros w. apply R_refl. Qed.

Lemma steps_bind {A B} (c : M A) (k : A -> M B) :
  steps R c -> (forall a, steps R (k a)) -> steps R (bind c k).
Proof using R_trans.
  intros Hc Hk w. unfold bind. specialize (Hc w).
  destruct (c w) as [[a|e] w1]; cbn [snd] in *; [|assumption].
  eapply R_trans; [exact Hc|apply Hk].
Qed.

(** The operations, given the steps they are made of. *)

Variable rt : PyRuntime.
Hypothesis R_time_now : steps R (time_now rt).
Hypothesis R_new_uuid : steps R (new_uuid rt).
Hypothesis R_touch : forall r t, steps R (modify r (set_last_accessed t)).
Hypothesis R_del : forall sid,
  steps R (fun w => (Returned tt,
                     with_sessions (Dict.del sid (sessions w)) w)).
Hypothesis R_create_session : forall sid, steps R (create_session rt sid).

Lemma steps_touch r : steps R (touch rt r).
Proof using R_trans R_time_now R_touch.
  unfold touch. apply steps_bind; [apply R_time_now|]. intros t. apply R_touch.
Qed.

Lemma steps_is_expired r timeout : steps R (is_expired rt r timeout).
Proof using R_refl R_trans R_time_now.
  unfold is_expired. apply steps_bind; [apply R_time_now|]. intros t.
  apply steps_bind; [apply steps_deref|]. intros s. apply steps_ret.
Qed.

Lemma steps_get_session sid : steps R (get_session rt sid).
Proof using R_refl R_trans R_time_now R_touch R_del.
  intros w. unfold get_session.
  destruct (Dict.get sid (sessions w)) as [r|]; [|apply R_refl].
  apply (steps_bind (is_expired rt r (session_timeout w)));
    [apply steps_is_expired|].
  intros [|].
  - apply steps_bind; [apply R_del|]. intros _. apply steps_ret.
  - apply steps_bind; [apply steps_touch|]. intros _. apply steps_ret.
Qed.

Lemma steps_get_or_create_session sid :
  steps R (get_or_create_session rt sid).
Proof using R_refl R_trans R_time_now R_touch R_del R_create_session.
  unfold get_or_create_session. destruct (given sid); [|apply R_create_session].
  apply steps_bind; [apply steps_get_session|].
  intros [r|]; [apply steps_ret|apply R_create_session].
Qed.

Lemma steps_is_session_initialized sid :
  steps R (is_session_initialized rt sid).
Proof using R_refl R_trans R_time_now R_touch R_del.
  unfold is_session_initialized.
  apply steps_bind; [apply steps_get_session|].
  intros [r|]; [|apply steps_ret].
  apply steps_bind; [apply steps_deref|]. intros s. apply steps_ret.
Qed.

Lemma steps_get_session_info sid : steps R (get_session_info rt sid).
Proof using R_refl R_trans R_time_now R_touch R_del.
  unfold get_session_info.
  apply steps_bind; [apply steps_get_session|].
  intros [r|]; [|apply steps_ret].
  apply steps_bind; [apply steps_deref|]. intros s.
  apply steps_bind; [apply R_time_now|]. intros t1.
  apply steps_bind; [apply R_time_now|]. intros t2.
  apply steps_bind; [apply steps_lift|]. intros n.
  apply steps_bind; [apply steps_lift|]. intros v.
  apply steps_ret.
Qed.

Lemma steps_expired_sessions items : steps R (expired_sessions rt items).
Proof using R_refl R_trans R_time_now.
  induction items as [|[sid r] items IH]; cbn [expired_sessions].
  - apply steps_ret.
  - intros w.
    apply (steps_bind (is_expired rt r (session_timeout w)));
      [apply steps_is_expired|].
    intros b. apply steps_bind; [apply IH|]. intros rest. apply steps_ret.
Qed.

Lemma steps_delete_sessions sids : steps R (delete_sessions sids).
Proof using R_refl R_trans R_del.
  induction sids as [|sid sids IH]; cbn [delete_sessions].
  - apply steps_ret.
  - apply steps_bind; [apply R_del|]. intros _. apply IH.
Qed.

Lemma steps_cleanup_expired_sessions :
  steps R (cleanup_expired_sessions rt).
Proof using R_refl R_trans R_time_now R_del.
  intros w. unfold cleanup_expired_sessions.
  apply (steps_bind (expired_sessions rt (sessions w)));
    [apply steps_expired_sessions|].
  intros sids. apply steps_delete_sessions.
Qed.

Lemma steps_initialize_session sid ci caps :
  (forall r, steps R (modify r (set_client_info ci))) ->
  (forall r, steps R (modify r (set_capabilities caps))) ->
  (forall r, steps R (modify r (set_initialized true))) ->
  steps R (initialize_session rt sid ci caps).
Proof using R_refl R_trans R_time_now R_touch R_del.
  intros H1 H2 H3. unfold initialize_session.
  apply steps_bind; [apply steps_get_session|].
  intros [r|]; [|apply steps_ret].
  apply steps_bind; [apply H1|]. intros _.
  apply steps_bind; [apply H2|]. intros _.
  apply steps_bind; [apply H3|]. intros _.
  apply steps_bind; [apply steps_touch|]. intros _.
  apply steps_bind; [apply steps_lift|]. intros _. apply steps_ret.
Qed.

(** Every operation but [initialize_session]. *)
Lemma steps_run_op op w :
  is_initialize op = false -> R w (run_op rt op w).
Proof using R_refl R_trans R_time_now R_touch R_del R_create_session.
  destruct op; cbn [is_initialize run_op]; intros H; try discriminate.
  - apply R_create_session.
  - apply steps_get_session.
  - apply steps_get_or_create_session.
  - apply steps_is_session_initialized.
  - apply steps_cleanup_expired_sessions.
  - apply R_refl.
  - apply steps_get_session_info.
Qed.

End Steps.

Section ObjectSteps.

Variable rt : PyRuntime.
Variable Q : MCPSession -> MCPSession -> Prop.
Hypothesis Q_refl : forall s, Q s s.
Hypothesis Q_trans : forall s1 s2 s3, Q s1 s2 -> Q s2 s3 -> Q s1 s3.

Lemma objects_related_refl w : objects_related Q w w.
Proof using Q_refl. intros r s Hs. eauto. Qed.

Lemma objects_related_trans w1 w2 w3 :
  objects_related Q w1 w2 -> objects_related Q w2 w3 ->
  objects_related Q w1 w3.
Proof using Q_trans.
  intros H1 H2 r s Hs. destruct (H1 r s Hs) as (s2 & Hs2 & Hq2).
  destruct (H2 r s2 Hs2) as (s3 & Hs3 & Hq3). eauto.
Qed.

Lemma objects_related_same_heap w w' :
  heap w' = heap w -> objects_related Q w w'.
Proof using Q_refl. intros Heq r s Hs. rewrite Heq. eauto. Qed.

Lemma objects_modify r f :
  (forall s, Q s (f s)) -> steps (objects_related Q) (modify r f).
Proof using Q_refl.
  intros Hf w r0 s Hs. cbn [snd modify with_heap heap].
  destruct (decide (r = r0)) as [->|Hne].
  - rewrite list_lookup_alter_eq, Hs. cbn. eauto.
  - rewrite list_lookup_alter_ne by assumption. eauto.
Qed.

Lemma objects_create_session sid :
  steps (objects_related Q) (create_session rt sid).
Proof using Q_refl.
  intros w r s Hs. rewrite create_session_eq. cbn [snd created heap].
  exists s. split; [now apply lookup_app_l_Some|apply Q_refl].
Qed.

(** Every operation but [initialize_session] relates the objects by [Q] as
    soon as a touch does. *)
Lemma objects_run_op op w :
  (forall t s, Q s (set_last_accessed t s)) ->
  is_initialize op = false ->
  objects_related Q w (run_op rt op w).
Proof using Q_refl Q_trans.
  intros Htouch. apply steps_run_op.
  - apply objects_related_refl.
  - apply objects_related_trans.
  - intros w0. now apply objects_related_same_heap.
  - intros r t. apply objects_modify. intros s. apply Htouch.
  - intros sid w0. now apply objects_related_same_heap.
  - apply objects_create_session.
Qed.

Lemma objects_initialize_session sid ci caps w :
  (forall t s, Q s (set_last_accessed t s)) ->
  (forall s, Q s (set_client_info ci s)) ->
  (forall s, Q s (set_capabilities caps s)) ->
  (forall s, Q s (set_initialized true s)) ->
  objects_related Q w (snd (initialize_session rt sid ci caps w)).
Proof using Q_refl Q_trans.
  intros Htouch H1 H2 H3.
  apply (steps_initialize_session (objects_related Q)
           objects_related_refl objects_related_trans rt).
  - intros w0. now apply objects_related_same_heap.
  - intros r t. apply objects_modify. intros s. apply Htouch.
  - intros sid0 w0. now apply objects_related_same_heap.
  - intros r. now apply objects_modify.
  - intros r. now apply objects_modify.
  - intros r. now apply objects_modify.
Qed.

End ObjectSteps.

Lemma same_but_last_accessed_refl s : same_but_last_accessed s s.
Proof. unfold same_but_last_accessed. now destruct s. Qed.

Lemma same_but_last_accessed_trans s1 s2 s3 :
  same_but_last_accessed s1 s2 -> same_but_last_accessed s2 s3 ->
  same_but_last_accessed s1 s3.
Proof.
  unfold same_but_last_accessed. intros H1 H2. rewrite H2 at 1.
  rewrite H1. reflexivity.
Qed.

Lemma same_identity_refl s : same_identity s s.
Proof. repeat split; auto. Qed.

Lemma same_identity_trans s1 s2 s3 :
  same_identity s1 s2 -> same_identity s2 s3 -> same_identity s1 s3.
Proof.
  intros (A1 & B1 & C1 & D1) (A2 & B2 & C2 & D2).
  repeat split; try congruence. auto.
Qed.

(** The bindings of the store. *)

Lemma bindings_kept_refl w : bindings_kept w w.
Proof. split; auto. Qed.

Lemma bindings_kept_trans w1 w2 w3 :
  bindings_kept w1 w2 -> bindings_kept w2 w3 -> bindings_kept w1 w3.
Proof.
  intros [Hl1 H1] [Hl2 H2]. split; [lia|].
  intros sid r' Hget. destruct (H2 sid r' Hget) as [Hold|Hnew]; [|right; lia].
  destruct (H1 sid r' Hold) as [Holder|Hnew]; auto.
Qed.

Lemma bindings_kept_same w w' :
  heap w' = heap w -> sessions w' = sessions w -> bindings_kept w w'.
Proof. intros Hh Hs. unfold bindings_kept. rewrite Hh, Hs. auto. Qed.

Lemma bindings_modify r f : steps bindings_kept (modify r f).
Proof.
  intros w. cbn [snd modify]. split; cbn [heap sessions with_heap].
  - now rewrite length_alter.
  - auto.
Qed.

Lemma bindings_del sid :
  steps bindings_kept
    (fun w => (Returned tt, with_sessions (Dict.del sid (sessions w)) w)).
Proof.
  intros w. cbn [snd]. split; cbn [heap sessions with_sessions]; [lia|].
  intros k r' Hget. apply dict_get_del_Some in Hget as [_ Hget]. auto.
Qed.

Lemma bindings_create_session rt sid :
  steps bindings_kept (create_session rt sid).
Proof.
  intros w. rewrite create_session_eq. cbn [snd].
  split; cbn [heap sessions created].
  - rewrite length_app. lia.
  - intros k r' Hget.
    apply dict_get_set_Some in Hget as [[_ ->]|[_ Hget]]; auto.
Qed.

Lemma bindings_run_op rt op w : bindings_kept w (run_op rt op w).
Proof.
  destruct (is_initialize op) eqn:Hop.
  - destruct op; try discriminate. cbn [run_op].
    apply (steps_initialize_session bindings_kept
             bindings_kept_refl bindings_kept_trans rt);
      try (intros; apply bindings_modify).
    + intros w0. now apply bindings_kept_same.
    + apply bindings_del.
  - apply (steps_run_op bindings_kept
             bindings_kept_refl bindings_kept_trans rt); auto.
    + intros w0. now apply bindings_kept_same.
    + intros; apply bindings_modify.
    + apply bindings_del.
    + apply bindings_create_session.
Qed.

(** X10.  What an operation of the store may do to a stored session.  The
    operation may drop the id (a lookup or the sweep found the session
    expired), or bind the id to an object that the operation has just
    created ([create_session], or [get_or_create_session] after an expiry).
    Otherwise the id is bound to the same object as before, and the
    operation has changed neither its [session_id], [created_at] or
    [user_email], nor reset [initialized]; and apart from
    [initialize_session] no operation changes anything of the object but
    [last_accessed]: [initialized], [client_info] and [capabilities] are
    written by [initialize_session] alone. *)
Theorem objects_kept
    (rt : PyRuntime) (op : store_op) (w : World)
    (sid : string) (r : nat) (s : MCPSession) :
  Dict.get sid (sessions w) = Some r ->
  heap w !! r = Some s ->
  forall r',
    Dict.get sid (sessions (run_op rt op w)) = Some r' ->
    (r' <> r /\ (length (heap w) <= r')%nat)
    \/ (r' = r
        /\ exists s',
             heap (run_op rt op w) !! r = Some s'
             /\ session_id s' = session_id s
             /\ created_at s' = created_at s
             /\ user_email s' = user_email s
             /\ (initialized s = true -> initialized s' = true)
             /\ (is_initialize op = false ->
                 initialized s' = initialized s
                 /\ client_info s' = client_info s
                 /\ capabilities s' = capabilities s)).
Proof.
  intros Hget Hs r' Hget'.
  destruct (bindings_run_op rt op w) as [_ Hbind].
  destruct (Hbind sid r' Hget') as [Hold|Hnew].
  2:{ left. apply lookup_lt_Some in Hs. split; lia. }
  right. split; [congruence|].
  assert (Hid : objects_related same_identity w (run_op rt op w)).
  { destruct (is_initialize op) eqn:Hop.
    - destruct op; try discriminate. cbn [run_op].
      apply (objects_initialize_session rt same_identity
               same_identity_refl same_identity_trans);
        intros; repeat split; auto.
    - apply (objects_run_op rt same_identity
               same_identity_refl same_identity_trans); auto.
      intros; repeat split; auto. }
  destruct (Hid r s Hs) as (s' & Hs' & A & B & C & D).
  exists s'. do 5 (split; [assumption|]). intros Hop.
  destruct (objects_run_op rt same_but_last_accessed
              same_but_last_accessed_refl same_but_last_accessed_trans
              op w (fun t s0 => eq_refl) Hop r s Hs) as (s'' & Hs'' & Heq).
  assert (s'' = s') as -> by congruence.
  rewrite Heq. repeat split.
Qed.

Lemma objects_kept_witness :
  exists s',
    heap (run_op Sample.rt (GetSession "s1")
            (created Sample.rt (Some "s1") (new_manager 3600))) !! 0%nat
    = Some s'
    /\ session_id s' = "s1".
Proof.
  destruct (objects_kept Sample.rt (GetSession "s1")
              (created Sample.rt (Some "s1") (new_manager 3600)) "s1" 0
              (fresh_session Sample.rt "s1" (new_manager 3600))
              eq_refl eq_refl 0%nat eq_refl)
    as [[Hne _]|(_ & s' & Hs' & Hid & _)].
  - now contradiction Hne.
  - exists s'. split; [exact Hs'|exact Hid].
Defined.

(** ** The consistency of the store *)

Lemma dict_keys_del {V} k (d : Dict.t V) :
  Dict.keys (Dict.del k d)
  = List.filter (fun k' => negb (String.eqb k k')) (Dict.keys d).
Proof.
  unfold Dict.keys, Dict.del. induction d as [|[k' v] d IH]; cbn; auto.
  destruct (String.eqb k k'); cbn; now rewrite IH.
Qed.

Lemma NoDup_keys_del {V} k (d : Dict.t V) :
  List.NoDup (Dict.keys d) -> List.NoDup (Dict.keys (Dict.del k d)).
Proof. intros H. rewrite dict_keys_del. now apply List.NoDup_filter. Qed.

Lemma NoDup_keys_set {V} k (v : V) (d : Dict.t V) :
  List.NoDup (Dict.keys d) -> List.NoDup (Dict.keys (Dict.set k v d)).
Proof.
  unfold Dict.keys. induction d as [|[k' v'] d IH]; cbn [Dict.set map fst].
  - intros _. constructor; [intros []|constructor].
  - intros Hnd. apply List.NoDup_cons_iff in Hnd as [Hfresh Hnd].
    destruct (String.eqb_spec k k') as [->|Hne]; cbn [map fst].
    + constructor; assumption.
    + constructor; [|auto]. intros Hin.
      apply (DictFacts.keys_set k v d k') in Hin as [Heq|Hin]; auto.
Qed.

Section Consistency.

Variable rt : PyRuntime.

Lemma stays_consistent_refl w : stays_consistent w w.
Proof. intros H. exact H. Qed.

Lemma stays_consistent_trans w1 w2 w3 :
  stays_consistent w1 w2 -> stays_consistent w2 w3 -> stays_consistent w1 w3.
Proof. unfold stays_consistent. auto. Qed.

Lemma stays_consistent_same w w' :
  heap w' = heap w -> sessions w' = sessions w -> stays_consistent w w'.
Proof.
  intros Hh Hs (Hwf & Hkeys & Hnd).
  unfold consistent, well_formed, keys_consistent. rewrite Hh, Hs. auto.
Qed.

Lemma consistent_modify r f :
  (forall s, session_id (f s) = session_id s) ->
  steps stays_consistent (modify r f).
Proof.
  intros Hf w (Hwf & Hkeys & Hnd). cbn [snd modify].
  unfold consistent, well_formed, keys_consistent, with_heap.
  cbn [heap sessions]. rewrite length_alter. split; [assumption|].
  split; [|assumption]. intros sid r0 Hget.
  destruct (Hkeys sid r0 Hget) as (s & Hs & Hid).
  destruct (decide (r = r0)) as [->|Hne].
  - rewrite list_lookup_alter_eq, Hs. cbn. eexists. split; [reflexivity|].
    now rewrite Hf.
  - rewrite list_lookup_alter_ne by assumption. eauto.
Qed.

Lemma consistent_del sid :
  steps stays_consistent
    (fun w => (Returned tt, with_sessions (Dict.del sid (sessions w)) w)).
Proof.
  intros w (Hwf & Hkeys & Hnd). cbn [snd].
  unfold consistent, well_formed, keys_consistent, with_sessions.
  cbn [heap sessions]. split; [|split].
  - intros k r Hget. apply dict_get_del_Some in Hget as [_ Hget]. eauto.
  - intros k r Hget. apply dict_get_del_Some in Hget as [_ Hget]. eauto.
  - now apply NoDup_keys_del.
Qed.

Lemma consistent_create_session sid :
  steps stays_consistent (create_session rt sid).
Proof.
  intros w (Hwf & Hkeys & Hnd). rewrite create_session_eq. cbn [snd].
  split; [now apply well_formed_created|]. split.
  - intros k r Hget. unfold created in *. cbn [heap sessions] in *.
    apply dict_get_set_Some in Hget as [[-> ->]|[_ Hget]].
    + eexists. split.
      * rewrite lookup_app_r, Nat.sub_diag by lia. reflexivity.
      * reflexivity.
    + destruct (Hkeys k r Hget) as (s & Hs & Hid).
      exists s. split; [now apply lookup_app_l_Some|assumption].
  - unfold created. cbn [sessions]. now apply NoDup_keys_set.
Qed.

Lemma consistent_run_op op w : stays_consistent w (run_op rt op w).
Proof.
  assert (Htime : steps stays_consistent (time_now rt)).
  { intros w0. now apply stays_consistent_same. }
  assert (Htouch : forall r t,
            steps stays_consistent (modify r (set_last_accessed t))).
  { intros r t. now apply consistent_modify. }
  destruct op; cbn [run_op].
  - apply consistent_create_session.
  - apply (steps_get_session _ stays_consistent_refl stays_consistent_trans
             rt Htime Htouch consistent_del).
  - apply (steps_get_or_create_session _ stays_consistent_refl
             stays_consistent_trans rt Htime Htouch consistent_del
             consistent_create_session).
  - apply (steps_initialize_session _ stays_consistent_refl
             stays_consistent_trans rt Htime Htouch consistent_del);
      intros r; now apply consistent_modify.
  - apply (steps_is_session_initialized _ stays_consistent_refl
             stays_consistent_trans rt Htime Htouch consistent_del).
  - apply (steps_cleanup_expired_sessions _ stays_consistent_refl
             stays_consistent_trans rt Htime consistent_del).
  - apply stays_consistent_refl.
  - apply (steps_get_session_info _ stays_consistent_refl
             stays_consistent_trans rt Htime Htouch consistent_del).
Qed.

End Consistency.

Section DispatchConsistency.

Variable rt : PyRuntime.
Variable tools_registry : Dict.t Callable.

Let sc_refl := stays_consistent_refl.
Let sc_trans := stays_consistent_trans.

Lemma consistent_time_now : steps stays_consistent (time_now rt).
Proof. intros w. now apply stays_consistent_same. Qed.

Lemma consistent_touch_step r t :
  steps stays_consistent (modify r (set_last_accessed t)).
Proof. now apply consistent_modify. Qed.

Lemma consistent_get_or_create_session sid :
  steps stays_consistent (get_or_create_session rt sid).
Proof.
  apply (steps_get_or_create_session _ sc_refl sc_trans rt
           consistent_time_now consistent_touch_step consistent_del
           (consistent_create_session rt)).
Qed.

Lemma consistent_initialize_session sid ci caps :
  steps stays_consistent (initialize_session rt sid ci caps).
Proof.
  apply (steps_initialize_session _ sc_refl sc_trans rt
           consistent_time_now consistent_touch_step consistent_del);
    intros r; now apply consistent_modify.
Qed.

Lemma consistent_handle_initialize sid request_id params :
  steps stays_consistent (handle_initialize rt sid request_id params).
Proof.
  unfold handle_initialize.
  apply (steps_bind _ sc_trans); [apply consistent_get_or_create_session|].
  intros _. apply (steps_bind _ sc_trans); [apply (steps_lift _ sc_refl)|].
  intros ci. apply (steps_bind _ sc_trans); [apply (steps_lift _ sc_refl)|].
  intros caps.
  apply (steps_bind _ sc_trans); [apply consistent_initialize_session|].
  intros _. apply (steps_bind _ sc_trans); [apply (steps_lift _ sc_refl)|].
  intros response. apply (steps_ret _ sc_refl).
Qed.

Lemma consistent_handle_tools_call sid request_id params :
  steps stays_consistent
    (handle_tools_call rt tools_registry sid request_id params).
Proof.
  intros w.
  destruct (handle_tools_call_pure rt tools_registry sid request_id params)
    as [o Ho].
  rewrite Ho. apply sc_refl.
Qed.

Lemma consistent_dispatch request :
  steps stays_consistent (dispatch rt tools_registry request).
Proof.
  unfold dispatch. apply (steps_bind _ sc_trans).
  - destruct (given (header_mcp_session_id request));
      [apply (steps_ret _ sc_refl)|].
    apply (steps_bind _ sc_trans); [apply consistent_get_or_create_session|].
    intros r. apply (steps_bind _ sc_trans); [apply (steps_deref _ sc_refl)|].
    intros s. apply (steps_ret _ sc_refl).
  - intros sid.
    destruct (request_body request) as [| detail | detail | c detail | v].
    + apply (steps_lift _ sc_refl).
    + apply (steps_raise _ sc_refl).
    + apply (steps_lift _ sc_refl).
    + apply (steps_raise _ sc_refl).
    + destruct (negb (is_dict v) || _).
      * apply (steps_bind _ sc_trans); [apply (steps_lift _ sc_refl)|].
        intros request_id. apply (steps_lift _ sc_refl).
      * apply (steps_bind _ sc_trans); [apply (steps_lift _ sc_refl)|].
        intros request_id.
        apply (steps_bind _ sc_trans); [apply (steps_lift _ sc_refl)|].
        intros method.
        apply (steps_bind _ sc_trans); [apply (steps_lift _ sc_refl)|].
        intros params.
        destruct (negb (truthy method)); [apply (steps_lift _ sc_refl)|].
        destruct (is_JStr "initialize" method);
          [apply consistent_handle_initialize|].
        destruct (is_JStr "tools/list" method);
          [apply (steps_lift _ sc_refl)|].
        destruct (is_JStr "resources/list" method);
          [apply (steps_lift _ sc_refl)|].
        destruct (is_JStr "prompts/list" method);
          [apply (steps_lift _ sc_refl)|].
        destruct (is_JStr "tools/call" method);
          [apply consistent_handle_tools_call|].
        apply (steps_lift _ sc_refl).
Qed.

End DispatchConsistency.

Lemma new_manager_consistent timeout : consistent (new_manager timeout).
Proof.
  split; [|split].
  - intros sid r Hget. discriminate.
  - intros sid r Hget. discriminate.
  - constructor.
Qed.

(** X11.  The store stays consistent: if every id of [sessions] is bound
    once, to a reference of an object, and that object carries the id as its
    [session_id], then the same holds after every operation of the store and
    after every request handled by [handle_mcp_request]. *)
Theorem store_stays_consistent
    (rt : PyRuntime) (tools_registry : Dict.t Callable) (w : World) :
  consistent w ->
  (forall op, consistent (run_op rt op w))
  /\ (forall request,
        consistent (snd (handle_mcp_request rt tools_registry request w))).
Proof.
  intros Hw. split.
  - intros op. now apply consistent_run_op.
  - intros request. unfold handle_mcp_request.
    pose proof (consistent_dispatch rt tools_registry request w Hw) as H.
    destruct (dispatch rt tools_registry request w) as [[r|e] w']; exact H.
Qed.

Lemma store_stays_consistent_witness :
  consistent
    (snd (handle_mcp_request Sample.rt Sample.tools_registry
            (Sample.request None (rpc (JInt 1) "initialize" (JObj [])))
            (new_manager 3600))).
Proof.
  exact (proj2 (store_stays_consistent Sample.rt Sample.tools_registry
                  (new_manager 3600) (new_manager_consistent 3600))
           (Sample.request None (rpc (JInt 1) "initialize" (JObj [])))).
Defined.

(** ** Lookups and timestamps *)

Lemma run_ops_consistent rt ops : forall w,
  consistent w -> consistent (run_ops rt ops w).
Proof.
  induction ops as [|op ops IH]; intros w Hw; cbn [run_ops]; auto.
  apply IH. now apply consistent_run_op.
Qed.

Lemma new_manager_store_ok rt timeout : store_ok rt (new_manager timeout).
Proof. split; intros ? ? H; discriminate. Qed.

(** C5, as the code has it.  In the store of a manager, after any sequence
    of operations: [get_session] on a stored id reads the clock once and,
    when the idle time exceeds the timeout, answers [None] and drops the id;
    otherwise it answers the stored object and sets its [last_accessed] to
    the next reading of the clock.  When the clock does not run backwards,
    every operation of the store leaves every session object with a
    [last_accessed] that is not smaller, and the session stored under an id
    afterwards has a [last_accessed] not smaller than the one stored under
    that id before. *)
Theorem last_accessed_monotone
    (rt : PyRuntime) (timeout : Z) (ops : list store_op) (op : store_op) :
  let w := run_ops rt ops (new_manager timeout) in
  let w' := run_op rt op w in
  (forall sid r,
      Dict.get sid (sessions w) = Some r ->
      exists s,
        heap w !! r = Some s
        /\ let w1 := snd (get_session rt sid w) in
           if time_time rt (clock_reads w) - last_accessed s
              >? session_timeout w
           then fst (get_session rt sid w) = Returned None
                /\ Dict.get sid (sessions w1) = None
           else fst (get_session rt sid w) = Returned (Some r)
                /\ Dict.get sid (sessions w1) = Some r
                /\ exists s',
                     heap w1 !! r = Some s'
                     /\ last_accessed s' = time_time rt (S (clock_reads w)))
  /\ (monotone_clock rt ->
      (forall r s, heap w !! r = Some s ->
         exists s', heap w' !! r = Some s'
                    /\ last_accessed s <= last_accessed s')
      /\ (forall sid r s r' s',
            Dict.get sid (sessions w) = Some r -> heap w !! r = Some s ->
            Dict.get sid (sessions w') = Some r' -> heap w' !! r' = Some s' ->
            last_accessed s <= last_accessed s')).
Proof.
  intros w w'.
  assert (Hcons : consistent w)
    by apply run_ops_consistent, new_manager_consistent.
  split.
  - intros sid r Hget. destruct Hcons as (Hwf & _).
    destruct (lookup_lt_is_Some_2 (heap w) r (Hwf sid r Hget)) as [s Hs].
    exists s. split; [exact Hs|]. cbn zeta.
    rewrite get_session_eq, Hget. unfold idle_time.
    rewrite (list_lookup_total_correct _ _ _ Hs).
    destruct (time_time rt (clock_reads w) - last_accessed s
              >? session_timeout w); cbn [fst snd].
    + split; [reflexivity|]. cbn [expired sessions].
      apply DictFacts.get_del_eq.
    + split; [reflexivity|]. split; [exact Hget|].
      unfold touched. cbn [heap]. rewrite list_lookup_alter_eq, Hs.
      eexists. split; reflexivity.
  - intros Hclock.
    assert (Hok : store_ok rt w).
    { apply (run_ops_evolves rt Hclock ops (new_manager timeout)).
      apply new_manager_store_ok. }
    destruct (run_op_evolves rt Hclock op w Hok)
      as (Hreads & Hobj & Hok' & Hid).
    fold w' in Hreads, Hobj, Hok', Hid.
    split; [assumption|].
    intros sid r s r' s' Hget Hs Hget' Hs'.
    destruct (Hid sid r' Hget') as [Hsame|(s'' & Hs'' & Hle)].
    + assert (r' = r) as -> by congruence.
      destruct (Hobj r s Hs) as (s'' & Hs'' & Hle).
      assert (s'' = s') as -> by congruence. assumption.
    + assert (s'' = s') as -> by congruence.
      destruct Hok as [Hpast _]. specialize (Hpast r s Hs). lia.
Qed.

Lemma last_accessed_monotone_witness :
  let w := run_ops Sample.rt [CreateSession (Some "s1")] (new_manager 3600) in
  let w1 := snd (get_session Sample.rt "s1" w) in
  fst (get_session Sample.rt "s1" w) = Returned (Some 0%nat)
  /\ Dict.get "s1" (sessions w1) = Some 0%nat
  /\ exists s', heap w1 !! 0%nat = Some s' /\ last_accessed s' = 3.
Proof.
  destruct (proj1 (last_accessed_monotone Sample.rt 3600
                     [CreateSession (Some "s1")] (GetSession "s1"))
              "s1" 0%nat eq_refl) as (s & Hs & H).
  cbv in Hs. injection Hs as <-. exact H.
Defined.

(** C5 as stated fails when the clock is set back: a successful lookup then
    lowers [last_accessed], here from 100 to 50. *)
Lemma last_accessed_follows_the_clock_back :
  let w := run_ops Sample.rt_back [CreateSession (Some "s1")]
             (new_manager 3600) in
  let w' := run_op Sample.rt_back (GetSession "s1") w in
  fst (get_session Sample.rt_back "s1" w) = Returned (Some 0%nat)
  /\ Dict.get "s1" (sessions w) = Some 0%nat
  /\ Dict.get "s1" (sessions w') = Some 0%nat
  /\ last_accessed <$> heap w !! 0%nat = Some 100
  /\ last_accessed <$> heap w' !! 0%nat = Some 50.
Proof. repeat split. Qed.

(** C6, as the code has it.  In the store of a manager, after any sequence
    of operations, [get_or_create_session] with a non-empty id returns an
    object that is stored under that id, carries it, and has the last
    reading of the clock as its [last_accessed], so that with a timeout that
    is not negative it is not expired at that reading; it is never the
    object that the call found expired under the id.  The window of a second
    call starts at that reading: when the reading of the second call is
    within the timeout of it, the second call returns the same object, again
    with the id and the last reading as [last_accessed], which is not
    smaller than before when the clock does not run backwards; beyond the
    window the second call returns a new object. *)
Theorem get_or_create_session_twice
    (rt : PyRuntime) (timeout : Z) (ops : list store_op) (sid : string) :
  String.eqb sid "" = false ->
  let w := run_ops rt ops (new_manager timeout) in
  exists r w1 s1,
    get_or_create_session rt (Some sid) w = (Returned r, w1)
    /\ Dict.get sid (sessions w1) = Some r
    /\ heap w1 !! r = Some s1
    /\ session_id s1 = sid
    /\ last_accessed s1 = last_reading rt w1
    /\ (0 <= session_timeout w1 ->
        expired_at (last_reading rt w1) (session_timeout w1) s1 = false)
    /\ (forall r0, Dict.get sid (sessions w) = Some r0 ->
          idle_time rt w (heap w !!! r0) > session_timeout w -> r <> r0)
    /\ if time_time rt (clock_reads w1) - last_reading rt w1
          >? session_timeout w1
       then exists w2,
              get_or_create_session rt (Some sid) w1
              = (Returned (length (heap w1)), w2)
              /\ r <> length (heap w1)
       else exists w2 s2,
              get_or_create_session rt (Some sid) w1 = (Returned r, w2)
              /\ heap w2 !! r = Some s2
              /\ session_id s2 = sid
              /\ last_accessed s2 = last_reading rt w2
              /\ (monotone_clock rt -> last_accessed s1 <= last_accessed s2)
              /\ (0 <= session_timeout w1 ->
                  expired_at (last_reading rt w2) (session_timeout w2) s2
                  = false).
Proof.
  intros Hsid w.
  assert (Hcons : consistent w)
    by apply run_ops_consistent, new_manager_consistent.
  destruct (get_or_create_session_refreshed rt (Some sid) w (proj1 Hcons))
    as (r & w1 & s1 & Hcall & Hs1 & Hla & Htimeout & Hbound & Hstale).
  pose proof (given_Some _ Hsid) as Hgiven.
  specialize (Hbound sid Hgiven).
  assert (Hcons1 : consistent w1).
  { pose proof (consistent_run_op rt (GetOrCreateSession (Some sid)) w Hcons)
      as H. cbn [run_op] in H. now rewrite Hcall in H. }
  assert (Hid1 : session_id s1 = sid).
  { destruct Hcons1 as (_ & Hkeys & _).
    destruct (Hkeys sid r Hbound) as (s & Hs & Hid). congruence. }
  exists r, w1, s1.
  do 4 (split; [assumption|]). split; [assumption|]. split; [|split].
  - intros Hpos. unfold expired_at. rewrite Hla.
    rewrite Z.gtb_ltb. apply Z.ltb_ge. lia.
  - intros r0. now apply Hstale.
  - rewrite get_or_create_session_eq, Hgiven, Hbound.
    rewrite (list_lookup_total_correct _ _ _ Hs1).
    unfold idle_time. rewrite Hla.
    destruct (time_time rt (clock_reads w1) - last_reading rt w1
              >? session_timeout w1).
    + eexists. split; [reflexivity|].
      apply lookup_lt_Some in Hs1. cbn [expired heap]. lia.
    + exists (touched rt r w1),
        (set_last_accessed (time_time rt (S (clock_reads w1))) s1).
      split; [reflexivity|]. split; [|split; [assumption|split; [|split]]].
      * unfold touched. cbn [heap]. now rewrite list_lookup_alter_eq, Hs1.
      * reflexivity.
      * intros Hclock. cbn. unfold last_reading. apply Hclock. lia.
      * intros Hpos. unfold expired_at, last_reading. cbn.
        rewrite Z.gtb_ltb. apply Z.ltb_ge. lia.
Qed.

Lemma get_or_create_session_twice_witness :
  exists r w1 s1,
    get_or_create_session Sample.rt (Some "s1") (new_manager 3600)
    = (Returned r, w1)
    /\ heap w1 !! r = Some s1
    /\ session_id s1 = "s1"
    /\ last_accessed s1 = last_reading Sample.rt w1.
Proof.
  destruct (get_or_create_session_twice Sample.rt 3600 [] "s1" eq_refl)
    as (r & w1 & s1 & Hcall & _ & Hs1 & Hid & Hla & _).
  exists r, w1, s1. auto.
Defined.

(** C6 as stated fails for the empty id, which [get_or_create_session]
    takes for no id: two calls in a row create two sessions under two
    generated ids.  With a clock that is set back, the second call returns
    the same session with a smaller [last_accessed].  And with a negative
    timeout, the session that is returned is expired at the very reading it
    was stamped with. *)
Lemma get_or_create_session_twice_differs :
  (let w1 := snd (get_or_create_session Sample.rt (Some "")
                    (new_manager 3600)) in
   let w2 := snd (get_or_create_session Sample.rt (Some "") w1) in
   fst (get_or_create_session Sample.rt (Some "") (new_manager 3600))
   = Returned 0%nat
   /\ fst (get_or_create_session Sample.rt (Some "") w1) = Returned 1%nat
   /\ session_id <$> heap w2 !! 0%nat = Some "generated-0"
   /\ session_id <$> heap w2 !! 1%nat = Some "generated-1")
  /\ (let w1 := snd (get_or_create_session Sample.rt_back (Some "s1")
                       (new_manager 3600)) in
      let w2 := snd (get_or_create_session Sample.rt_back (Some "s1") w1) in
      fst (get_or_create_session Sample.rt_back (Some "s1")
             (new_manager 3600)) = Returned 0%nat
      /\ fst (get_or_create_session Sample.rt_back (Some "s1") w1)
         = Returned 0%nat
      /\ last_accessed <$> heap w1 !! 0%nat = Some 100
      /\ last_accessed <$> heap w2 !! 0%nat = Some 50)
  /\ (let w1 := snd (get_or_create_session Sample.rt (Some "s1")
                       (new_manager (-1))) in
      fst (get_or_create_session Sample.rt (Some "s1") (new_manager (-1)))
      = Returned 0%nat
      /\ expired_at (last_reading Sample.rt w1) (session_timeout w1)
        <$> heap w1 !! 0%nat = Some true).
Proof. repeat split. Qed.

(** ** Creating, finding and inspecting a session *)

Lemma dict_length_set {V} k (v : V) (d : Dict.t V) :
  length (Dict.set k v d)
  = if Dict.mem k d then length d else S (length d).
Proof.
  unfold Dict.mem. induction d as [|[k' v'] d IH]; cbn [Dict.set Dict.get].
  - reflexivity.
  - destruct (String.eqb k k'); cbn [length]; [reflexivity|].
    rewrite IH. now destruct (Dict.get k d).
Qed.

(** X12.  [create_session] stores a new, un-initialized object under the
    given id, or under a generated one when the id is absent or empty, and
    leaves every other id as it was.  An id that was already stored is
    rebound to the new object, so the number of sessions grows only for a new
    id.  A lookup of the id right afterwards finds the new object, provided
    the clock did not advance beyond the timeout in between, and
    [is_session_initialized] then answers [False]. *)
Theorem create_session_then_get
    (rt : PyRuntime) (sid : option string) (w : World) :
  let id := new_id rt sid w in
  let r := length (heap w) in
  let w1 := snd (create_session rt sid w) in
  fst (create_session rt sid w) = Returned r
  /\ Dict.get id (sessions w1) = Some r
  /\ heap w1 !! r = Some (fresh_session rt id w)
  /\ (forall k, k <> id -> Dict.get k (sessions w1) = Dict.get k (sessions w))
  /\ fst (get_session_count w1)
     = Returned (if Dict.mem id (sessions w) then length (sessions w)
                 else S (length (sessions w)))
  /\ (time_time rt (S (S (clock_reads w))) - time_time rt (S (clock_reads w))
      <= session_timeout w ->
      fst (get_session rt id w1) = Returned (Some r)
      /\ fst (is_session_initialized rt id w1) = Returned false).
Proof.
  intros id r w1. subst w1. rewrite create_session_eq. cbn [fst snd].
  assert (Hget : Dict.get id (sessions (created rt sid w)) = Some r)
    by apply DictFacts.get_set_eq.
  assert (Hobj : heap (created rt sid w) !! r = Some (fresh_session rt id w)).
  { unfold created. cbn [heap]. subst r.
    rewrite lookup_app_r, Nat.sub_diag by lia. reflexivity. }
  split; [reflexivity|]. split; [exact Hget|]. split; [exact Hobj|].
  split; [|split].
  - intros k Hk. unfold created. cbn [sessions].
    apply DictFacts.get_set_ne. intros Heq. apply Hk. symmetry. exact Heq.
  - unfold get_session_count, created. cbn [fst sessions].
    now rewrite dict_length_set.
  - intros Hwindow.
    assert (Hlookup : get_session rt id (created rt sid w)
                      = (Returned (Some r),
                         touched rt r (created rt sid w))).
    { rewrite get_session_eq, Hget.
      rewrite (list_lookup_total_correct _ _ _ Hobj).
      unfold idle_time. cbn [created clock_reads session_timeout
                             fresh_session last_accessed].
      assert ((time_time rt (S (S (clock_reads w)))
               - time_time rt (S (clock_reads w)) >? session_timeout w)
              = false) as ->; [|reflexivity].
      rewrite Z.gtb_ltb. apply Z.ltb_ge. lia. }
    split.
    + now rewrite Hlookup.
    + unfold is_session_initialized, bind. rewrite Hlookup.
      unfold deref, ret. cbn [fst touched heap].
      assert (Hr : alter (set_last_accessed
                            (time_time rt
                               (S (clock_reads (created rt sid w))))) r
                     (heap (created rt sid w)) !! r
                   = Some (set_last_accessed
                             (time_time rt
                                (S (clock_reads (created rt sid w))))
                             (fresh_session rt id w))).
      { now rewrite list_lookup_alter_eq, Hobj. }
      now rewrite (list_lookup_total_correct _ _ _ Hr).
Qed.

Lemma get_session_info_eq rt sid w :
  get_session_info rt sid w
  = match Dict.get sid (sessions w) with
    | None => (Returned None, w)
    | Some r =>
        let s := heap w !!! r in
        if idle_time rt w s >? session_timeout w
        then (Returned None, expired sid w)
        else
          let n := clock_reads w in
          let s' := heap (touched rt r w) !!! r in
          (match py_get (client_info s') "name" (JStr "unknown"),
                 py_get (client_info s') "version" (JStr "unknown") with
           | Returned client_name, Returned client_version =>
               Returned (Some (JObj
                 [("session_id", JStr (session_id s'));
                  ("created_at", JInt (created_at s'));
                  ("last_accessed", JInt (last_accessed s'));
                  ("age_seconds",
                   JInt (time_time rt (S (S n)) - created_at s'));
                  ("idle_seconds",
                   JInt (time_time rt (S (S (S n))) - last_accessed s'));
                  ("user_email", opt_str (user_email s'));
                  ("initialized", JBool (initialized s'));
                  ("client_name", client_name);
                  ("client_version", client_version)]))
           | Raised e, _ => Raised e
           | _, Raised e => Raised e
           end,
           {| heap := heap (touched rt r w);
              sessions := sessions w;
              session_timeout := session_timeout w;
              clock_reads := S (S (S (S n)));
              uuid_reads := uuid_reads w |})
    end.
Proof.
  unfold get_session_info, bind. rewrite get_session_eq.
  destruct (Dict.get sid (sessions w)) as [r|]; [|reflexivity].
  cbn zeta.
  destruct (idle_time rt w (heap w !!! r) >? session_timeout w);
    [reflexivity|].
  unfold deref, time_now, lift, ret.
  cbn [heap sessions session_timeout clock_reads uuid_reads touched fst snd].
  destruct (py_get _ "name" _); [|reflexivity].
  destruct (py_get _ "version" _); reflexivity.
Qed.

(** X13.  [get_session_info] on a session that is alive and whose
    [client_info] is a dict touches the session before it reports: the
    [last_accessed] it returns and stores is the clock reading of that touch,
    the [idle_seconds] it returns is the time between that touch and a later
    reading, whatever the idle time was before the call, and four readings of
    the clock are taken.  With a clock that does not run backwards
    [idle_seconds] is not negative. *)
Theorem get_session_info_touches
    (rt : PyRuntime) (sid : string) (w : World) (r : nat) (s : MCPSession) :
  Dict.get sid (sessions w) = Some r ->
  heap w !! r = Some s ->
  idle_time rt w s <= session_timeout w ->
  is_dict (client_info s) = true ->
  let n := clock_reads w in
  exists info w',
    get_session_info rt sid w = (Returned (Some (JObj info)), w')
    /\ Dict.get "session_id" info = Some (JStr (session_id s))
    /\ Dict.get "last_accessed" info = Some (JInt (time_time rt (S n)))
    /\ Dict.get "idle_seconds" info
       = Some (JInt (time_time rt (S (S (S n))) - time_time rt (S n)))
    /\ Dict.get "age_seconds" info
       = Some (JInt (time_time rt (S (S n)) - created_at s))
    /\ Dict.get "initialized" info = Some (JBool (initialized s))
    /\ heap w' !! r = Some (set_last_accessed (time_time rt (S n)) s)
    /\ clock_reads w' = S (S (S (S n)))
    /\ (monotone_clock rt ->
        0 <= time_time rt (S (S (S n))) - time_time rt (S n)).
Proof.
  intros Hget Hs Hidle Hci n.
  assert (Hs' : heap (touched rt r w) !! r
                = Some (set_last_accessed (time_time rt (S n)) s)).
  { unfold touched. cbn [heap]. now rewrite list_lookup_alter_eq, Hs. }
  rewrite get_session_info_eq, Hget. cbn zeta.
  rewrite (list_lookup_total_correct _ _ _ Hs).
  assert ((idle_time rt w s >? session_timeout w) = false) as ->.
  { rewrite Z.gtb_ltb. apply Z.ltb_ge. lia. }
  rewrite (list_lookup_total_correct _ _ _ Hs').
  cbn [client_info set_last_accessed].
  destruct (client_info s) as [| | | | | | |ci] eqn:Eci; try discriminate.
  cbn [py_get]. eexists. eexists. split; [reflexivity|].
  cbn [heap clock_reads]. repeat split; try reflexivity; try assumption.
  intros Hclock. pose proof (Hclock (S n) (S (S (S n))) ltac:(lia)). lia.
Qed.

Lemma get_session_info_touches_witness :
  exists info w',
    get_session_info Sample.rt "s1"
      (created Sample.rt (Some "s1") (new_manager 3600))
    = (Returned (Some (JObj info)), w')
    /\ Dict.get "idle_seconds" info = Some (JInt 2).
Proof.
  destruct (get_session_info_touches Sample.rt "s1"
              (created Sample.rt (Some "s1") (new_manager 3600)) 0
              (fresh_session Sample.rt "s1" (new_manager 3600)))
    as (info & w' & Hcall & _ & _ & Hidle & _).
  - reflexivity.
  - reflexivity.
  - vm_compute. discriminate.
  - reflexivity.
  - exists info, w'. split; [exact Hcall|exact Hidle].
Defined.

(** ** The two tool lists *)

Lemma first_line_single s : has_char newline (first_line s) = false.
Proof.
  induction s as [|c s IH]; cbn [first_line has_char]; auto.
  fold newline. destruct (Ascii.eqb c newline) eqn:E; cbn [has_char]; auto.
  now rewrite E, IH.
Qed.

Lemma list_map_lookup {A B} (f : A -> B) (l : list A) i a :
  l !! i = Some a -> map f l !! i = Some (f a).
Proof.
  revert i. induction l as [|x l IH]; intros [|i]; cbn; try discriminate.
  - now intros [= ->].
  - apply IH.
Qed.

Lemma get_tools_list_names rt (tools_registry : Dict.t Callable) :
  map name_of (get_tools_list rt tools_registry)
  = map (fun name => Some (JStr name)) (Dict.keys tools_registry).
Proof.
  unfold get_tools_list, Dict.keys. rewrite !map_map.
  apply map_ext. intros [name f]. unfold tool_data.
  destruct (func_signature f) as [params|e]; [|reflexivity].
  now destruct (schema_loop params [] []).
Qed.

(** X14.  [get_tools_list] answers one entry per registered tool, in the
    order of the registry and under the tool's name, whether or not the
    signature of the tool can be read: a tool whose signature cannot be read
    is listed with the description "Tool: <name>" and an empty schema, and a
    tool whose signature can be read is listed with a description of a
    single line. *)
Theorem get_tools_list_entries
    (rt : PyRuntime) (tools_registry : Dict.t Callable) :
  map name_of (get_tools_list rt tools_registry)
  = map (fun name => Some (JStr name)) (Dict.keys tools_registry)
  /\ forall i name f,
       tools_registry !! i = Some (name, f) ->
       exists tool,
         get_tools_list rt tools_registry !! i = Some tool
         /\ match func_signature f with
            | Raised _ =>
                tool = JObj [("name", JStr name);
                             ("description", JStr ("Tool: " ++ name));
                             ("inputSchema", input_schema [] [])]
            | Returned params =>
                exists description,
                  description_of tool = Some (JStr description)
                  /\ has_char newline description = false
                  /\ schema_of tool
                     = Some (input_schema
                               (fst (schema_loop params [] []))
                               (snd (schema_loop params [] [])))
            end.
Proof.
  split.
  - apply get_tools_list_names.
  - intros i name f Hi. unfold get_tools_list.
    exists (tool_data rt name f). split.
    + exact (list_map_lookup _ _ _ _ Hi).
    + unfold tool_data. destruct (func_signature f) as [params|e];
        [|reflexivity].
      destruct (schema_loop params [] []) as [properties required].
      eexists. split; [reflexivity|]. split; [|reflexivity].
      unfold tool_description.
      set (d := match func_doc f with
                | Some doc => if String.eqb doc "" then "Tool: " ++ name
                              else doc
                | None => "Tool: " ++ name
                end).
      destruct (String.eqb_spec d "") as [->|_];
        [reflexivity|apply first_line_single].
Qed.

Lemma tools_loop_readable items : forall tools,
  forallb (fun item => readable (snd item)) items = true ->
  exists entries,
    mcp_handlers.tools_loop items tools = Returned (tools ++ entries)%list
    /\ map name_of entries
       = map (fun name => Some (JStr name)) (Dict.keys items).
Proof.
  induction items as [|[name info] items IH]; intros tools Hall;
    cbn [mcp_handlers.tools_loop forallb] in *.
  - exists []. now rewrite app_nil_r.
  - apply andb_true_iff in Hall as [Hinfo Hall]. cbn [snd] in Hinfo.
    assert (Hentry : exists td,
      mcp_handlers.tool_data name info = Returned td
      /\ name_of td = Some (JStr name)).
    { unfold readable in Hinfo. unfold mcp_handlers.tool_data.
      destruct (mcp_handlers.info_func info) as [func|]; [|eauto].
      destruct (func_signature func) as [params|]; [|discriminate].
      destruct (mcp_handlers.schema_loop params [] []). eauto. }
    destruct Hentry as (td & -> & Hname).
    destruct (IH (tools ++ [td])%list Hall) as (entries & -> & Hnames).
    exists (td :: entries). rewrite <- app_assoc. split; [reflexivity|].
    cbn [map Dict.keys fst]. now rewrite Hname, Hnames.
Qed.

Lemma tools_loop_unreadable items : forall tools,
  forallb (fun item => readable (snd item)) items = false ->
  exists e, mcp_handlers.tools_loop items tools = Raised e.
Proof.
  induction items as [|[name info] items IH]; intros tools Hall;
    cbn [mcp_handlers.tools_loop forallb] in *; [discriminate|].
  cbn [snd] in Hall. unfold mcp_handlers.tool_data.
  unfold readable in Hall at 1.
  destruct (mcp_handlers.info_func info) as [func|].
  - destruct (func_signature func) as [params|e]; [|eauto].
    destruct (mcp_handlers.schema_loop params [] []). cbn [andb] in Hall.
    now apply IH.
  - cbn [andb] in Hall. now apply IH.
Qed.

Lemma get_registered_tools_names (items : Dict.t mcp_handlers.ToolInfo) :
  forallb (fun item => readable (snd item)) items = true ->
  map name_of (mcp_handlers.get_registered_tools (Some items))
  = map (fun name => Some (JStr name)) (Dict.keys items).
Proof.
  intros Hall. destruct items as [|item items]; [reflexivity|].
  unfold mcp_handlers.get_registered_tools.
  destruct (tools_loop_readable _ [] Hall) as (entries & -> & Hnames).
  exact Hnames.
Qed.

(** X15.  [get_registered_tools] is all or nothing.  When the signature of
    every registered function can be read it answers one entry per tool of
    [server._tools], in order and under the tool's name; as soon as one
    signature cannot be read it answers the hard-coded description of
    [start_google_auth] instead, and no registered tool at all; and without
    [server._tools], or with an empty one, it answers the empty list. *)
Theorem get_registered_tools_all_or_nothing
    (server_tools : option (Dict.t mcp_handlers.ToolInfo)) :
  match server_tools with
  | None | Some [] => mcp_handlers.get_registered_tools server_tools = []
  | Some items =>
      if forallb (fun item => readable (snd item)) items
      then map name_of (mcp_handlers.get_registered_tools server_tools)
           = map (fun name => Some (JStr name)) (Dict.keys items)
      else mcp_handlers.get_registered_tools server_tools
           = mcp_handlers.known_tools
  end.
Proof.
  destruct server_tools as [[|item items]|]; try reflexivity.
  destruct (forallb _ (item :: items)) eqn:Hall.
  - now apply get_registered_tools_names.
  - unfold mcp_handlers.get_registered_tools.
    destruct (tools_loop_unreadable _ [] Hall) as (e & ->). reflexivity.
Qed.

(** The schema of [get_registered_tools]. *)

Lemma registered_infer_type ann :
  mcp_handlers.infer_type ann [("type", JStr "string")]
  = [("type", JStr (declared_type ann))].
Proof.
  destruct ann as [[| | | |s]|]; cbn; auto.
  destruct (String.prefix "List" s); reflexivity.
Qed.

Lemma registered_loop_required params : forall properties required,
  snd (mcp_handlers.schema_loop params properties required)
  = (required
     ++ map param_name
          (List.filter
             (fun p => negb (String.eqb (param_name p) "service")
                       && negb (has_default p)) params))%list.
Proof.
  induction params as [|p ps IH]; intros properties required;
    cbn [mcp_handlers.schema_loop List.filter].
  - cbn. now rewrite app_nil_r.
  - unfold has_default at 1.
    destruct (String.eqb (param_name p) "service"); cbn [negb andb].
    + apply IH.
    + destruct (param_default p); cbn [negb map]; rewrite IH; auto.
      now rewrite <- app_assoc.
Qed.

Lemma registered_loop_untouched params k : forall properties required,
  ~ In k (map param_name params) ->
  Dict.get k (fst (mcp_handlers.schema_loop params properties required))
  = Dict.get k properties.
Proof.
  induction params as [|p ps IH]; intros properties required Hk;
    cbn [mcp_handlers.schema_loop]; auto.
  cbn [map In] in Hk.
  destruct (String.eqb (param_name p) "service"); [apply IH; tauto|].
  destruct (param_default p); rewrite IH by tauto;
    apply DictFacts.get_set_ne; tauto.
Qed.

Lemma registered_loop_service params : forall properties required,
  Dict.get "service"
    (fst (mcp_handlers.schema_loop params properties required))
  = Dict.get "service" properties.
Proof.
  induction params as [|p ps IH]; intros properties required;
    cbn [mcp_handlers.schema_loop]; auto.
  destruct (String.eqb_spec (param_name p) "service") as [Heq|Hne];
    [apply IH|].
  destruct (param_default p); rewrite IH; apply DictFacts.get_set_ne;
    assumption.
Qed.

(** X16.  The schema that [get_registered_tools] infers for a signature:
    the parameter [service] has no entry; every other parameter has an entry
    with one of the four types, which holds the declared default under
    [default] exactly when the parameter has one; and a parameter is listed
    in [required] exactly when it has no default. *)
Theorem registered_schema (params : list Param) :
  List.NoDup (map param_name params) ->
  let '(properties, required) := mcp_handlers.schema_loop params [] [] in
  Dict.get "service" properties = None
  /\ forall p, In p params -> param_name p <> "service" ->
       Dict.get (param_name p) properties = Some (registered_entry p)
       /\ In (declared_type (param_annotation p))
             ["string"; "integer"; "boolean"; "array"]
       /\ (In (param_name p) required <-> param_default p = None).
Proof.
  intros Hnd.
  destruct (mcp_handlers.schema_loop params [] [])
    as [properties required] eqn:E.
  assert (Hp : properties = fst (mcp_handlers.schema_loop params [] []))
    by now rewrite E.
  assert (Hr : required = snd (mcp_handlers.schema_loop params [] []))
    by now rewrite E.
  split; [rewrite Hp; apply registered_loop_service|].
  intros p Hin Hne. split; [|split].
  - rewrite Hp. clear -Hnd Hin Hne.
    generalize (@nil (string * json)) (@nil string).
    induction params as [|p0 ps IH]; intros properties required;
      cbn [mcp_handlers.schema_loop map In] in *; [tauto|].
    apply List.NoDup_cons_iff in Hnd as [Hfresh Hnd].
    destruct Hin as [->|Hin].
    + apply String.eqb_neq in Hne. rewrite Hne. unfold registered_entry.
      destruct (param_default p);
        rewrite registered_loop_untouched by assumption;
        rewrite registered_infer_type; apply DictFacts.get_set_eq.
    + destruct (String.eqb (param_name p0) "service"); [now apply IH|].
      destruct (param_default p0); now apply IH.
  - apply declared_type_family.
  - rewrite Hr, registered_loop_required. cbn [app]. rewrite in_map_iff.
    split.
    + intros (q & Hname & Hq). apply filter_In in Hq as [Hq Hcond].
      assert (q = p) as ->.
      { clear -Hnd Hin Hq Hname.
        induction params as [|a l IH]; cbn [map In] in *; [tauto|].
        apply List.NoDup_cons_iff in Hnd as [Hfresh Hnd].
        destruct Hin as [->|Hin], Hq as [->|Hq]; auto.
        - exfalso. apply Hfresh. rewrite <- Hname. now apply in_map.
        - exfalso. apply Hfresh. rewrite Hname. now apply in_map. }
      apply andb_true_iff in Hcond as [_ Hd]. unfold has_default in Hd.
      destruct (param_default p); [discriminate|reflexivity].
    + intros Hd. exists p. split; [reflexivity|]. apply filter_In.
      split; [assumption|]. apply String.eqb_neq in Hne. rewrite Hne.
      unfold has_default. now rewrite Hd.
Qed.

Lemma registered_schema_witness :
  Dict.get "b"
    (fst (mcp_handlers.schema_loop
            [Sample.param "a" (Some AnnStr) None;
             Sample.param "b" (Some AnnInt) (Some (JInt 5))] [] []))
  = Some (JObj [("type", JStr "integer"); ("default", JInt 5)]).
Proof.
  pose proof (registered_schema
                [Sample.param "a" (Some AnnStr) None;
                 Sample.param "b" (Some AnnInt) (Some (JInt 5))]) as H.
  destruct (mcp_handlers.schema_loop _ [] []) as [properties required].
  refine (proj1 (proj2 (H _) (Sample.param "b" (Some AnnInt) (Some (JInt 5)))
                   _ _)).
  - constructor; [intros [H'|[]]; discriminate|].
    constructor; [intros []|constructor].
  - right. now left.
  - discriminate.
Defined.

(** ** Discovery of the tools *)

Lemma discover_tools_loop_lookup items name : forall tools_registry,
  List.NoDup (Dict.keys items) ->
  Dict.get name (discover_tools_loop items tools_registry)
  = match Dict.get name items with
    | Some info =>
        match mcp_handlers.info_func info with
        | Some func => Some func
        | None => Dict.get name tools_registry
        end
    | None => Dict.get name tools_registry
    end.
Proof.
  induction items as [|[k info] items IH]; intros tools_registry Hnd;
    cbn [discover_tools_loop Dict.get]; auto.
  cbn [Dict.keys map fst] in Hnd.
  apply List.NoDup_cons_iff in Hnd as [Hfresh Hnd].
  rewrite IH by assumption.
  destruct (String.eqb_spec name k) as [->|Hne].
  - apply DictFacts.get_None_keys in Hfresh. rewrite Hfresh.
    destruct (mcp_handlers.info_func info); [|reflexivity].
    apply DictFacts.get_set_eq.
  - assert (Hacc : Dict.get name
                     (match mcp_handlers.info_func info with
                      | Some func => Dict.set k func tools_registry
                      | None => tools_registry
                      end) = Dict.get name tools_registry).
    { destruct (mcp_handlers.info_func info); [|reflexivity].
      apply DictFacts.get_set_ne. congruence. }
    now rewrite Hacc.
Qed.

Lemma discover_attrs_loop_lookup attrs name : forall tools_registry,
  forallb getattr_returns attrs = true ->
  Dict.get name (discover_attrs_loop attrs tools_registry)
  = match marked_attr name attrs with
    | Some attr => Some attr
    | None => Dict.get name tools_registry
    end.
Proof.
  induction attrs as [|[k [[attr|]|e]] attrs IH]; intros tools_registry Hall;
    cbn [discover_attrs_loop marked_attr forallb] in *; auto;
    try discriminate.
  rewrite IH by assumption.
  destruct (marked_attr name attrs); [reflexivity|].
  destruct (String.eqb_spec name k) as [->|Hne].
  - apply DictFacts.get_set_eq.
  - apply DictFacts.get_set_ne. congruence.
Qed.

Lemma discover_attrs_loop_truncated pre k e post : forall tools_registry,
  discover_attrs_loop (pre ++ (k, Raised e) :: post) tools_registry
  = discover_attrs_loop pre tools_registry.
Proof.
  induction pre as [|[k' [[attr|]|e']] pre IH]; intros tools_registry;
    cbn [app discover_attrs_loop]; auto.
Qed.

(** X17.  What [_discover_tools] registers.  When no attribute of the server
    raises, a name is bound to the attribute of that name that carries
    [__mcp_tool__] if there is one, else to the [func] of the entry of that
    name in [server._tools] if that entry has one, and is not registered
    otherwise.  When [getattr] raises on an attribute, the discovery ends
    there without a failure: the registry is the one discovered from the
    attributes before it, and no attribute after it is registered. *)
Theorem discover_tools_registers (server : Server) :
  List.NoDup (Dict.keys (default [] (server_tools server))) ->
  (forallb getattr_returns (server_dir server) = true ->
   forall name,
     Dict.get name (discover_tools server)
     = match marked_attr name (server_dir server) with
       | Some attr => Some attr
       | None =>
           match server_tools server with
           | Some items =>
               match Dict.get name items with
               | Some info => mcp_handlers.info_func info
               | None => None
               end
           | None => None
           end
       end)
  /\ (forall pre k e post,
        server_dir server = (pre ++ (k, Raised e) :: post)%list ->
        discover_tools server
        = discover_tools {| server_tools := server_tools server;
                            server_dir := pre |}).
Proof.
  intros Hnd. split.
  - intros Hall name. unfold discover_tools.
    rewrite discover_attrs_loop_lookup by assumption.
    destruct (marked_attr name (server_dir server)); [reflexivity|].
    destruct (server_tools server) as [[|item items]|]; try reflexivity.
    cbn [default] in Hnd. rewrite discover_tools_loop_lookup by assumption.
    destruct (Dict.get name (item :: items)) as [info|]; [|reflexivity].
    now destruct (mcp_handlers.info_func info).
  - intros pre k e post Hdir. unfold discover_tools. cbn [server_tools server_dir].
    rewrite Hdir. apply discover_attrs_loop_truncated.
Qed.

Lemma discover_tools_registers_witness :
  Dict.get "add"
    (discover_tools
       {| server_tools := Sample.server_tools "add" Sample.add;
          server_dir := [("_tools", Returned None);
                         ("search", Returned (Some Sample.search))] |})
  = Some Sample.add.
Proof.
  refine (proj1 (discover_tools_registers
            {| server_tools := Sample.server_tools "add" Sample.add;
               server_dir := [("_tools", Returned None);
                              ("search", Returned (Some Sample.search))] |}
            _) eq_refl "add").
  cbn. constructor; [intros []|constructor].
Defined.

Lemma dict_keys_set_fresh {V} k (v : V) (d : Dict.t V) :
  ~ In k (Dict.keys d) -> Dict.keys (Dict.set k v d) = (Dict.keys d ++ [k])%list.
Proof.
  unfold Dict.keys. induction d as [|[k' v'] d IH]; cbn [Dict.set map fst app];
    intros Hk; [reflexivity|].
  destruct (String.eqb_spec k k') as [->|Hne]; [cbn in Hk; tauto|].
  cbn [map fst]. rewrite IH; [reflexivity|]. cbn in Hk. tauto.
Qed.

Lemma discover_tools_loop_keys items : forall tools_registry,
  List.NoDup (Dict.keys tools_registry ++ Dict.keys items) ->
  forallb (fun item =>
             match mcp_handlers.info_func (snd item) with
             | Some _ => true
             | None => false
             end) items = true ->
  discover_tools_loop items tools_registry
  = (tools_registry
     ++ flat_map (fun item =>
                    match mcp_handlers.info_func (snd item) with
                    | Some func => [(fst item, func)]
                    | None => []
                    end) items)%list.
Proof.
  induction items as [|[k info] items IH]; intros tools_registry Hnd Hall;
    cbn [discover_tools_loop flat_map forallb fst snd] in *.
  - now rewrite app_nil_r.
  - apply andb_true_iff in Hall as [Hfunc Hall].
    destruct (mcp_handlers.info_func info) as [func|]; [|discriminate].
    cbn [Dict.keys map fst] in Hnd.
    assert (Hfresh : ~ In k (Dict.keys tools_registry)).
    { intros Hin. apply List.NoDup_remove_2 in Hnd. apply Hnd.
      apply in_or_app. now left. }
    assert (Hset : Dict.set k func tools_registry
                   = (tools_registry ++ [(k, func)])%list).
    { clear -Hfresh. unfold Dict.keys in Hfresh.
      induction tools_registry as [|[k' v'] d IH]; cbn [Dict.set app];
        [reflexivity|].
      destruct (String.eqb_spec k k') as [->|Hne]; [cbn in Hfresh; tauto|].
      rewrite IH; [reflexivity|]. cbn in Hfresh. tauto. }
    rewrite IH; [|rewrite Hset|assumption].
    + rewrite Hset, <- app_assoc. reflexivity.
    + unfold Dict.keys. rewrite map_app. cbn [map fst].
      rewrite <- app_assoc. exact Hnd.
Qed.

(** X18.  The two tool lists agree on the tools they name.  For a server
    whose [_tools] entries all have a [func] with a readable signature, and
    which has no attribute carrying [__mcp_tool__], the list that
    [get_tools_list] answers over the discovered registry names the same
    tools, in the same order, as [get_registered_tools] over
    [server._tools]. *)
Theorem tool_lists_agree (rt : PyRuntime) (server : Server)
    (items : Dict.t mcp_handlers.ToolInfo) :
  server_tools server = Some items ->
  List.NoDup (Dict.keys items) ->
  forallb (fun item =>
             match mcp_handlers.info_func (snd item) with
             | Some _ => true
             | None => false
             end) items = true ->
  forallb (fun item => readable (snd item)) items = true ->
  forallb (fun a => match snd a with
                    | Returned None => true
                    | _ => false
                    end) (server_dir server) = true ->
  map name_of (get_tools_list rt (discover_tools server))
  = map name_of (mcp_handlers.get_registered_tools (server_tools server))
  /\ Dict.keys (discover_tools server) = Dict.keys items.
Proof.
  intros Htools Hnd Hfunc Hread Hattrs.
  assert (Hreg : discover_tools server
                 = flat_map (fun item =>
                      match mcp_handlers.info_func (snd item) with
                      | Some func => [(fst item, func)]
                      | None => []
                      end) items).
  { unfold discover_tools. rewrite Htools.
    assert (Hloop : forall acc,
              discover_attrs_loop (server_dir server) acc = acc).
    { clear -Hattrs. induction (server_dir server) as [|[k [[a|]|e]] l IH];
        intros acc; cbn [discover_attrs_loop forallb snd] in *;
        try discriminate; auto. }
    rewrite Hloop. destruct items as [|item items']; [reflexivity|].
    now rewrite discover_tools_loop_keys. }
  assert (Hkeys : Dict.keys (discover_tools server) = Dict.keys items).
  { rewrite Hreg. clear -Hfunc. unfold Dict.keys.
    induction items as [|[k info] items IH];
      cbn [flat_map forallb map fst snd] in *; [reflexivity|].
    apply andb_true_iff in Hfunc as [Hf Hall].
    destruct (mcp_handlers.info_func info); [|discriminate].
    cbn [app map fst]. now rewrite IH. }
  split; [|exact Hkeys].
  rewrite get_tools_list_names, Hkeys, Htools.
  now rewrite get_registered_tools_names.
Qed.

Lemma tool_lists_agree_witness :
  map name_of
    (get_tools_list Sample.rt
       (discover_tools
          {| server_tools := Sample.server_tools "add" Sample.add;
             server_dir := [("_tools", Returned None)] |}))
  = map name_of
      (mcp_handlers.get_registered_tools
         (Sample.server_tools "add" Sample.add)).
Proof.
  refine (proj1 (tool_lists_agree Sample.rt
            {| server_tools := Sample.server_tools "add" Sample.add;
               server_dir := [("_tools", Returned None)] |}
            [("add", {| mcp_handlers.info_description := None;
                        mcp_handlers.info_func := Some Sample.add |})]
            eq_refl _ eq_refl eq_refl eq_refl)).
  cbn. constructor; [intros []|constructor].
Defined.

(** ** Configuration *)

Lemma and_then_Returned {A B} (o : outcome A) (k : A -> outcome B) b :
  and_then o k = Returned b -> exists a, o = Returned a /\ k a = Returned b.
Proof. destruct o as [a|e]; cbn; [eauto|discriminate]. Qed.

(** The fields of a loaded configuration that the methods read. *)
Lemma load_config_fields rt lib env config :
  load_config rt lib env = Returned config ->
  ENVIRONMENT config = getenv env "ENVIRONMENT" "development"
  /\ MULTI_ACCOUNT_ENABLED config
     = getenv_flag lib env "MULTI_ACCOUNT_ENABLED" "true"
  /\ ALLOWED_GOOGLE_ACCOUNTS config
     = comma_list rt (getenv env "ALLOWED_GOOGLE_ACCOUNTS" "") []
  /\ match json_loads lib (getenv env "ACCOUNT_CONFIGS" "{}") with
     | Loads v => ACCOUNT_CONFIGS config = v
     | DecodeError => ACCOUNT_CONFIGS config = JObj []
     | LoadsRaises _ => False
     end
  /\ DEFAULT_TOOLS config
     = comma_list rt
         (getenv env "DEFAULT_TOOLS" "gmail,drive,calendar,docs,sheets") []
  /\ GOOGLE_CLIENT_ID config = getenv env "GOOGLE_CLIENT_ID" ""
  /\ GOOGLE_CLIENT_SECRET config = getenv env "GOOGLE_CLIENT_SECRET" ""
  /\ WORKSPACE_MCP_PORT config = PORT config.
Proof.
  unfold load_config. intros H.
  apply and_then_Returned in H as (port & _ & H).
  apply and_then_Returned in H as (configs & Hconfigs & H).
  repeat (apply and_then_Returned in H as (? & _ & H)).
  injection H as <-. cbn.
  repeat split; try reflexivity.
  destruct (json_loads lib (getenv env "ACCOUNT_CONFIGS" "{}"));
    [now injection Hconfigs|now injection Hconfigs|discriminate].
Qed.

Lemma comma_list_blank rt s default :
  s <> "" ->
  (forall piece, In piece (split_on ","%char s) -> str_strip rt piece = "") ->
  comma_list rt s default = [].
Proof.
  intros Hs Hblank. unfold comma_list.
  apply String.eqb_neq in Hs. rewrite Hs.
  induction (split_on ","%char s) as [|piece pieces IH]; cbn [flat_map];
    [reflexivity|].
  rewrite (Hblank piece) by now left. cbn [String.eqb app].
  apply IH. intros p Hp. apply Hblank. now right.
Qed.

Lemma comma_list_nonempty_entries rt s :
  Forall (fun entry => entry <> "") (comma_list rt s []).
Proof.
  unfold comma_list. destruct (String.eqb s ""); [constructor|].
  induction (split_on ","%char s) as [|piece pieces IH]; cbn [flat_map];
    [constructor|].
  destruct (String.eqb_spec (str_strip rt piece) "") as [Heq|Hne];
    cbn [app]; [assumption|]. constructor; assumption.
Qed.

(** X19.  The allow list of a loaded configuration never holds an empty
    entry, and when [ALLOWED_GOOGLE_ACCOUNTS] is unset, empty or made of
    separators and blanks only, the list is empty and [is_account_allowed]
    admits every account, as it does whenever [MULTI_ACCOUNT_ENABLED] is not
    "true". *)
Theorem blank_allow_list_admits_everyone
    (rt : PyRuntime) (lib : PyStrings) (env : Dict.t string)
    (config : Config) :
  load_config rt lib env = Returned config ->
  Forall (fun account => account <> "") (ALLOWED_GOOGLE_ACCOUNTS config)
  /\ ((forall piece,
         In piece (split_on ","%char (getenv env "ALLOWED_GOOGLE_ACCOUNTS" ""))
         -> str_strip rt piece = "") ->
      forall email, is_account_allowed lib config email = true)
  /\ (getenv_flag lib env "MULTI_ACCOUNT_ENABLED" "true" = false ->
      forall email, is_account_allowed lib config email = true).
Proof.
  intros Hload.
  destruct (load_config_fields rt lib env config Hload)
    as (_ & Hmulti & Hallowed & _).
  split; [|split].
  - rewrite Hallowed. apply comma_list_nonempty_entries.
  - intros Hblank email. unfold is_account_allowed.
    assert (ALLOWED_GOOGLE_ACCOUNTS config = []) as ->.
    { rewrite Hallowed.
      destruct (String.eqb_spec (getenv env "ALLOWED_GOOGLE_ACCOUNTS" "") "")
        as [Heq|Hne].
      - unfold comma_list. now rewrite Heq.
      - now apply comma_list_blank. }
    now destruct (negb (MULTI_ACCOUNT_ENABLED config)).
  - intros Hflag email. unfold is_account_allowed.
    now rewrite Hmulti, Hflag.
Qed.

Lemma blank_allow_list_admits_everyone_witness :
  exists config,
    load_config Sample.rt SampleConfig.lib SampleConfig.production
    = Returned config
    /\ is_account_allowed SampleConfig.lib config "anyone@example.com" = true.
Proof.
  eexists. split; [reflexivity|].
  refine (proj1 (proj2 (blank_allow_list_admits_everyone Sample.rt
            SampleConfig.lib SampleConfig.production _ eq_refl)) _ _).
  intros piece [<-|[]]. reflexivity.
Defined.

(** X20.  The account settings of a loaded configuration.  When
    [ACCOUNT_CONFIGS] is not JSON it is replaced by an empty object, and
    every account gets [DEFAULT_TOOLS] and no scopes, as does every account
    that an object does not mention; an account whose entry is an object
    gets the [tools] and [scopes] of that entry, else [DEFAULT_TOOLS] and no
    scopes; an account whose entry is not an object makes
    [get_account_tools] raise [AttributeError]; and when [ACCOUNT_CONFIGS]
    is JSON other than an object, loading succeeds and every later
    [get_account_config], [get_account_tools] and [get_account_scopes]
    raises [AttributeError].  A configuration does not load when
    [json.loads] raises another exception than [JSONDecodeError]. *)
Theorem account_settings
    (rt : PyRuntime) (lib : PyStrings) (env : Dict.t string)
    (config : Config) (email : string) :
  load_config rt lib env = Returned config ->
  let default_tools := JArr (map JStr (DEFAULT_TOOLS config)) in
  match json_loads lib (getenv env "ACCOUNT_CONFIGS" "{}") with
  | DecodeError =>
      get_account_tools config email = Returned default_tools
      /\ get_account_scopes config email = Returned (JArr [])
  | Loads (JObj d) =>
      match Dict.get email d with
      | None =>
          get_account_tools config email = Returned default_tools
          /\ get_account_scopes config email = Returned (JArr [])
      | Some (JObj account) =>
          get_account_tools config email
          = Returned (Dict.get_default "tools" default_tools account)
          /\ get_account_scopes config email
             = Returned (Dict.get_default "scopes" (JArr []) account)
      | Some _ =>
          exists message,
            get_account_tools config email
            = Raised (Exn AttributeError message)
      end
  | Loads _ =>
      exists message,
        get_account_config config email = Raised (Exn AttributeError message)
        /\ get_account_tools config email
           = Raised (Exn AttributeError message)
        /\ get_account_scopes config email
           = Raised (Exn AttributeError message)
  | LoadsRaises _ => False
  end.
Proof.
  intros Hload default_tools.
  destruct (load_config_fields rt lib env config Hload)
    as (_ & _ & _ & Hconfigs & _).
  unfold get_account_tools, get_account_scopes, get_account_config.
  subst default_tools.
  destruct (json_loads lib (getenv env "ACCOUNT_CONFIGS" "{}")) as [v| |e];
    [|rewrite Hconfigs; split; reflexivity|exact Hconfigs].
  rewrite Hconfigs.
  destruct v as [| | | | | | |d]; try (eexists; repeat split; reflexivity).
  cbn [py_get and_then]. unfold Dict.get_default.
  destruct (Dict.get email d) as [v|]; [|split; reflexivity].
  destruct v; first [split; reflexivity | eexists; reflexivity].
Qed.

Lemma account_settings_witness :
  exists config message,
    load_config Sample.rt SampleConfig.lib
      (("ACCOUNT_CONFIGS", "[]") :: SampleConfig.production)
    = Returned config
    /\ get_account_tools config "a@example.com"
       = Raised (Exn AttributeError message).
Proof.
  eexists.
  pose proof (account_settings Sample.rt SampleConfig.lib
                (("ACCOUNT_CONFIGS", "[]") :: SampleConfig.production)
                _ "a@example.com" eq_refl) as H.
  cbn in H. destruct H as (message & _ & H & _).
  exists message. split; [reflexivity|exact H].
Defined.

(** ** Credentials *)





(** ** The generated secret *)

Lemma join_choices_spec randbelow n : forall k,
  (forall i, (randbelow i < String.length alphabet)%nat) ->
  exists s,
    join_choices randbelow k n = Returned s
    /\ String.length s = n
    /\ forall i c, String.get i s = Some c ->
         exists j, String.get j alphabet = Some c.
Proof.
  induction n as [|n IH]; intros k Hbelow; cbn [join_choices].
  - exists EmptyString. repeat split. intros i c H. destruct i; discriminate.
  - destruct (String.get (randbelow k) alphabet) as [c|] eqn:Hc.
    + destruct (IH (S k) Hbelow) as (s & -> & Hlen & Hin).
      exists (String c s). cbn [and_then String.length]. repeat split; auto.
      intros [|i] c' H; cbn [String.get] in H.
      * injection H as <-. eauto.
      * eauto.
    + exfalso. specialize (Hbelow k).
      clear -Hc Hbelow. revert Hc Hbelow.
      generalize (randbelow k). generalize alphabet.
      induction s as [|a s IHs]; intros [|i] Hget Hlt; cbn in *;
        try lia; try discriminate.
      apply (IHs i); [assumption|lia].
Qed.

(** X23.  [generate_jwt_secret] returns a string of exactly the requested
    length (the empty string for a length that is not positive) whose every
    character is one of the 70 characters of the alphabet (letters, digits
    and [!@#$%^&*]), whatever indices [secrets.choice] draws within the
    alphabet. *)
Theorem generate_jwt_secret_spec (randbelow : nat -> nat) (length : Z) :
  (forall i, (randbelow i < 70)%nat) ->
  exists secret,
    generate_jwt_secret randbelow length = Returned secret
    /\ Z.of_nat (String.length secret) = Z.max 0 length
    /\ forall i c, String.get i secret = Some c ->
         exists j, (j < 70)%nat /\ String.get j alphabet = Some c.
Proof.
  intros Hbelow. unfold generate_jwt_secret.
  destruct (join_choices_spec randbelow (Z.to_nat length) 0 Hbelow)
    as (s & Hs & Hlen & Hin).
  exists s. split; [assumption|]. split; [lia|].
  intros i c Hget. destruct (Hin i c Hget) as [j Hj]. exists j.
  split; [|assumption].
  destruct (Nat.lt_ge_cases j 70) as [Hlt|Hge]; [assumption|].
  exfalso. clear -Hj Hge. revert Hj.
  assert (Hnone : forall m, String.get (70 + m) alphabet = None)
    by (intros m; reflexivity).
  replace j with (70 + (j - 70))%nat by lia. now rewrite Hnone.
Qed.

Lemma generate_jwt_secret_spec_witness :
  exists secret,
    generate_jwt_secret (fun i => (i * 7) mod 70)%nat 64 = Returned secret
    /\ Z.of_nat (String.length secret) = Z.max 0 64.
Proof.
  destruct (generate_jwt_secret_spec (fun i => (i * 7) mod 70)%nat 64)
    as (secret & Hs & Hlen & _).
  - intros i. apply Nat.mod_upper_bound. discriminate.
  - exists secret. split; [exact Hs|exact Hlen].
Defined.

(** ** Loading the configuration *)

Lemma getenv_int_returns lib env key default :
  (exists z, getenv_int lib env key default = Returned z)
  <-> (forall s, Dict.get key env = Some s ->
         exists z, int_of_str lib s = Returned z).
Proof.
  unfold getenv_int. destruct (Dict.get key env) as [s|].
  - split; [intros H s' [= <-]; exact H|intros H; apply (H s eq_refl)].
  - split; [intros _ s' [=]|intros _; eauto].
Qed.

(** X24.  [_load_config] fails exactly when [int()] fails on a setting it
    converts or [json.loads] raises another exception than
    [JSONDecodeError] on [ACCOUNT_CONFIGS]: it returns a configuration if
    and only if [PORT], or [WORKSPACE_MCP_PORT] when [PORT] is unset, and
    each of [SESSION_TIMEOUT_HOURS], [RATE_LIMIT_REQUESTS_PER_MINUTE],
    [GMAIL_MAX_RESULTS], [DRIVE_MAX_RESULTS], [CALENDAR_MAX_RESULTS] and
    [PROMETHEUS_PORT] is unset or an integer, and [json.loads] returns or
    raises [JSONDecodeError] on [ACCOUNT_CONFIGS].  No other setting can
    make it fail, and [WORKSPACE_MCP_PORT] is not converted when [PORT] is
    set. *)
Theorem load_config_returns
    (rt : PyRuntime) (lib : PyStrings) (env : Dict.t string) :
  (exists config, load_config rt lib env = Returned config)
  <-> (match Dict.get "PORT" env with
       | Some s => exists port, int_of_str lib s = Returned port
       | None =>
           forall s, Dict.get "WORKSPACE_MCP_PORT" env = Some s ->
             exists port, int_of_str lib s = Returned port
       end
       /\ (forall e, json_loads lib (getenv env "ACCOUNT_CONFIGS" "{}")
                     <> LoadsRaises e)
       /\ Forall (fun key =>
                    forall s, Dict.get key env = Some s ->
                      exists z, int_of_str lib s = Returned z)
            ["SESSION_TIMEOUT_HOURS"; "RATE_LIMIT_REQUESTS_PER_MINUTE";
             "GMAIL_MAX_RESULTS"; "DRIVE_MAX_RESULTS";
             "CALENDAR_MAX_RESULTS"; "PROMETHEUS_PORT"]).
Proof.
  split.
  - intros [config H]. unfold load_config in H.
    apply and_then_Returned in H as (port & Hport & H).
    apply and_then_Returned in H as (configs & Hconfigs & H).
    apply and_then_Returned in H as (z1 & H1 & H).
    apply and_then_Returned in H as (z2 & H2 & H).
    apply and_then_Returned in H as (z3 & H3 & H).
    apply and_then_Returned in H as (z4 & H4 & H).
    apply and_then_Returned in H as (z5 & H5 & H).
    apply and_then_Returned in H as (z6 & H6 & H).
    split; [|split].
    + destruct (Dict.get "PORT" env) as [s|]; [eauto|].
      apply (getenv_int_returns lib env "WORKSPACE_MCP_PORT" 8000). eauto.
    + intros e He. rewrite He in Hconfigs. discriminate.
    + repeat constructor;
        eapply getenv_int_returns; eauto.
  - intros (Hport & Hloads & Hrest).
    assert (Hp : exists port,
               match Dict.get "PORT" env with
               | Some s => int_of_str lib s
               | None => getenv_int lib env "WORKSPACE_MCP_PORT" 8000
               end = Returned port).
    { destruct (Dict.get "PORT" env) as [s|]; [assumption|].
      now apply getenv_int_returns. }
    destruct Hp as [port Hp].
    assert (Hc : exists configs,
               match json_loads lib (getenv env "ACCOUNT_CONFIGS" "{}") with
               | Loads v => Returned v
               | DecodeError => Returned (JObj [])
               | LoadsRaises e => Raised e
               end = Returned configs).
    { destruct (json_loads lib (getenv env "ACCOUNT_CONFIGS" "{}")) as [v| |e];
        eauto.
      now contradiction (Hloads e). }
    destruct Hc as [configs Hc].
    inversion_clear Hrest as [|? ? H1 Hrest1].
    inversion_clear Hrest1 as [|? ? H2 Hrest2].
    inversion_clear Hrest2 as [|? ? H3 Hrest3].
    inversion_clear Hrest3 as [|? ? H4 Hrest4].
    inversion_clear Hrest4 as [|? ? H5 Hrest5].
    inversion_clear Hrest5 as [|? ? H6 _].
    apply (getenv_int_returns lib env _ 24) in H1 as [z1 H1].
    apply (getenv_int_returns lib env _ 60) in H2 as [z2 H2].
    apply (getenv_int_returns lib env _ 50) in H3 as [z3 H3].
    apply (getenv_int_returns lib env _ 100) in H4 as [z4 H4].
    apply (getenv_int_returns lib env _ 50) in H5 as [z5 H5].
    apply (getenv_int_returns lib env _ 9090) in H6 as [z6 H6].
    unfold load_config. rewrite Hp. cbn [and_then].
    rewrite Hc. cbn [and_then].
    rewrite H1. cbn [and_then]. rewrite H2. cbn [and_then].
    rewrite H3. cbn [and_then]. rewrite H4. cbn [and_then].
    rewrite H5. cbn [and_then]. rewrite H6. cbn [and_then].
    eauto.
Qed.

Lemma string_append_assoc (a b c : string) :
  ((a ++ b) ++ c = a ++ (b ++ c))%string.
Proof. induction a as [|x a IH]; cbn; [reflexivity|now rewrite IH]. Qed.

Lemma load_config_port rt lib env config :
  load_config rt lib env = Returned config ->
  match Dict.get "PORT" env with
  | Some s => int_of_str lib s
  | None => getenv_int lib env "WORKSPACE_MCP_PORT" 8000
  end = Returned (PORT config)
  /\ WORKSPACE_MCP_BASE_URI config
     = getenv env "WORKSPACE_MCP_BASE_URI" "http://localhost"
  /\ MCP_SERVER_URL config
     = getenv env "MCP_SERVER_URL"
         (WORKSPACE_MCP_BASE_URI config ++ ":" ++ py_str rt (JInt (PORT config))
          ++ "/mcp").
Proof.
  unfold load_config. intros H.
  apply and_then_Returned in H as (port & Hport & H).
  repeat (apply and_then_Returned in H as (? & _ & H)).
  injection H as <-. cbn. auto.
Qed.

(** X25.  The port of a loaded configuration.  [PORT] wins over
    [WORKSPACE_MCP_PORT], which wins over 8000; the attribute
    [WORKSPACE_MCP_PORT] is the same number; [get_server_info] reports it;
    and unless [MCP_SERVER_URL] is set, the server URL is built from the same
    base URI and port as the first redirect URI of [create_client_secrets]. *)
Theorem loaded_port
    (rt : PyRuntime) (lib : PyStrings) (env : Dict.t string)
    (config : Config) :
  load_config rt lib env = Returned config ->
  match Dict.get "PORT" env, Dict.get "WORKSPACE_MCP_PORT" env with
  | Some s, _ => int_of_str lib s = Returned (PORT config)
  | None, Some s => int_of_str lib s = Returned (PORT config)
  | None, None => PORT config = 8000
  end
  /\ WORKSPACE_MCP_PORT config = PORT config
  /\ Dict.get "port" (match get_server_info config with
                       | JObj info => info
                       | _ => []
                       end)
     = Some (JInt (PORT config))
  /\ (Dict.get "MCP_SERVER_URL" env = None ->
      exists origin,
        MCP_SERVER_URL config = origin ++ "/mcp"
        /\ hd "" (redirect_uris rt config) = origin ++ "/oauth2callback").
Proof.
  intros Hload.
  destruct (load_config_port rt lib env config Hload) as (Hport & Hbase & Hurl).
  destruct (load_config_fields rt lib env config Hload)
    as (_ & _ & _ & _ & _ & _ & _ & Hsame).
  split; [|split; [|split]].
  - destruct (Dict.get "PORT" env) as [s|]; [assumption|].
    unfold getenv_int in Hport.
    destruct (Dict.get "WORKSPACE_MCP_PORT" env) as [s|]; [assumption|].
    now injection Hport.
  - assumption.
  - reflexivity.
  - intros Hunset.
    exists (WORKSPACE_MCP_BASE_URI config ++ ":"
            ++ py_str rt (JInt (PORT config))).
    split.
    + rewrite Hurl. unfold getenv, Dict.get_default. rewrite Hunset.
      now rewrite !string_append_assoc.
    + cbn [redirect_uris hd]. now rewrite !string_append_assoc.
Qed.

Lemma loaded_port_witness :
  exists config,
    load_config Sample.rt SampleConfig.lib
      (("WORKSPACE_MCP_PORT", "not a number") :: SampleConfig.production)
    = Returned config
    /\ PORT config = 8080 /\ WORKSPACE_MCP_PORT config = 8080.
Proof.
  eexists. split; [reflexivity|].
  match goal with
  | |- PORT ?c = _ /\ _ =>
      pose proof (loaded_port Sample.rt SampleConfig.lib
                    (("WORKSPACE_MCP_PORT", "not a number")
                     :: SampleConfig.production) c eq_refl) as H
  end.
  destruct H as (_ & Hsame & _).
  split; [reflexivity|exact Hsame].
Defined.

(** ** The routes of core/mcp_handlers.py and the dispatcher *)

(** The answer of a route to an exception of the rendering. *)
Lemma route_error_rendered rt message :
  encodable message = true ->
  JSONResponse rt
    (JObj [("jsonrpc", JStr "2.0"); ("id", JInt 1);
           ("error",
            JObj [("code", JInt (-32603));
                  ("message", JStr ("Internal error: " ++ message))])]) 500
  = Returned
      (json_response
         (create_error_response (JInt 1) (-32603)
            ("Internal error: " ++ message) JNull) 500).
Proof.
  intros H. apply JSONResponse_renderable.
  change (renderable rt
            (create_error_response (JInt 1) (-32603)
               ("Internal error: " ++ message) JNull) = true).
  now rewrite renderable_error_response, encodable_internal_error, H.
Qed.

(** A route always answers: the result under [id] 1 when it can be
    rendered, and the error -32603 under [id] 1 when not. *)
Lemma route_answer rt result :
  let answer := create_mcp_response (JInt 1) result JNull in
  match JSONResponse rt answer 200 with
  | Returned response => Returned response
  | Raised e =>
      JSONResponse rt
        (JObj [("jsonrpc", JStr "2.0"); ("id", JInt 1);
               ("error",
                JObj [("code", JInt (-32603));
                      ("message", JStr ("Internal error: " ++ exn_str e))])])
        500
  end
  = Returned
      (if renderable_member rt result
       then json_response answer 200
       else json_response
              (create_error_response (JInt 1) (-32603)
                 ("Internal error: " ++ text (render_error_str rt answer))
                 JNull) 500).
Proof.
  intros answer.
  assert (Hrender : renderable rt answer = renderable_member rt result).
  { unfold answer. now rewrite renderable_success_response. }
  rewrite <- Hrender. destruct (renderable rt answer) eqn:H.
  - now rewrite JSONResponse_renderable.
  - destruct (JSONResponse_not_renderable rt answer 200 H) as (c & -> & _).
    apply route_error_rendered, text_encodable.
Qed.

Lemma handle_resources_list_eq rt :
  handle_resources_list rt
  = Returned
      (json_response
         (create_mcp_response (JInt 1) (JObj [("resources", JArr [])]) JNull)
         200).
Proof.
  pose proof (route_answer rt (JObj [("resources", JArr [])])) as H.
  cbn zeta in H. rewrite renderable_member_empty_list in H. exact H.
Qed.

Lemma handle_prompts_list_eq rt :
  handle_prompts_list rt
  = Returned
      (json_response
         (create_mcp_response (JInt 1) (JObj [("prompts", JArr [])]) JNull)
         200).
Proof.
  pose proof (route_answer rt (JObj [("prompts", JArr [])])) as H.
  cbn zeta in H. rewrite renderable_member_empty_list in H. exact H.
Qed.

Lemma handle_tools_list_eq rt server_tools :
  let result :=
    JObj [("tools", JArr (mcp_handlers.get_registered_tools server_tools))] in
  let answer := create_mcp_response (JInt 1) result JNull in
  handle_tools_list rt server_tools
  = Returned
      (if renderable_member rt result
       then json_response answer 200
       else json_response
              (create_error_response (JInt 1) (-32603)
                 ("Internal error: " ++ text (render_error_str rt answer))
                 JNull) 500).
Proof. exact (route_answer rt _). Qed.

(** X26.  The routes [/mcp/resources/list], [/mcp/prompts/list] and
    [/mcp/tools/list] answer with [id] 1 whatever the request, so their
    answer is the one of [handle_mcp_request] to the corresponding list
    method exactly when the request has [id] 1 (and, for the tools, when the
    two tool lists are equal and can be rendered as JSON: a list that cannot
    be rendered is answered with the error -32603 under [id] 1 by the route
    and under [id] null by [handle_mcp_request]). *)
Theorem list_routes_and_dispatcher
    (rt : PyRuntime) (tools_registry : Dict.t Callable)
    (request : Request) (d : Dict.t json) (w : World) :
  request_body request = Json (JObj d) ->
  is_JStr "2.0" (Dict.get_default "jsonrpc" JNull d) = true ->
  let method := Dict.get_default "method" JNull d in
  let answer := fst (handle_mcp_request rt tools_registry request w) in
  (method = JStr "resources/list" ->
   (answer = handle_resources_list rt
    <-> Dict.get_default "id" JNull d = JInt 1))
  /\ (method = JStr "prompts/list" ->
      (answer = handle_prompts_list rt
       <-> Dict.get_default "id" JNull d = JInt 1))
  /\ (method = JStr "tools/list" ->
      forall server_tools,
        answer = handle_tools_list rt server_tools
        <-> Dict.get_default "id" JNull d = JInt 1
            /\ get_tools_list rt tools_registry
               = mcp_handlers.get_registered_tools server_tools
            /\ renderable_member rt
                 (JObj [("tools", JArr (get_tools_list rt tools_registry))])
               = true).
Proof.
  intros Hbody Hv method answer. subst method answer.
  split; [|split]; intros Hm; try intros server_tools;
    rewrite (list_method_dispatch rt tools_registry request d w Hbody Hv)
      by (rewrite Hm; reflexivity);
    rewrite Hm; cbn [fst]; unfold rendered_or_internal_error;
    rewrite renderable_success_response;
    cbn [list_result is_JStr String.eqb Ascii.eqb Bool.eqb].
  - rewrite handle_resources_list_eq, renderable_member_empty_list.
    cbn [encodable]. rewrite andb_true_r. split.
    + destruct (renderable_member rt (Dict.get_default "id" JNull d));
        intros [= H]; auto.
    + intros ->. reflexivity.
  - rewrite handle_prompts_list_eq, renderable_member_empty_list.
    cbn [encodable]. rewrite andb_true_r. split.
    + destruct (renderable_member rt (Dict.get_default "id" JNull d));
        intros [= H]; auto.
    + intros ->. reflexivity.
  - rewrite handle_tools_list_eq. cbn zeta. split.
    + destruct (renderable_member rt (Dict.get_default "id" JNull d)
                && renderable_member rt
                     (JObj [("tools",
                             JArr (get_tools_list rt tools_registry))]))
        eqn:Hr;
        destruct (renderable_member rt
                    (JObj [("tools",
                            JArr (mcp_handlers.get_registered_tools
                                    server_tools))]));
        intros [= H1 H2]; try discriminate.
      apply andb_true_iff in Hr as [_ Hr]. auto.
    + intros (-> & <- & Hr). rewrite Hr. reflexivity.
Qed.

Lemma list_routes_and_dispatcher_witness :
  fst (handle_mcp_request Sample.rt Sample.tools_registry
         {| header_mcp_session_id := Some "s1";
            request_body := rpc (JInt 1) "resources/list" (JObj []) |}
         (new_manager 3600))
  = handle_resources_list Sample.rt.
Proof.
  apply (list_routes_and_dispatcher Sample.rt Sample.tools_registry
           {| header_mcp_session_id := Some "s1";
              request_body := rpc (JInt 1) "resources/list" (JObj []) |}
           _ (new_manager 3600) eq_refl eq_refl); reflexivity.
Defined.
